(** * Todolala: the line-oriented task store of [todo.c]

    A shallow embedding of the task store of [src/todo.h] (the part of
    the file that holds [todo.c], from [skip_leading_whitespace] to
    [call_fn_with_indexes]) and the properties of its operations.

    Conventions of the embedding.
    - A C string is the list of the characters before its terminating
      NUL ([cstring]); a file is the list of its bytes.
    - The NULL-terminated array [todo_lines] is an [option (list cstring)]:
      [None] is the NULL pointer, [Some lines] an array whose entries
      before the terminating NULL are [lines].
    - The globals ([todo_lines], the file named by [todos_filename]) and
      the standard output are the fields of [state]; every function of
      the program that touches them takes and returns a [state].
    - A function whose C text can read outside an array returns
      [option state], [None] standing for that undefined behaviour.
    - Line positions and counts are [nat] (documents of more lines
      than an [int] can count are outside the model); the task
      numbers a user types are C [int]s and are kept in [Z].
    - [realloc] and [strdup], and [malloc] of a positive size, are
      taken to succeed; the branches that call [exit] on their failure
      are not modelled. *)

From Stdlib Require Import ZArith Ascii String Lia.
From stdpp Require Import base tactics option list sorting.

Local Open Scope Z_scope.
Local Open Scope nat_scope.

(** ** The C library functions the program calls *)

Abbreviation cstring := (list ascii) (only parsing).

Definition NUL : ascii := "000"%char.
Definition LF : ascii := "010"%char.

(** A string literal of the source. *)
Definition lit (s : string) : cstring := list_ascii_of_string s.

(** [isspace] in the "C" locale (the program never calls [setlocale]):
    space, and the control characters from TAB (9) to CR (13). *)
Definition isspace (c : ascii) : bool :=
  let n := nat_of_ascii c in
  (n =? 32) || ((9 <=? n) && (n <=? 13)).

Definition isdigit (c : ascii) : bool :=
  let n := nat_of_ascii c in
  (48 <=? n) && (n <=? 57).

Definition code (c : ascii) : Z := Z.of_nat (nat_of_ascii c).

(** [strncmp s1 s2 n]: the difference of the first characters that
    differ among the first [n]; the end of a list is the NUL. *)
Fixpoint strncmp (s1 s2 : cstring) (n : nat) {struct n} : Z :=
  match n with
  | 0 => 0%Z
  | S n' =>
      match s1, s2 with
      | [], [] => 0%Z
      | [], c2 :: _ => (0 - code c2)%Z
      | c1 :: _, [] => code c1
      | c1 :: r1, c2 :: r2 =>
          if Ascii.eqb c1 c2 then strncmp r1 r2 n'
          else (code c1 - code c2)%Z
      end
  end.

(** [strncpy (buf + off) src n] for a [src] of at least [n] characters:
    the [n] characters of [buf] from offset [off] are replaced by the
    first [n] of [src]; no NUL is written. *)
Definition strncpy_at (off : nat) (src : cstring) (n : nat) (buf : cstring) : cstring :=
  take off buf ++ take n src ++ drop (off + n) buf.

(** [strdup buf]: the characters of [buf] before its first NUL. *)
Fixpoint strdup (buf : list ascii) : cstring :=
  match buf with
  | [] => []
  | c :: rest => if Ascii.eqb c NUL then [] else c :: strdup rest
  end.

(** [fgets_chars n stream]: the characters [fgets] stores when there is
    room for [n] of them, and the rest of the stream.  Reading stops
    after a newline, at the end of the stream, or when the room is
    used up. *)
Fixpoint fgets_chars (n : nat) (stream : list ascii) {struct n}
    : list ascii * list ascii :=
  match n, stream with
  | 0, _ => ([], stream)
  | _, [] => ([], [])
  | S n', c :: rest =>
      if Ascii.eqb c LF then ([c], rest)
      else let '(buf, rest') := fgets_chars n' rest in (c :: buf, rest')
  end.

(** [fgets(line, size, file)]: [None] (NULL) at the end of the file,
    else at most [size - 1] characters. *)
Definition fgets (size : nat) (stream : list ascii) : option (list ascii * list ascii) :=
  match stream with
  | [] => None
  | _ => Some (fgets_chars (size - 1) stream)
  end.

(** ** The program state *)

(** One constructor for each [printf] of the functions modelled here. *)
Inductive message : Type :=
  | No_finished_tasks_found
  | Invalid_index (index : Z)
  | No_unfinished_tasks_found
  | Invalid_index_only (index count : Z)
  | Error_opening_for_appending
  | Error_opening_for_writing
  | Skipping_invalid_index (arg : cstring).

Record state : Type := State {
  (** the bytes of the file named [todos_filename]; [None]: no such file *)
  file_contents : option (list ascii);
  (** whether [fopen] succeeds in mode "r", and in modes "w" and "a" *)
  file_readable : bool;
  file_writable : bool;
  (** the global [todo_lines] *)
  todo_lines : option (list cstring);
  (** what has been printed *)
  stdout : list message
}.

Definition set_todo_lines (lines : option (list cstring)) (s : state) : state :=
  State (file_contents s) (file_readable s) (file_writable s) lines (stdout s).

Definition set_file_contents (bytes : list ascii) (s : state) : state :=
  State (Some bytes) (file_readable s) (file_writable s) (todo_lines s) (stdout s).

Definition printf (m : message) (s : state) : state :=
  State (file_contents s) (file_readable s) (file_writable s) (todo_lines s)
        (stdout s ++ [m]).

(** ** [todo.c] *)

Definition MAX_LINE_LENGTH : nat := 256.

(** [skip_leading_whitespace str] returns [str + whitespace_offset str]. *)
Fixpoint whitespace_offset (str : cstring) : nat :=
  match str with
  | c :: rest => if isspace c then S (whitespace_offset rest) else 0
  | [] => 0
  end.

Definition skip_leading_whitespace (str : cstring) : cstring :=
  drop (whitespace_offset str) str.

(** The loop shared by [get_unfinished_tasks] and [get_finished_tasks],
    which differ in the marker only: [i] is the loop counter, [lines]
    the entries from [todo_lines[i]] on, [tasks] the array filled so
    far. *)
Fixpoint scan_tasks (marker : cstring) (i : nat) (lines : list cstring)
    (tasks : list nat) : list nat :=
  match lines with
  | [] => tasks
  | line :: rest =>
      let trimmed_line := skip_leading_whitespace line in
      if (strncmp trimmed_line marker 5 =? 0)%Z
      then scan_tasks marker (S i) rest (tasks ++ [i])
      else scan_tasks marker (S i) rest tasks
  end.

(** The returned array; [*count_out] is its length, and the returned
    pointer is NULL exactly when the length is 0. *)
Definition get_unfinished_tasks (s : state) : list nat :=
  match todo_lines s with
  | None => []
  | Some lines => scan_tasks (lit "- [ ]") 0 lines []
  end.

Definition get_finished_tasks (s : state) : list nat :=
  match todo_lines s with
  | None => []
  | Some lines => scan_tasks (lit "- [x]") 0 lines []
  end.

(** [strtol(nptr, NULL, 10)] on a 64-bit [long]: leading white space, an
    optional sign, then decimal digits; a value that does not fit is
    replaced by [LONG_MIN] or [LONG_MAX]. *)
Fixpoint digits_value (acc : Z) (s : cstring) : Z :=
  match s with
  | c :: rest =>
      if isdigit c then digits_value (acc * 10 + (code c - 48))%Z rest else acc
  | [] => acc
  end.

Definition LONG_MAX : Z := (2 ^ 63 - 1)%Z.
Definition LONG_MIN : Z := (- 2 ^ 63)%Z.

Definition strtol (nptr : cstring) : Z :=
  let s := drop (whitespace_offset nptr) nptr in
  let v :=
    match s with
    | c :: rest =>
        if Ascii.eqb c "-"%char then (- digits_value 0 rest)%Z
        else if Ascii.eqb c "+"%char then digits_value 0 rest
        else digits_value 0 s
    | [] => 0%Z
    end in
  Z.max LONG_MIN (Z.min LONG_MAX v).

(** Conversion to a 32-bit [int], with its wrap-around. *)
Definition to_int (z : Z) : Z := ((z + 2 ^ 31) mod 2 ^ 32 - 2 ^ 31)%Z.

(** [atoi(nptr)] is [(int) strtol(nptr, NULL, 10)]. *)
Definition atoi (nptr : cstring) : Z := to_int (strtol nptr).

(** [qsort] with a comparison function.  C leaves the algorithm open;
    the model inserts each element in front of the first element it
    does not compare greater than.  [qsort_compare_int_desc] below
    shows that, for the comparison and the values the program uses,
    the outcome is the one array every correct [qsort] returns. *)
Fixpoint qsort_insert (compar : Z → Z → Z) (x : Z) (sorted : list Z) : list Z :=
  match sorted with
  | [] => [x]
  | y :: rest =>
      if (compar x y <=? 0)%Z then x :: y :: rest
      else y :: qsort_insert compar x rest
  end.

Definition qsort (compar : Z → Z → Z) (base : list Z) : list Z :=
  foldr (qsort_insert compar) [] base.

(** *** File operations *)

Definition fopen_r (s : state) : option (list ascii) :=
  if file_readable s then file_contents s else None.

(** The [while (fgets(...))] loop of [get_all_lines]; [fuel] bounds the
    number of iterations, and the length of the stream is always
    enough since each successful [fgets] consumes a character. *)
Fixpoint read_lines (fuel : nat) (stream : list ascii) (lines : list cstring)
    : list cstring :=
  match fuel with
  | 0 => lines
  | S fuel' =>
      match fgets MAX_LINE_LENGTH stream with
      | None => lines
      | Some (line, stream') => read_lines fuel' stream' (lines ++ [strdup line])
      end
  end.

Definition get_all_lines (s : state) : option (list cstring) :=
  match fopen_r s with
  | None => None
  | Some stream =>
      let lines := read_lines (length stream) stream [] in
      if length lines =? 0 then None else Some lines
  end.

(** [todo_lines = get_all_lines();] as [main] does before any command. *)
Definition load (s : state) : state := set_todo_lines (get_all_lines s) s.

(** The loop of [save_todos]: [out] is what has been written so far. *)
Fixpoint write_lines (lines : list cstring) (out : list ascii) : list ascii :=
  match lines with
  | [] => out
  | line :: rest => write_lines rest (out ++ line)
  end.

Definition save_todos (s : state) : state :=
  match todo_lines s with
  | None => s
  | Some lines =>
      if file_writable s then set_file_contents (write_lines lines []) s
      else printf Error_opening_for_writing s
  end.

(** *** Task operations *)

(** The loop of [delete_line] from counter [i] on.  Reading entry
    [length lines] yields the terminating NULL; storing that NULL at
    [i] ends the array there. *)
Fixpoint shift_lines (fuel i : nat) (lines : list cstring) : list cstring :=
  match fuel with
  | 0 => lines
  | S fuel' =>
      match lines !! i with
      | None => lines
      | Some _ =>
          match lines !! S i with
          | Some next => shift_lines fuel' (S i) (<[i := next]> lines)
          | None => take i lines
          end
      end
  end.

(** [None]: [todo_lines] is NULL, or [line_index] lies beyond the
    terminating NULL. *)
Definition delete_line (line_index : nat) (s : state) : option state :=
  lines ← todo_lines s;
  if decide (line_index ≤ length lines)
  then Some (set_todo_lines (Some (shift_lines (length lines) line_index lines)) s)
  else None.

(** The loop [for (i = count - 1; i >= 0; i--)] of
    [remove_finished_tasks], with [k = i + 1]. *)
Fixpoint delete_lines_downto (k : nat) (finished_tasks : list nat) (s : state)
    : option state :=
  match k with
  | 0 => Some s
  | S i =>
      line_index ← finished_tasks !! i;
      s' ← delete_line line_index s;
      delete_lines_downto i finished_tasks s'
  end.

Definition remove_finished_tasks (s : state) : option state :=
  let finished_tasks := get_finished_tasks s in
  let count := length finished_tasks in
  if count =? 0 then Some (printf No_finished_tasks_found s)
  else delete_lines_downto count finished_tasks s.

Definition remove_task (index : Z) (s : state) : option state :=
  if (index <=? 0)%Z then Some (printf (Invalid_index index) s)
  else
    let unfinished_tasks := get_unfinished_tasks s in
    let count := Z.of_nat (length unfinished_tasks) in
    if (count =? 0)%Z then Some (printf No_unfinished_tasks_found s)
    else if (index >? count)%Z then Some (printf (Invalid_index_only index count) s)
    else
      line_index ← unfinished_tasks !! Z.to_nat (index - 1);
      delete_line line_index s.

Definition check_todo (index : Z) (s : state) : option state :=
  if (index <=? 0)%Z then Some (printf (Invalid_index index) s)
  else
    let unfinished_tasks := get_unfinished_tasks s in
    let count := Z.of_nat (length unfinished_tasks) in
    if (count =? 0)%Z then Some (printf No_unfinished_tasks_found s)
    else if (index >? count)%Z then Some (printf (Invalid_index_only index count) s)
    else
      line_index ← unfinished_tasks !! Z.to_nat (index - 1);
      lines ← todo_lines s;
      line ← lines !! line_index;
      let offset := whitespace_offset line in
      let trimmed_line := drop offset line in
      if (strncmp trimmed_line (lit "- [ ]") 5 =? 0)%Z
      then Some (set_todo_lines
                   (Some (<[line_index := strncpy_at offset (lit "- [x]") 5 line]> lines)) s)
      else Some s.

(** The loop [while (todo_lines[i + 1] != NULL) i++] of [add_todo];
    [next] holds the entries from [todo_lines[i + 1]] on. *)
Fixpoint last_line_index (i : nat) (next : list cstring) : nat :=
  match next with
  | [] => i
  | _ :: next' => last_line_index (S i) next'
  end.

(** [None]: [todo_lines] is an array without lines, where
    [todo_lines[1]] is read past the terminating NULL. *)
Definition add_todo (task : cstring) (s : state) : option state :=
  if file_writable s then
    let file := default [] (file_contents s) in
    let new_line := lit "- [ ] " ++ task ++ [LF] in
    match todo_lines s with
    | None => Some (set_file_contents (file ++ new_line) s)
    | Some [] => None
    | Some ((_ :: next) as lines) =>
        last_line ← lines !! last_line_index 0 next;
        let len := length last_line in
        if (0 <? len) && negb (Ascii.eqb (default NUL (last_line !! (len - 1))) LF)
        then Some (set_file_contents ((file ++ [LF]) ++ new_line) s)
        else Some (set_file_contents (file ++ new_line) s)
    end
  else Some (printf Error_opening_for_appending s).

(** *** Helper functions *)

(** [bi - ai] on 32-bit [int]s. *)
Definition compare_int_desc (ai bi : Z) : Z := to_int (bi - ai).

(** The parsing loop of [call_fn_with_indexes] over the arguments from
    [argv[index]] on. *)
Fixpoint parse_indexes (args : list cstring) (indexes : list Z) (s : state)
    : list Z * state :=
  match args with
  | [] => (indexes, s)
  | arg :: rest =>
      let idx := atoi arg in
      if (idx <=? 0)%Z
      then parse_indexes rest indexes (printf (Skipping_invalid_index arg) s)
      else parse_indexes rest (indexes ++ [idx]) s
  end.

(** The loop that calls [fn] on each index. *)
Fixpoint call_each (fn : Z → state → option state) (indexes : list Z) (s : state)
    : option state :=
  match indexes with
  | [] => Some s
  | idx :: rest => s' ← fn idx s; call_each fn rest s'
  end.

(** [argc] is the length of [argv]; the value returned is always 0.
    [main] passes an [index] below [argc].  For any other [index] the
    size handed to [malloc] is zero or negative, [malloc] may return
    NULL and the program then exits: [None]. *)
Definition call_fn_with_indexes (argv : list cstring) (index : nat)
    (fn : Z → state → option state) (s : state) : option state :=
  if decide (index < length argv) then
    let '(indexes, s1) := parse_indexes (drop index argv) [] s in
    call_each fn (qsort compare_int_desc indexes) s1
  else None.

(** ** Vocabulary of the properties *)

(** The test both index functions and [check_todo] apply to a line. *)
Definition has_marker (marker line : cstring) : bool :=
  (strncmp (skip_leading_whitespace line) marker 5 =? 0)%Z.

Definition is_unfinished : cstring → bool := has_marker (lit "- [ ]").
Definition is_finished : cstring → bool := has_marker (lit "- [x]").
Definition is_other (line : cstring) : bool :=
  negb (is_unfinished line) && negb (is_finished line).

(** The task-line grammar in words: white space, then the marker. *)
Definition begins_with (marker line : cstring) : Prop :=
  ∃ ws rest, line = ws ++ marker ++ rest ∧ Forall (λ c, isspace c = true) ws.

(** The positions, counted from [i], of the lines that satisfy [P]. *)
Fixpoint positions (P : cstring → bool) (i : nat) (lines : list cstring) : list nat :=
  match lines with
  | [] => []
  | line :: rest =>
      if P line then i :: positions P (S i) rest else positions P (S i) rest
  end.

(** The document of the first scenario of the specification. *)
Definition three_tasks : list cstring :=
  [lit "- [ ] Task 1" ++ [LF]; lit "- [x] Task 2" ++ [LF]; lit "- [ ] Task 3" ++ [LF]].

(** States used in examples: no file yet and nothing loaded; the
    three-task document in memory. *)
Definition absent_document : state := State None true true None [].
Definition three_tasks_state : state := State None true true (Some three_tasks) [].

(** The messages that report an invalid index. *)
Definition reports_invalid_index (m : message) : bool :=
  match m with
  | Invalid_index _ | Invalid_index_only _ _ => true
  | _ => false
  end.

(** The passthrough lines of the document, in order. *)
Definition passthrough_lines (s : state) : option (list cstring) :=
  List.filter is_other <$> todo_lines s.

(** The state after printing the messages [ms], in order. *)
Definition printf_all (ms : list message) (s : state) : state :=
  State (file_contents s) (file_readable s) (file_writable s) (todo_lines s)
        (stdout s ++ ms).

(** The command line [todo remove 1 3] and the document of the batch
    scenario of the specification. *)
Definition remove_1_3 : list cstring := [lit "todo"; lit "remove"; lit "1"; lit "3"].
Definition tasks_ABC : list cstring := [lit "- [ ] A"; lit "- [ ] B"; lit "- [ ] C"].

(** The lines [get_all_lines] stores for a stream. *)
Definition loaded_lines (stream : list ascii) : list cstring :=
  read_lines (length stream) stream [].

(** A stream that is empty or ends with a newline: what follows it in
    a file starts a line. *)
Definition ends_line (bytes : list ascii) : Prop :=
  bytes = [] ∨ ∃ init, bytes = init ++ [LF].

(** The test [len > 0 && last_line[len - 1] != '\n'] of [add_todo]. *)
Definition lacks_newline (last_line : cstring) : bool :=
  let len := length last_line in
  (0 <? len) && negb (Ascii.eqb (default NUL (last_line !! (len - 1))) LF).

(** Files used in examples. *)
Definition file_with_NUL : list ascii := ["a"%char; NUL; "b"%char; LF].
Definition file_NUL_first : list ascii := [NUL; "a"%char].
Definition file_long_line : list ascii := repeat "a"%char 256 ++ [LF].
Definition file_abc : list ascii := lit "abc".
Definition on_disk (bytes : list ascii) : state := State (Some bytes) true true None [].
Definition read_only (bytes : list ascii) : state := State (Some bytes) true false None [].

(** The three range tests at the head of [remove_task] and
    [check_todo]. *)
Ltac range_tests index s :=
  destruct (Z.leb_spec index 0);
  [| destruct (Z.eqb_spec (Z.of_nat (length (get_unfinished_tasks s))) 0);
     [| destruct (Z.gtb_spec index (Z.of_nat (length (get_unfinished_tasks s))))]].

(** ** The rest of [todo.c]: listing and the command line *)

(** What [list_todos] and [main] print: the messages above, and the
    lines that have no place among them.  [Usage] stands for all the
    lines of [print_usage]. *)
Inductive output : Type :=
  | Message (m : message)
  | Task_entry (number : Z) (text : cstring)
  | Usage (prog_name : cstring)
  | Usage_check (prog_name : cstring)
  | Usage_remove (prog_name : cstring).

(** The loop of [list_todos]: [i] is the loop counter and [tasks] holds
    the entries from [unfinished_tasks[i]] on.  [printf] is handed
    [trimmed_line + 6]; with fewer than 6 characters in [trimmed_line]
    that pointer lies behind the terminating NUL: [None]. *)
Fixpoint list_entries (i : nat) (tasks : list nat) (lines : list cstring)
    : option (list output) :=
  match tasks with
  | [] => Some []
  | line_index :: rest =>
      line ← lines !! line_index;
      let trimmed_line := skip_leading_whitespace line in
      if decide (6 ≤ length trimmed_line) then
        entries ← list_entries (S i) rest lines;
        Some (Task_entry (Z.of_nat i + 1) (drop 6 trimmed_line) :: entries)
      else None
  end.

(** [list_todos] changes neither [todo_lines] nor the file; the model
    returns what it prints. *)
Definition list_todos (s : state) : option (list output) :=
  let unfinished_tasks := get_unfinished_tasks s in
  if length unfinished_tasks =? 0 then Some [Message No_unfinished_tasks_found]
  else
    lines ← todo_lines s;
    list_entries 0 unfinished_tasks lines.

(** ** Vocabulary of the further properties *)

(** The line [check_todo] writes in place of an unfinished task. *)
Definition mark_done (line : cstring) : cstring :=
  strncpy_at (whitespace_offset line) (lit "- [x]") 5 line.

(** The document without the unfinished tasks whose number is in [ks];
    [n] unfinished tasks precede [lines]. *)
Fixpoint remove_numbered (ks : list Z) (n : nat) (lines : list cstring)
    : list cstring :=
  match lines with
  | [] => []
  | line :: rest =>
      if is_unfinished line then
        if bool_decide (Z.of_nat (S n) ∈ ks) then remove_numbered ks (S n) rest
        else line :: remove_numbered ks (S n) rest
      else line :: remove_numbered ks n rest
  end.

(** The document with the unfinished tasks whose number is in [ks]
    marked as done. *)
Fixpoint check_numbered (ks : list Z) (n : nat) (lines : list cstring)
    : list cstring :=
  match lines with
  | [] => []
  | line :: rest =>
      if is_unfinished line then
        (if bool_decide (Z.of_nat (S n) ∈ ks) then mark_done line else line)
        :: check_numbered ks (S n) rest
      else line :: check_numbered ks n rest
  end.

(** What [list_todos] shows of an unfinished task. *)
Definition task_text (line : cstring) : cstring :=
  drop 6 (skip_leading_whitespace line).

(** The entries of a listing of the task lines [tasks], numbered from
    [n + 1]. *)
Fixpoint numbered_entries (n : nat) (tasks : list cstring) : list output :=
  match tasks with
  | [] => []
  | line :: rest =>
      Task_entry (Z.of_nat n + 1) (task_text line) :: numbered_entries (S n) rest
  end.

(** A line [fgets] can read in one piece and [strdup] keeps whole:
    fewer than 255 characters, none of them a newline or a NUL, and
    then a newline. *)
Definition text_line (line : cstring) : Prop :=
  ∃ init, line = init ++ [LF] ∧ length init < MAX_LINE_LENGTH - 1 ∧
          (LF ∉ init) ∧ (NUL ∉ init).

(** What [list_todos] prints for the unfinished task lines [tasks], in
    one pass over them: [None] when one of them stops right after the
    marker. *)
Fixpoint entries_of (n : nat) (tasks : list cstring) : option (list output) :=
  match tasks with
  | [] => Some []
  | line :: rest =>
      if decide (6 ≤ length (skip_leading_whitespace line)) then
        entries ← entries_of (S n) rest;
        Some (Task_entry (Z.of_nat n + 1) (task_text line) :: entries)
      else None
  end.

Definition listing (tasks : list cstring) : option (list output) :=
  match tasks with
  | [] => Some [Message No_unfinished_tasks_found]
  | _ => entries_of 0 tasks
  end.

(** The unfinished task lines of the document, in order. *)
Definition unfinished_lines (s : state) : list cstring :=
  List.filter is_unfinished (default [] (todo_lines s)).

(** Two states with the same file: contents and permissions. *)
Definition same_file (s s' : state) : Prop :=
  file_contents s' = file_contents s ∧ file_readable s' = file_readable s ∧
  file_writable s' = file_writable s.

(** A document of two text lines, for examples. *)
Definition two_text_lines : list cstring :=
  [lit "  - [ ] first" ++ [LF]; lit "notes" ++ [LF]].

(** The common shape of [remove_numbered] and [check_numbered]: the
    unfinished tasks whose number is in [ks] are replaced by the lines
    [act] gives for them. *)
Fixpoint act_numbered (act : cstring → list cstring) (ks : list Z) (n : nat)
    (lines : list cstring) : list cstring :=
  match lines with
  | [] => []
  | line :: rest =>
      if is_unfinished line then
        (if bool_decide (Z.of_nat (S n) ∈ ks) then act line else [line])
        ++ act_numbered act ks (S n) rest
      else line :: act_numbered act ks n rest
  end.

(** The document of the batch scenario, in memory. *)
Definition tasks_ABC_state : state := State None true true (Some tasks_ABC) [].

(** ** The command line: [main] *)

(** [strcmp]: the difference of the first characters that differ; the
    end of a list is the NUL. *)
Fixpoint strcmp (s1 s2 : cstring) : Z :=
  match s1, s2 with
  | [], [] => 0%Z
  | [], c2 :: _ => (0 - code c2)%Z
  | c1 :: _, [] => code c1
  | c1 :: r1, c2 :: r2 =>
      if Ascii.eqb c1 c2 then strcmp r1 r2 else (code c1 - code c2)%Z
  end.

(** A file of the disk: its bytes, if it exists, and whether it can be
    opened for reading and for writing. *)
Record file : Type := File {
  contents : option (list ascii);
  readable : bool;
  writable : bool
}.

(** The state of the program when it starts to work on a file:
    [todo_lines] is NULL and nothing has been printed. *)
Definition start (f : file) : state :=
  State (contents f) (readable f) (writable f) None [].

(** What a run of [main] leaves: the value returned, what was printed,
    and, when the run got as far as loading the file, the name in
    [todos_filename] with the state of that file and of [todo_lines]
    at the end.  No other file is opened. *)
Record run : Type := Run {
  exit_status : Z;
  printed : list output;
  used : option (list ascii * state)
}.

(** The choice of [todos_filename] and [argIndex] from [argv[1]]. *)
Definition select_file (arg1 : cstring) : cstring * nat :=
  let len := length arg1 in
  if (3 <? len) && (strcmp (drop (len - 3) arg1) (lit ".md") =? 0)%Z
  then (arg1, 2)
  else (lit "todo.md", 1).

(** [None]: [argv] is empty (then [argv[0]] is NULL), or a function
    called is not defined. *)
Definition main (argv : list cstring) (disk : cstring → file) : option run :=
  match argv with
  | [] => None
  | [prog_name] => Some (Run 1 [Usage prog_name] None)
  | prog_name :: arg1 :: _ =>
      let '(todos_filename, argIndex) := select_file arg1 in
      match argv !! argIndex with
      | None => Some (Run 1 [Usage prog_name] None)
      | Some command =>
          let s := load (start (disk todos_filename)) in
          if (strcmp command (lit "list") =? 0)%Z || (strcmp command (lit "l") =? 0)%Z
          then
            out ← list_todos s;
            Some (Run 0 out (Some (todos_filename, s)))
          else if (strcmp command (lit "check") =? 0)%Z
                  || (strcmp command (lit "c") =? 0)%Z
          then
            if decide (argIndex + 1 < length argv) then
              s' ← call_fn_with_indexes argv (argIndex + 1) check_todo s;
              let s'' := save_todos s' in
              Some (Run 0 (Message <$> stdout s'') (Some (todos_filename, s'')))
            else Some (Run 1 [Usage_check prog_name] (Some (todos_filename, s)))
          else if (strcmp command (lit "remove") =? 0)%Z
                  || (strcmp command (lit "r") =? 0)%Z
          then
            if decide (argIndex + 1 < length argv) then
              s' ← call_fn_with_indexes argv (argIndex + 1) remove_task s;
              let s'' := save_todos s' in
              Some (Run 0 (Message <$> stdout s'') (Some (todos_filename, s'')))
            else Some (Run 1 [Usage_remove prog_name] (Some (todos_filename, s)))
          else if (strcmp command (lit "clean") =? 0)%Z
          then
            s' ← remove_finished_tasks s;
            let s'' := save_todos s' in
            Some (Run 0 (Message <$> stdout s'') (Some (todos_filename, s'')))
          else
            s' ← add_todo command s;
            Some (Run 0 (Message <$> stdout s') (Some (todos_filename, s')))
      end
  end.

(** The words [main] takes for commands. *)
Definition command_words : list cstring :=
  [lit "list"; lit "l"; lit "check"; lit "c"; lit "remove"; lit "r"; lit "clean"].

(** A name of more than three characters that ends with ".md". *)
Definition md_name (arg : cstring) : Prop :=
  ∃ stem, stem ≠ [] ∧ arg = stem ++ lit ".md".

(** A disk with one text file, [todo.md], holding [lines]. *)
Definition disk_with (lines : list cstring) : cstring → file :=
  λ _, File (Some (concat lines)) true true.

(** A disk without any file. *)
Definition no_disk : cstring → file := λ _, File None true true.

(** What [check] and [remove] print for the arguments [args] when
    there is no unfinished task at all: one message for each argument
    that is no positive number, then one for each call. *)
Definition no_task_messages (args : list cstring) : list message :=
  (Skipping_invalid_index <$> List.filter (λ arg, atoi arg <=? 0)%Z args)
  ++ replicate (length (List.filter (λ z, 0 <? z)%Z (atoi <$> args)))
       No_unfinished_tasks_found.

(** Evaluates the comparisons of [main] for a command given as a
    literal. *)
Ltac decide_command :=
  repeat match goal with
    | |- context [(strcmp (lit ?a) (lit ?b) =? 0)%Z] =>
        let v := eval vm_compute in (strcmp (lit a) (lit b) =? 0)%Z in
        progress change ((strcmp (lit a) (lit b) =? 0)%Z) with v
    end;
  cbn [orb].

(** ** The C library: facts *)

Lemma code_inj (c1 c2 : ascii) : code c1 = code c2 → c1 = c2.
Proof.
  unfold code. intros H. apply Nat2Z.inj in H.
  rewrite <- (ascii_nat_embedding c1), <- (ascii_nat_embedding c2). by rewrite H.
Qed.

Lemma code_NUL (c : ascii) : code c = 0%Z → c = NUL.
Proof. intros H. apply code_inj. by rewrite H. Qed.

(** [strncmp] against a NUL-free string of [n] characters is 0 exactly
    when that string is a prefix. *)
Lemma strncmp_prefix (marker s : cstring) :
  NUL ∉ marker →
  strncmp s marker (length marker) = 0%Z ↔ ∃ rest, s = marker ++ rest.
Proof.
  revert s. induction marker as [|m marker IH]; intros s Hnul; simpl.
  - split; [intros _; by exists s | done].
  - apply not_elem_of_cons in Hnul as [Hm Hnul].
    destruct s as [|c s].
    + split.
      * intros H. exfalso. apply Hm. symmetry. apply code_NUL. lia.
      * intros [rest H]. discriminate.
    + destruct (Ascii.eqb_spec c m) as [->|Hne].
      * rewrite IH by done. split; intros [rest H]; exists rest; congruence.
      * split.
        -- intros H. exfalso. apply Hne, code_inj. lia.
        -- intros [rest H]. congruence.
Qed.

Lemma whitespace_offset_take (str : cstring) :
  Forall (λ c, isspace c = true) (take (whitespace_offset str) str).
Proof.
  induction str as [|c str IH]; simpl; [constructor|].
  destruct (isspace c) eqn:E; simpl; [by constructor | constructor].
Qed.

Lemma whitespace_offset_app (ws str : cstring) :
  Forall (λ c, isspace c = true) ws →
  whitespace_offset (ws ++ str) = length ws + whitespace_offset str.
Proof.
  induction 1 as [|c ws Hc _ IH]; simpl; [done|]. by rewrite Hc, IH.
Qed.

Lemma strdup_id (buf : list ascii) : NUL ∉ buf → strdup buf = buf.
Proof.
  induction buf as [|c buf IH]; simpl; [done|].
  rewrite not_elem_of_cons. intros [Hc Hbuf].
  destruct (Ascii.eqb_spec c NUL); [done|]. by rewrite IH.
Qed.

Lemma strdup_no_NUL (buf : list ascii) : NUL ∉ strdup buf.
Proof.
  induction buf as [|c buf IH]; simpl; [apply not_elem_of_nil|].
  destruct (Ascii.eqb_spec c NUL); [apply not_elem_of_nil|].
  rewrite not_elem_of_cons. auto.
Qed.

(** [strdup] keeps a prefix of the buffer. *)
Lemma strdup_prefix (buf : list ascii) : ∃ rest, buf = strdup buf ++ rest.
Proof.
  induction buf as [|c buf [rest IH]]; simpl; [by exists []|].
  destruct (Ascii.eqb c NUL); [by eexists|]. exists rest. simpl. by f_equal.
Qed.

(** Absence of a character, by computation. *)
Lemma not_elem_of_check (c : ascii) (l : list ascii) :
  forallb (λ x, negb (Ascii.eqb x c)) l = true → c ∉ l.
Proof.
  induction l as [|x l IH]; simpl; [intros _; apply not_elem_of_nil|].
  rewrite andb_true_iff, negb_true_iff, not_elem_of_cons.
  intros [Hx Hl]. split; [|by apply IH].
  intros ->. by rewrite Ascii.eqb_refl in Hx.
Qed.

Lemma to_int_range (z : Z) : (- 2 ^ 31 ≤ to_int z < 2 ^ 31)%Z.
Proof. unfold to_int. pose proof (Z.mod_pos_bound (z + 2 ^ 31) (2 ^ 32)). lia. Qed.

Lemma to_int_id (z : Z) : (- 2 ^ 31 ≤ z < 2 ^ 31)%Z → to_int z = z.
Proof. intros H. unfold to_int. rewrite Z.mod_small; lia. Qed.

(** ** Classification of lines *)

Lemma has_marker_begins_with (marker line : cstring) :
  length marker = 5 → NUL ∉ marker →
  (∀ c, head marker = Some c → isspace c = false) →
  has_marker marker line = true ↔ begins_with marker line.
Proof.
  intros Hlen Hnul Hhead. unfold has_marker, skip_leading_whitespace.
  rewrite Z.eqb_eq, <- Hlen, strncmp_prefix by done. split.
  - intros [rest H]. exists (take (whitespace_offset line) line), rest. split.
    + by rewrite <- H, take_drop.
    + apply whitespace_offset_take.
  - intros (ws & rest & -> & Hws). exists rest.
    rewrite whitespace_offset_app by done.
    destruct marker as [|c marker]; [done|].
    simpl. rewrite (Hhead c) by done. by rewrite Nat.add_0_r, drop_app_length.
Qed.

Lemma is_unfinished_spec (line : cstring) :
  is_unfinished line = true ↔ begins_with (lit "- [ ]") line.
Proof.
  apply has_marker_begins_with; [done | | by intros c [= <-]].
  unfold lit; simpl. rewrite !not_elem_of_cons. repeat split; try discriminate. apply not_elem_of_nil.
Qed.

Lemma is_finished_spec (line : cstring) :
  is_finished line = true ↔ begins_with (lit "- [x]") line.
Proof.
  apply has_marker_begins_with; [done | | by intros c [= <-]].
  unfold lit; simpl. rewrite !not_elem_of_cons. repeat split; try discriminate. apply not_elem_of_nil.
Qed.

Lemma is_other_spec (line : cstring) :
  is_other line = true ↔
  ¬ begins_with (lit "- [ ]") line ∧ ¬ begins_with (lit "- [x]") line.
Proof.
  unfold is_other. rewrite andb_true_iff, !negb_true_iff.
  rewrite <- is_unfinished_spec, <- is_finished_spec.
  rewrite <- !not_true_iff_false. tauto.
Qed.

Lemma has_marker_after_whitespace (marker ws str : cstring) :
  Forall (λ c, isspace c = true) ws →
  whitespace_offset str = 0 →
  has_marker marker (ws ++ str) = (strncmp str marker 5 =? 0)%Z.
Proof.
  intros Hws Hstr. unfold has_marker, skip_leading_whitespace.
  by rewrite whitespace_offset_app, Hstr, Nat.add_0_r, drop_app_length.
Qed.

(** The line [check_todo] leaves behind is a finished task and no
    longer an unfinished one; the line it started from was not
    finished. *)
Lemma checked_line_markers (ws rest : cstring) :
  Forall (λ c, isspace c = true) ws →
  is_unfinished (ws ++ lit "- [ ]" ++ rest) = true ∧
  is_finished (ws ++ lit "- [ ]" ++ rest) = false ∧
  is_unfinished (ws ++ lit "- [x]" ++ rest) = false ∧
  is_finished (ws ++ lit "- [x]" ++ rest) = true.
Proof.
  intros Hws. unfold is_unfinished, is_finished.
  by rewrite !has_marker_after_whitespace.
Qed.

Lemma is_other_task (line : cstring) :
  is_unfinished line = true ∨ is_finished line = true → is_other line = false.
Proof.
  unfold is_other. intros [-> | ->]; [done | by rewrite andb_false_r].
Qed.

(** ** Positions of the lines that satisfy a test *)

Section positions.
  Context (P : cstring → bool).

Lemma positions_app (i : nat) (l1 l2 : list cstring) :
  positions P i (l1 ++ l2) = positions P i l1 ++ positions P (i + length l1) l2.
Proof.
  revert i. induction l1 as [|line l1 IH]; intros i; simpl.
  - by rewrite Nat.add_0_r.
  - rewrite IH, Nat.add_succ_r. by destruct (P line).
Qed.

Lemma positions_middle (l1 l2 : list cstring) (line : cstring) :
  positions P 0 (l1 ++ line :: l2)
  = positions P 0 l1 ++ (if P line then [length l1] else [])
    ++ positions P (S (length l1)) l2.
Proof. rewrite positions_app. simpl. by destruct (P line). Qed.

Lemma length_positions (i : nat) (lines : list cstring) :
  length (positions P i lines) = length (List.filter P lines).
Proof.
  revert i. induction lines as [|line rest IH]; intros i; simpl; [done|].
  destruct (P line); simpl; by rewrite IH.
Qed.

Lemma elem_of_positions (i j : nat) (lines : list cstring) :
  j ∈ positions P i lines ↔
  i ≤ j ∧ ∃ line, lines !! (j - i) = Some line ∧ P line = true.
Proof.
  revert i. induction lines as [|line rest IH]; intros i; simpl.
  - rewrite elem_of_nil. split; [done | by intros (_ & l & Hl & _)].
  - assert (Hrest : j ∈ positions P (S i) rest ↔
                    i < j ∧ ∃ l, (line :: rest) !! (j - i) = Some l ∧ P l = true).
    { rewrite IH. split.
      - intros (Hle & l & Hl & HP). split; [lia|]. exists l. split; [|done].
        by replace (j - i) with (S (j - S i)) by lia.
      - intros (Hlt & l & Hl & HP). split; [lia|]. exists l. split; [|done].
        by replace (j - i) with (S (j - S i)) in Hl by lia. }
    destruct (P line) eqn:HP.
    + rewrite elem_of_cons, Hrest. split.
      * intros [->|[Hlt H]]; [|split; [lia | done]].
        split; [done|]. exists line. by rewrite Nat.sub_diag.
      * intros [Hle H]. destruct (decide (j = i)) as [->|]; [by left|].
        right. split; [lia | done].
    + rewrite Hrest. split.
      * intros [Hlt H]. split; [lia | done].
      * intros [Hle (l & Hl & Hl')]. split; [|by exists l].
        destruct (decide (j = i)) as [->|]; [|lia].
        rewrite Nat.sub_diag in Hl. simpl in Hl. congruence.
Qed.

Lemma positions_sorted (i : nat) (lines : list cstring) :
  StronglySorted lt (positions P i lines).
Proof.
  revert i. induction lines as [|line rest IH]; intros i; simpl; [constructor|].
  destruct (P line); [|apply IH].
  constructor; [apply IH|].
  apply Forall_forall. intros j Hj. apply elem_of_positions in Hj. lia.
Qed.

(** The [k]-th position splits the document around the [k]-th line
    that satisfies [P]. *)
Lemma positions_lookup (i k j : nat) (lines : list cstring) :
  positions P i lines !! k = Some j →
  ∃ l1 line l2,
    lines = l1 ++ line :: l2 ∧ j = i + length l1 ∧ P line = true ∧
    length (List.filter P l1) = k.
Proof.
  revert i k. induction lines as [|x rest IH]; intros i k; simpl; [done|].
  destruct (P x) eqn:HP.
  - destruct k as [|k]; simpl.
    + intros [= <-]. exists [], x, rest. by rewrite Nat.add_0_r.
    + intros H. apply IH in H as (l1 & line & l2 & -> & -> & Hline & Hk).
      exists (x :: l1), line, l2. simpl. rewrite HP. simpl.
      repeat split; [lia | done | by rewrite Hk].
  - intros H. apply IH in H as (l1 & line & l2 & -> & -> & Hline & Hk).
    exists (x :: l1), line, l2. simpl. rewrite HP.
    repeat split; [lia | done | done].
Qed.

End positions.

(** ** The index functions *)

Lemma scan_tasks_positions (marker : cstring) (i : nat) (lines : list cstring)
    (tasks : list nat) :
  scan_tasks marker i lines tasks = tasks ++ positions (has_marker marker) i lines.
Proof.
  revert i tasks.
  induction lines as [|line rest IH]; intros i tasks; cbn [scan_tasks positions].
  - by rewrite app_nil_r.
  - unfold has_marker at 1.
    destruct (strncmp (skip_leading_whitespace line) marker 5 =? 0)%Z.
    + by rewrite IH, <- app_assoc.
    + apply IH.
Qed.

Lemma get_unfinished_tasks_positions (s : state) :
  get_unfinished_tasks s = positions is_unfinished 0 (default [] (todo_lines s)).
Proof.
  unfold get_unfinished_tasks. destruct (todo_lines s); [|done].
  apply scan_tasks_positions.
Qed.

Lemma get_finished_tasks_positions (s : state) :
  get_finished_tasks s = positions is_finished 0 (default [] (todo_lines s)).
Proof.
  unfold get_finished_tasks. destruct (todo_lines s); [|done].
  apply scan_tasks_positions.
Qed.

Lemma get_unfinished_tasks_set (lines : list cstring) (s : state) :
  get_unfinished_tasks (set_todo_lines (Some lines) s) = positions is_unfinished 0 lines.
Proof. by rewrite get_unfinished_tasks_positions. Qed.

Lemma get_finished_tasks_set (lines : list cstring) (s : state) :
  get_finished_tasks (set_todo_lines (Some lines) s) = positions is_finished 0 lines.
Proof. by rewrite get_finished_tasks_positions. Qed.

Lemma get_unfinished_tasks_lookup (s : state) (k j : nat) :
  get_unfinished_tasks s !! k = Some j →
  ∃ l1 line l2,
    todo_lines s = Some (l1 ++ line :: l2) ∧ j = length l1 ∧
    is_unfinished line = true ∧ length (List.filter is_unfinished l1) = k.
Proof.
  rewrite get_unfinished_tasks_positions. intros H.
  destruct (todo_lines s) as [lines|]; [simpl in H|done].
  apply positions_lookup in H as (l1 & line & l2 & -> & -> & Hline & Hk).
  by exists l1, line, l2.
Qed.

(** A task number within range resolves to a line that is an
    unfinished task, preceded by [index - 1] unfinished tasks. *)
Lemma resolve_task_number (index : Z) (s : state) :
  (1 ≤ index ≤ Z.of_nat (length (get_unfinished_tasks s)))%Z →
  ∃ l1 line l2,
    todo_lines s = Some (l1 ++ line :: l2) ∧
    get_unfinished_tasks s !! Z.to_nat (index - 1) = Some (length l1) ∧
    is_unfinished line = true ∧
    length (List.filter is_unfinished l1) = Z.to_nat (index - 1).
Proof.
  intros Hrange.
  destruct (lookup_lt_is_Some_2 (get_unfinished_tasks s) (Z.to_nat (index - 1)))
    as [j Hj]; [lia|].
  destruct (get_unfinished_tasks_lookup _ _ _ Hj) as (l1 & line & l2 & Hs & -> & Hline & Hk).
  by exists l1, line, l2.
Qed.

(** ** Deleting a line *)

Lemma set_todo_lines_twice (a b : option (list cstring)) (s : state) :
  set_todo_lines a (set_todo_lines b s) = set_todo_lines a s.
Proof. done. Qed.

Lemma set_todo_lines_same (s : state) : set_todo_lines (todo_lines s) s = s.
Proof. by destruct s. Qed.

(** The shifting loop of [delete_line] removes entry [i]. *)
Lemma shift_lines_delete (fuel i : nat) (lines : list cstring) :
  length lines - i ≤ fuel →
  shift_lines fuel i lines = delete i lines.
Proof.
  rewrite delete_take_drop.
  revert i lines. induction fuel as [|fuel IH]; intros i lines Hfuel.
  - simpl. rewrite take_ge, drop_ge by lia. by rewrite app_nil_r.
  - simpl. destruct (lines !! i) as [line|] eqn:Hi.
    + destruct (lines !! S i) as [next|] eqn:Hnext.
      * rewrite IH by (rewrite length_insert; lia).
        rewrite take_insert_lt, drop_insert_lt by lia.
        rewrite (take_S_r _ _ line) by done.
        rewrite insert_app_r_alt by (rewrite length_take; lia).
        apply lookup_lt_Some in Hi as Hlt.
        rewrite length_take, Nat.min_l, Nat.sub_diag by lia. simpl.
        rewrite <- app_assoc. simpl. by rewrite <- (drop_S _ next).
      * apply lookup_ge_None in Hnext. rewrite (drop_ge _ (S i)) by done.
        by rewrite app_nil_r.
    + apply lookup_ge_None in Hi.
      rewrite take_ge, drop_ge by lia. by rewrite app_nil_r.
Qed.

Lemma delete_line_spec (line_index : nat) (s : state) (lines : list cstring) :
  todo_lines s = Some lines → line_index ≤ length lines →
  delete_line line_index s = Some (set_todo_lines (Some (delete line_index lines)) s).
Proof.
  intros Hs Hle. unfold delete_line. rewrite Hs. simpl.
  rewrite decide_True by done. by rewrite shift_lines_delete by lia.
Qed.

(** ** Removing the finished tasks *)

(** Deleting, last first, the positions of the lines of [lines] that
    satisfy [P] leaves the other lines; what follows [lines] in the
    array, and what follows the positions in the index, play no part. *)
Lemma delete_lines_downto_positions (P : cstring → bool)
    (lines suffix : list cstring) (extra : list nat) (s : state) :
  delete_lines_downto (length (positions P 0 lines))
    (positions P 0 lines ++ extra) (set_todo_lines (Some (lines ++ suffix)) s)
  = Some (set_todo_lines
            (Some (List.filter (λ line, negb (P line)) lines ++ suffix)) s).
Proof.
  revert suffix extra.
  induction lines as [|x lines IH] using rev_ind; intros suffix extra; [done|].
  rewrite positions_app, List.filter_app. simpl. destruct (P x) eqn:HP; simpl.
  - rewrite length_app, Nat.add_1_r. cbn [delete_lines_downto].
    rewrite <- !app_assoc. simpl ([_] ++ _).
    rewrite list_lookup_middle by done. simpl.
    rewrite (delete_line_spec _ _ (lines ++ x :: suffix)).
    + rewrite delete_middle, set_todo_lines_twice. simpl. apply IH.
    + done.
    + rewrite length_app. lia.
  - rewrite !app_nil_r, <- !app_assoc. apply IH.
Qed.

Lemma remove_finished_tasks_spec (s : state) :
  ∃ s', remove_finished_tasks s = Some s' ∧
    todo_lines s' = List.filter (λ line, negb (is_finished line)) <$> todo_lines s ∧
    file_contents s' = file_contents s.
Proof.
  unfold remove_finished_tasks. rewrite get_finished_tasks_positions.
  destruct (Nat.eqb_spec (length (positions is_finished 0 (default [] (todo_lines s)))) 0)
    as [Hz|Hnz].
  - eexists. split; [done|]. split; [|done]. simpl.
    destruct (todo_lines s) as [lines|]; [|done]. simpl in *. f_equal.
    rewrite length_positions in Hz. clear -Hz.
    induction lines as [|x lines IH]; simpl in *; [done|].
    destruct (is_finished x); simpl in *; [done|]. f_equal. by apply IH.
  - destruct (todo_lines s) as [lines|] eqn:Hs; [|done]. simpl.
    pose proof (delete_lines_downto_positions is_finished lines [] [] s) as H.
    rewrite !app_nil_r in H.
    rewrite <- Hs, set_todo_lines_same in H at 1. rewrite H.
    eexists. split; [done|]. done.
Qed.

Lemma filter_other_not_finished (lines : list cstring) :
  List.filter is_other (List.filter (λ line, negb (is_finished line)) lines)
  = List.filter is_other lines.
Proof.
  induction lines as [|x lines IH]; simpl; [done|].
  unfold is_other at 2. destruct (is_finished x) eqn:Hf; simpl.
  - by rewrite andb_false_r.
  - unfold is_other at 1. by rewrite Hf, IH.
Qed.

Lemma filter_finished_not_finished (lines : list cstring) :
  List.filter is_finished (List.filter (λ line, negb (is_finished line)) lines) = [].
Proof.
  induction lines as [|x lines IH]; simpl; [done|].
  destruct (is_finished x) eqn:Hf; simpl; [done|]. by rewrite Hf.
Qed.

(** ** Checking and removing one task *)

Lemma remove_task_in_range (index : Z) (s : state) (l1 l2 : list cstring)
    (line : cstring) :
  (1 ≤ index ≤ Z.of_nat (length (get_unfinished_tasks s)))%Z →
  todo_lines s = Some (l1 ++ line :: l2) →
  get_unfinished_tasks s !! Z.to_nat (index - 1) = Some (length l1) →
  remove_task index s = Some (set_todo_lines (Some (l1 ++ l2)) s).
Proof.
  intros Hrange Hs Hj. unfold remove_task.
  range_tests index s; [lia | lia | lia |].
  rewrite Hj. simpl.
  rewrite (delete_line_spec _ _ _ Hs) by (rewrite length_app; simpl; lia).
  by rewrite delete_middle.
Qed.

(** What [check_todo] writes over a line that is an unfinished task. *)
Lemma strncpy_at_marker (ws rest : cstring) :
  Forall (λ c, isspace c = true) ws →
  whitespace_offset (ws ++ lit "- [ ]" ++ rest) = length ws ∧
  strncpy_at (length ws) (lit "- [x]") 5 (ws ++ lit "- [ ]" ++ rest)
  = ws ++ lit "- [x]" ++ rest.
Proof.
  intros Hws. split.
  - rewrite whitespace_offset_app by done. simpl. lia.
  - unfold strncpy_at. rewrite take_app_length.
    rewrite drop_app_ge, Nat.add_comm, Nat.add_sub by lia. done.
Qed.

Lemma check_todo_in_range (index : Z) (s : state) (l1 l2 : list cstring)
    (ws rest : cstring) :
  (1 ≤ index ≤ Z.of_nat (length (get_unfinished_tasks s)))%Z →
  todo_lines s = Some (l1 ++ (ws ++ lit "- [ ]" ++ rest) :: l2) →
  Forall (λ c, isspace c = true) ws →
  get_unfinished_tasks s !! Z.to_nat (index - 1) = Some (length l1) →
  check_todo index s
  = Some (set_todo_lines (Some (l1 ++ (ws ++ lit "- [x]" ++ rest) :: l2)) s).
Proof.
  intros Hrange Hs Hws Hj. unfold check_todo.
  range_tests index s; [lia | lia | lia |].
  rewrite Hj, Hs. cbn [mbind option_bind].
  rewrite list_lookup_middle by done. cbn [mbind option_bind].
  destruct (strncpy_at_marker ws rest Hws) as [-> ->].
  rewrite drop_app_length. cbn [lit list_ascii_of_string app strncmp Ascii.eqb Bool.eqb Z.eqb].
  by rewrite insert_app_r_alt, Nat.sub_diag by lia.
Qed.

(** Outside the range nothing but a message is produced. *)
Lemma out_of_range_message (index : Z) (s : state) :
  (index ≤ 0 ∨ Z.of_nat (length (get_unfinished_tasks s)) < index)%Z →
  let count := Z.of_nat (length (get_unfinished_tasks s)) in
  let m := if (index <=? 0)%Z then Invalid_index index
           else if (count =? 0)%Z then No_unfinished_tasks_found
           else Invalid_index_only index count in
  check_todo index s = Some (printf m s) ∧ remove_task index s = Some (printf m s).
Proof.
  intros Hout. unfold check_todo, remove_task. simpl.
  range_tests index s; [done | done | done | lia].
Qed.

Lemma passthrough_middle (l1 l2 : list cstring) (line : cstring) :
  is_other line = false →
  List.filter is_other (l1 ++ line :: l2) = List.filter is_other (l1 ++ l2).
Proof. intros H. rewrite !List.filter_app. simpl. by rewrite H. Qed.

(** [check_todo] and [remove_task] never run into undefined behaviour,
    and keep the passthrough lines. *)
Lemma check_todo_passthrough (index : Z) (s : state) :
  ∃ s', check_todo index s = Some s' ∧ passthrough_lines s' = passthrough_lines s.
Proof.
  destruct (decide (1 ≤ index ≤ Z.of_nat (length (get_unfinished_tasks s)))%Z)
    as [Hrange|Hout].
  - destruct (resolve_task_number index s Hrange)
      as (l1 & line & l2 & Hs & Hj & Hline & Hk).
    apply is_unfinished_spec in Hline as (ws & rest & -> & Hws).
    destruct (checked_line_markers ws rest Hws) as (Hu & Hf & Hu' & Hf').
    eexists. split; [by eapply check_todo_in_range|].
    unfold passthrough_lines. rewrite Hs. simpl. f_equal.
    rewrite !passthrough_middle; [done | apply is_other_task | apply is_other_task]; auto.
  - destruct (out_of_range_message index s) as [-> _]; [lia|]. by eexists.
Qed.

Lemma remove_task_passthrough (index : Z) (s : state) :
  ∃ s', remove_task index s = Some s' ∧ passthrough_lines s' = passthrough_lines s.
Proof.
  destruct (decide (1 ≤ index ≤ Z.of_nat (length (get_unfinished_tasks s)))%Z)
    as [Hrange|Hout].
  - destruct (resolve_task_number index s Hrange)
      as (l1 & line & l2 & Hs & Hj & Hline & Hk).
    eexists. split; [by eapply remove_task_in_range|].
    unfold passthrough_lines. rewrite Hs. simpl. f_equal.
    rewrite passthrough_middle; [done | apply is_other_task]; auto.
  - destruct (out_of_range_message index s) as [_ ->]; [lia|]. by eexists.
Qed.

(** ** Sorting and applying the task numbers *)

(** On positive [int]s the subtraction of [compare_int_desc] does not
    wrap around. *)
Lemma compare_int_desc_positive (a b : Z) :
  (0 < a < 2 ^ 31)%Z → (0 < b < 2 ^ 31)%Z → compare_int_desc a b = (b - a)%Z.
Proof. intros Ha Hb. unfold compare_int_desc. apply to_int_id. lia. Qed.

Lemma qsort_insert_perm (compar : Z → Z → Z) (x : Z) (l : list Z) :
  qsort_insert compar x l ≡ₚ x :: l.
Proof.
  induction l as [|y l IH]; simpl; [done|].
  destruct (compar x y <=? 0)%Z; [done|]. rewrite IH. apply Permutation_swap.
Qed.

Lemma qsort_perm (compar : Z → Z → Z) (l : list Z) : qsort compar l ≡ₚ l.
Proof.
  induction l as [|x l IH]; simpl; [done|].
  unfold qsort in *. simpl. by rewrite qsort_insert_perm, IH.
Qed.

Lemma qsort_insert_sorted (x : Z) (l : list Z) :
  (0 < x < 2 ^ 31)%Z → Forall (λ y, 0 < y < 2 ^ 31)%Z l →
  StronglySorted Z.ge l → StronglySorted Z.ge (qsort_insert compare_int_desc x l).
Proof.
  intros Hx Hl Hs. induction Hs as [|y l Hs IH Hy]; simpl.
  - repeat constructor.
  - apply Forall_cons in Hl as [Hy' Hl].
    rewrite compare_int_desc_positive by done.
    destruct (Z.leb_spec (y - x) 0).
    + constructor; [by constructor|].
      constructor; [lia|]. eapply Forall_impl; [exact Hy|]. simpl. lia.
    + constructor; [by apply IH|].
      rewrite qsort_insert_perm. constructor; [lia | done].
Qed.

(** [qsort] with [compare_int_desc] on positive [int]s: the same
    numbers, largest first.  (A list that is sorted and a permutation
    of the input is unique, so every implementation of [qsort] agrees
    with the model here.) *)
Lemma qsort_compare_int_desc (l : list Z) :
  Forall (λ y, 0 < y < 2 ^ 31)%Z l →
  StronglySorted Z.ge (qsort compare_int_desc l).
Proof.
  induction 1 as [|x l Hx Hl IH]; [constructor|].
  unfold qsort in *. simpl. apply qsort_insert_sorted; [done | | done].
  by rewrite (qsort_perm compare_int_desc l : foldr _ _ _ ≡ₚ _).
Qed.

Lemma parse_indexes_spec (args : list cstring) (indexes : list Z) (s : state) :
  parse_indexes args indexes s
  = (indexes ++ List.filter (λ z, 0 <? z)%Z (atoi <$> args),
     printf_all (Skipping_invalid_index
                   <$> List.filter (λ arg, atoi arg <=? 0)%Z args) s).
Proof.
  revert indexes s. induction args as [|arg args IH]; intros indexes s.
  - simpl. unfold printf_all. rewrite !app_nil_r. by destruct s.
  - rewrite fmap_cons. cbn [parse_indexes List.filter].
    destruct (Z.leb_spec (atoi arg) 0) as [Hle|Hgt].
    + destruct (Z.ltb_spec 0 (atoi arg)); [lia|]. rewrite IH. f_equal.
      rewrite fmap_cons. unfold printf_all, printf. simpl. by rewrite <- app_assoc.
    + destruct (Z.ltb_spec 0 (atoi arg)); [|lia]. by rewrite IH, <- app_assoc.
Qed.

Lemma call_each_foldl (fn : Z → state → option state) (indexes : list Z)
    (s : state) :
  call_each fn indexes s = foldl (λ st idx, st ≫= fn idx) (Some s) indexes.
Proof.
  revert s. induction indexes as [|idx rest IH]; intros s; simpl; [done|].
  destruct (fn idx s) as [s'|]; simpl; [apply IH|].
  clear. induction rest as [|i rest IH]; simpl; [done | apply IH].
Qed.

Lemma kept_indexes_positive (args : list cstring) :
  Forall (λ y, 0 < y < 2 ^ 31)%Z (List.filter (λ z, 0 <? z)%Z (atoi <$> args)).
Proof.
  apply Forall_forall. intros z Hz. apply list_elem_of_In, filter_In in Hz as [Hin Hpos].
  apply list_elem_of_In, list_elem_of_fmap in Hin as (arg & -> & _).
  pose proof (to_int_range (strtol arg)). unfold atoi in *. lia.
Qed.

(** ** Reading and writing the file *)

(** What [fgets] stores: a prefix of the stream, not longer than the
    room, without a newline except possibly as its last character, and
    not empty unless the stream or the room is. *)
Lemma fgets_chars_spec (n : nat) (stream buf rest : list ascii) :
  fgets_chars n stream = (buf, rest) →
  stream = buf ++ rest ∧ length buf ≤ n ∧
  (stream ≠ [] → 0 < n → buf ≠ []) ∧
  (((length buf = n ∨ rest = []) ∧ LF ∉ buf) ∨
   (∃ init, buf = init ++ [LF] ∧ LF ∉ init)).
Proof.
  revert stream buf rest. induction n as [|n IH]; intros stream buf rest; simpl.
  - intros [= <- <-]. repeat split; [simpl; lia | lia |].
    left. split; [by left | apply not_elem_of_nil].
  - destruct stream as [|c stream].
    + intros [= <- <-]. repeat split; [simpl; lia | done |].
      left. split; [by right | apply not_elem_of_nil].
    + destruct (Ascii.eqb_spec c LF) as [->|Hc].
      * intros [= <- <-]. repeat split; [simpl; lia | done |].
        right. exists []. split; [done | apply not_elem_of_nil].
      * destruct (fgets_chars n stream) as [buf' rest'] eqn:E.
        intros [= <- <-].
        destruct (IH _ _ _ E) as (-> & Hlen & _ & Hshape).
        repeat split; [simpl; lia | done |].
        destruct Hshape as [[Hfull Hno]|(init & -> & Hno)].
        -- left. split.
           ++ simpl. destruct Hfull; [left; lia | by right].
           ++ rewrite not_elem_of_cons. split; [congruence | done].
        -- right. exists (c :: init). split; [done|].
           rewrite not_elem_of_cons. split; [congruence | done].
Qed.

(** Each successful [fgets] of the loop consumes a character. *)
Lemma fgets_chars_progress (stream buf rest : list ascii) :
  stream ≠ [] →
  fgets_chars (MAX_LINE_LENGTH - 1) stream = (buf, rest) →
  length rest < length stream.
Proof.
  intros Hne E. destruct (fgets_chars_spec _ _ _ _ E) as (Hs & _ & Hbuf & _).
  assert (buf ≠ []) by (apply Hbuf; [done | unfold MAX_LINE_LENGTH; lia]).
  destruct buf; [done|].
  apply (f_equal length) in Hs. rewrite length_app in Hs. simpl in *. lia.
Qed.

(** The reading loop appends the lines of the stream to those it has;
    any [fuel] from the length of the stream on gives the same. *)
Lemma read_lines_loaded (fuel : nat) (stream : list ascii) (lines : list cstring) :
  length stream ≤ fuel →
  read_lines fuel stream lines = lines ++ loaded_lines stream.
Proof.
  unfold loaded_lines.
  assert (H : ∀ fuel stream lines, length stream ≤ fuel →
    read_lines fuel stream lines = lines ++ read_lines fuel stream []).
  { clear. induction fuel as [|fuel IH]; intros stream lines Hfuel.
    - simpl. by rewrite app_nil_r.
    - destruct stream as [|c stream]; [simpl; by rewrite app_nil_r|].
      cbn [read_lines fgets].
      destruct (fgets_chars (MAX_LINE_LENGTH - 1) (c :: stream)) as [buf rest] eqn:E.
      pose proof (fgets_chars_progress (c :: stream) _ _ ltac:(done) E) as Hlt.
      assert (length rest ≤ fuel) by (simpl in *; lia).
      rewrite (IH rest (lines ++ _)), (IH rest ([] ++ _)) by done.
      by rewrite app_assoc. }
  assert (H' : ∀ fuel fuel' stream, length stream ≤ fuel → length stream ≤ fuel' →
    read_lines fuel stream [] = read_lines fuel' stream []).
  { clear -H. induction fuel as [|fuel IH]; intros fuel' stream Hfuel Hfuel'.
    - destruct stream; [by destruct fuel' | simpl in Hfuel; lia].
    - destruct stream as [|c stream]; [by destruct fuel'|].
      destruct fuel' as [|fuel']; [simpl in Hfuel'; lia|].
      cbn [read_lines length fgets].
      destruct (fgets_chars (MAX_LINE_LENGTH - 1) (c :: stream)) as [buf rest] eqn:E.
      pose proof (fgets_chars_progress (c :: stream) _ _ ltac:(done) E) as Hlt.
      simpl in Hfuel, Hfuel', Hlt.
      rewrite (H fuel), (H fuel') by lia.
      by rewrite (IH fuel') by lia. }
  intros Hfuel. rewrite H by done. f_equal. by apply H'.
Qed.

(** The first step of loading. *)
Lemma loaded_lines_step (stream buf rest : list ascii) :
  stream ≠ [] →
  fgets_chars (MAX_LINE_LENGTH - 1) stream = (buf, rest) →
  loaded_lines stream = strdup buf :: loaded_lines rest.
Proof.
  intros Hne E. unfold loaded_lines at 1.
  destruct stream as [|c stream]; [done|]. cbn [length read_lines fgets].
  rewrite E. pose proof (fgets_chars_progress (c :: stream) _ _ ltac:(done) E) as Hlt.
  rewrite read_lines_loaded; [done | simpl in *; lia].
Qed.

(** Every stored line is a C string: it holds no NUL. *)
Lemma loaded_lines_cstrings (stream : list ascii) :
  Forall (λ line, NUL ∉ line) (loaded_lines stream).
Proof.
  remember (length stream) as n eqn:Hn. revert stream Hn.
  induction n as [n IH] using lt_wf_ind. intros stream ->.
  destruct (decide (stream = [])) as [->|Hne]; [constructor|].
  destruct (fgets_chars (MAX_LINE_LENGTH - 1) stream) as [buf rest] eqn:E.
  rewrite (loaded_lines_step _ _ _ Hne E).
  pose proof (fgets_chars_progress _ _ _ Hne E) as Hlt.
  constructor; [apply strdup_no_NUL | by apply (IH (length rest))].
Qed.

(** Without a NUL in the stream, the stored lines are the stream cut
    into pieces. *)
Lemma concat_loaded_lines (stream : list ascii) :
  NUL ∉ stream → concat (loaded_lines stream) = stream.
Proof.
  remember (length stream) as n eqn:Hn. revert stream Hn.
  induction n as [n IH] using lt_wf_ind. intros stream -> Hnul.
  destruct stream as [|c stream]; [done|].
  destruct (fgets_chars (MAX_LINE_LENGTH - 1) (c :: stream)) as [buf rest] eqn:E.
  assert (Hne : c :: stream ≠ []) by done.
  rewrite (loaded_lines_step _ _ _ Hne E).
  pose proof (fgets_chars_progress _ _ _ Hne E) as Hlt.
  destruct (fgets_chars_spec _ _ _ _ E) as (Hs & Hlen & Hbuf & _).
  rewrite Hs in Hnul. apply not_elem_of_app in Hnul as [Hnb Hnr].
  simpl. rewrite strdup_id by done.
  by rewrite (IH (length rest)), Hs.
Qed.

Lemma write_lines_concat (lines : list cstring) (out : list ascii) :
  write_lines lines out = out ++ concat lines.
Proof.
  revert out. induction lines as [|line lines IH]; intros out; simpl.
  - by rewrite app_nil_r.
  - by rewrite IH, app_assoc.
Qed.

Lemma get_all_lines_not_empty (s : state) : get_all_lines s ≠ Some [].
Proof.
  unfold get_all_lines. destruct (fopen_r s) as [stream|]; [|done].
  destruct (read_lines (length stream) stream []) eqn:E; simpl; [done|].
  by intros [=].
Qed.

Lemma get_all_lines_loaded (s : state) (lines : list cstring) :
  get_all_lines s = Some lines →
  ∃ bytes, file_contents s = Some bytes ∧ file_readable s = true ∧
           lines = loaded_lines bytes ∧ lines ≠ [].
Proof.
  unfold get_all_lines, fopen_r. destruct (file_readable s); [|done].
  destruct (file_contents s) as [bytes|]; [|done].
  fold (loaded_lines bytes). destruct (loaded_lines bytes) eqn:E; [done|].
  simpl. intros [= <-]. by exists bytes.
Qed.

(** ** Where stored lines begin and end *)

Lemma fgets_chars_full (chunk rest : list ascii) :
  LF ∉ chunk → fgets_chars (length chunk) (chunk ++ rest) = (chunk, rest).
Proof.
  induction chunk as [|c chunk IH]; simpl; [done|].
  rewrite not_elem_of_cons. intros [Hc Hchunk].
  destruct (Ascii.eqb_spec c LF); [congruence|]. by rewrite IH.
Qed.

Lemma fgets_chars_newline (n : nat) (init rest : list ascii) :
  LF ∉ init → length init < n →
  fgets_chars n (init ++ LF :: rest) = (init ++ [LF], rest).
Proof.
  revert n. induction init as [|c init IH]; intros n; simpl.
  - intros _ Hn. destruct n; [lia | done].
  - rewrite not_elem_of_cons. intros [Hc Hinit] Hn.
    destruct n as [|n]; [lia|]. simpl.
    destruct (Ascii.eqb_spec c LF); [congruence|]. rewrite IH by (done || lia). done.
Qed.

(** [fgets] on a stream whose first part ends with a newline does not
    look at what follows that part. *)
Lemma fgets_chars_app (n : nat) (a b buf rest : list ascii) :
  (∃ init, a = init ++ [LF]) →
  fgets_chars n a = (buf, rest) →
  fgets_chars n (a ++ b) = (buf, rest ++ b) ∧ ends_line rest.
Proof.
  revert a buf rest. induction n as [|n IH]; intros a buf rest Ha; simpl.
  - intros [= <- <-]. split; [done | by right].
  - destruct a as [|c a]; [destruct Ha as [[|??] ?]; done|]. simpl.
    destruct (Ascii.eqb_spec c LF) as [->|Hc].
    + intros [= <- <-]. split; [done|].
      destruct Ha as [[|c0 init] Ha]; simpl in Ha.
      * injection Ha as ->. by left.
      * injection Ha as _ ->. right. by exists init.
    + destruct (fgets_chars n a) as [buf' rest'] eqn:E. intros [= <- <-].
      assert (Ha' : ∃ init, a = init ++ [LF]).
      { destruct Ha as [[|c' init] Ha]; simplify_eq/=. by exists init. }
      destruct (IH _ _ _ Ha' E) as [-> Hrest]. done.
Qed.

Lemma loaded_lines_app (a b : list ascii) :
  ends_line a → loaded_lines (a ++ b) = loaded_lines a ++ loaded_lines b.
Proof.
  remember (length a) as n eqn:Hn. revert a Hn.
  induction n as [n IH] using lt_wf_ind. intros a -> [->|Ha]; [done|].
  assert (Hne : a ≠ []) by (destruct Ha as [[|??] ->]; done).
  assert (Hne' : a ++ b ≠ []) by (destruct a; done).
  destruct (fgets_chars (MAX_LINE_LENGTH - 1) a) as [buf rest] eqn:E.
  destruct (fgets_chars_app _ _ b _ _ Ha E) as [E' Hrest].
  rewrite (loaded_lines_step _ _ _ Hne E), (loaded_lines_step _ _ _ Hne' E').
  pose proof (fgets_chars_progress _ _ _ Hne E) as Hlt.
  by rewrite (IH (length rest)).
Qed.

Lemma loaded_lines_long (chunk rest : list ascii) :
  length chunk = MAX_LINE_LENGTH - 1 → LF ∉ chunk →
  loaded_lines (chunk ++ rest) = strdup chunk :: loaded_lines rest.
Proof.
  intros Hlen Hno. apply loaded_lines_step.
  - destruct chunk; [done | done].
  - rewrite <- Hlen. by apply fgets_chars_full.
Qed.

Lemma loaded_lines_short (init rest : list ascii) :
  length init < MAX_LINE_LENGTH - 1 → LF ∉ init →
  loaded_lines (init ++ LF :: rest) = strdup (init ++ [LF]) :: loaded_lines rest.
Proof.
  intros Hlen Hno. apply loaded_lines_step.
  - by destruct init.
  - by apply fgets_chars_newline.
Qed.

(** The last stored line is cut by [strdup] from the last piece
    [fgets] read, and the stream ends with that piece. *)
Lemma last_loaded_line (stream : list ascii) :
  stream ≠ [] →
  ∃ before chunk,
    stream = before ++ chunk ∧
    last (loaded_lines stream) = Some (strdup chunk) ∧
    (LF ∉ chunk ∨ ∃ init, chunk = init ++ [LF] ∧ LF ∉ init).
Proof.
  remember (length stream) as n eqn:Hn. revert stream Hn.
  induction n as [n IH] using lt_wf_ind. intros stream -> Hne.
  destruct (fgets_chars (MAX_LINE_LENGTH - 1) stream) as [buf rest] eqn:E.
  rewrite (loaded_lines_step _ _ _ Hne E).
  pose proof (fgets_chars_progress _ _ _ Hne E) as Hlt.
  destruct (fgets_chars_spec _ _ _ _ E) as (Hs & _ & _ & Hshape).
  destruct (decide (rest = [])) as [->|Hrest].
  - exists [], buf. rewrite app_nil_r in Hs. split; [done|]. split; [done|].
    destruct Hshape as [[_ ?]|?]; [by left | by right].
  - destruct (IH (length rest) Hlt rest eq_refl Hrest)
      as (before & chunk & Hr & Hlast & Hchunk).
    exists (buf ++ before), chunk. split; [by rewrite <- app_assoc, <- Hr|].
    split; [|done]. rewrite last_cons, Hlast. done.
Qed.

(** A stored last line that ends with a newline is the end of the
    stream. *)
Lemma last_loaded_line_newline (stream : list ascii) (line : cstring) :
  last (loaded_lines stream) = Some line → last line = Some LF →
  ends_line stream.
Proof.
  intros Hlast Hline. destruct (decide (stream = [])) as [->|Hne]; [by left|].
  destruct (last_loaded_line stream Hne) as (before & chunk & -> & Hlast' & Hshape).
  rewrite Hlast' in Hlast. injection Hlast as <-.
  destruct (strdup_prefix chunk) as [rest Hchunk].
  apply last_Some in Hline as [init' Hline].
  right. destruct Hshape as [Hno|(init & -> & Hno)].
  - exfalso. apply Hno. rewrite Hchunk, Hline.
    rewrite !elem_of_app, elem_of_cons. auto.
  - exists (before ++ init). by rewrite <- app_assoc.
Qed.

(** ** Adding a task *)

(** [add_todo] leaves [todo_lines] alone and writes behind what the
    file holds. *)
Lemma add_todo_appends (task : cstring) (s s' : state) :
  add_todo task s = Some s' →
  todo_lines s' = todo_lines s ∧
  ∃ appended,
    default [] (file_contents s') = default [] (file_contents s) ++ appended.
Proof.
  unfold add_todo. destruct (file_writable s).
  - destruct (todo_lines s) as [[|x next]|] eqn:Hs.
    + done.
    + destruct ((x :: next) !! last_line_index 0 next) as [last_line|]; [|done].
      cbn [mbind option_bind]. destruct (_ && _); intros [= <-]; simpl.
      * split; [done|]. rewrite <- app_assoc. by eexists.
      * split; [done|]. by eexists.
    + intros [= <-]. simpl. split; [done|]. by eexists.
  - intros [= <-]. simpl. split; [done|]. exists []. by rewrite app_nil_r.
Qed.

Lemma last_line_index_spec (i : nat) (next : list cstring) :
  last_line_index i next = i + length next.
Proof.
  revert i. induction next as [|x next IH]; intros i; simpl; [lia|].
  rewrite IH. lia.
Qed.

(** With at least one line in the array, [add_todo] is defined. *)
Lemma add_todo_defined (task : cstring) (s : state) :
  todo_lines s ≠ Some [] → is_Some (add_todo task s).
Proof.
  intros Hne. unfold add_todo. destruct (file_writable s); [|done].
  destruct (todo_lines s) as [[|x next]|]; [done | | done].
  rewrite last_line_index_spec. cbn [Nat.add].
  destruct (lookup_lt_is_Some_2 (x :: next) (length next)) as [l ->]; [simpl; lia|].
  cbn [mbind option_bind]. by destruct (_ && _).
Qed.

Lemma lacks_newline_spec (line : cstring) :
  lacks_newline line = true ↔ line ≠ [] ∧ last line ≠ Some LF.
Proof.
  unfold lacks_newline. rewrite last_lookup.
  destruct line as [|c line] using rev_ind; [by split; [|intros []]|].
  rewrite length_app. simpl. rewrite Nat.add_1_r. simpl.
  rewrite Nat.sub_0_r, lookup_app_r, Nat.sub_diag by done. simpl.
  destruct (Ascii.eqb_spec c LF) as [->|Hc]; simpl.
  - split; [done | by intros [_ []]].
  - split; [|done]. intros _. split; [by destruct line | congruence].
Qed.

Lemma add_todo_writable (task : cstring) (s : state) (lines : list cstring) :
  file_writable s = true → todo_lines s = Some lines → lines ≠ [] →
  ∃ last_line,
    last lines = Some last_line ∧
    add_todo task s
    = Some (set_file_contents
              (default [] (file_contents s)
               ++ (if lacks_newline last_line then [LF] else [])
               ++ lit "- [ ] " ++ task ++ [LF]) s).
Proof.
  intros Hw Hs Hne. unfold add_todo. rewrite Hw, Hs.
  destruct lines as [|x next]; [done|].
  rewrite last_line_index_spec. cbn [Nat.add].
  destruct (lookup_lt_is_Some_2 (x :: next) (length next)) as [last_line Hl];
    [simpl; lia|].
  exists last_line. split; [by rewrite last_lookup|].
  rewrite Hl. cbn [mbind option_bind]. fold (lacks_newline last_line).
  destruct (lacks_newline last_line); [by rewrite <- app_assoc | done].
Qed.

Lemma add_todo_writable_absent (task : cstring) (s : state) :
  file_writable s = true → todo_lines s = None →
  add_todo task s
  = Some (set_file_contents
            (default [] (file_contents s) ++ lit "- [ ] " ++ task ++ [LF]) s).
Proof. intros Hw Hs. unfold add_todo. by rewrite Hw, Hs. Qed.

(** ** The pieces of one source line *)

(** A line of the file, newline included and without NUL, is stored
    as pieces of at most 255 characters, none of them empty; the last
    piece ends with the newline. *)
Lemma loaded_line_pieces (more : list ascii) :
  LF ∉ more → NUL ∉ more →
  Forall (λ piece, 0 < length piece ≤ MAX_LINE_LENGTH - 1) (loaded_lines (more ++ [LF])) ∧
  ∃ init, last (loaded_lines (more ++ [LF])) = Some (init ++ [LF]).
Proof.
  remember (length more) as n eqn:Hn. revert more Hn.
  induction n as [n IH] using lt_wf_ind. intros more -> Hlf Hnul.
  destruct (decide (length more < MAX_LINE_LENGTH - 1)) as [Hshort|Hlong].
  - rewrite loaded_lines_short by done.
    rewrite strdup_id by (rewrite not_elem_of_app, list_elem_of_singleton; done).
    change (loaded_lines []) with (@nil cstring). split; [|by exists more].
    apply Forall_singleton. rewrite length_app. simpl.
    unfold MAX_LINE_LENGTH in *. lia.
  - rewrite <- (take_drop (MAX_LINE_LENGTH - 1) more) in Hlf, Hnul |- *.
    apply not_elem_of_app in Hlf as [Hlf1 Hlf2].
    apply not_elem_of_app in Hnul as [Hnul1 Hnul2].
    assert (Hlen : length (take (MAX_LINE_LENGTH - 1) more) = MAX_LINE_LENGTH - 1)
      by (rewrite length_take; unfold MAX_LINE_LENGTH in *; lia).
    rewrite <- app_assoc, loaded_lines_long, strdup_id by done.
    destruct (IH (length (drop (MAX_LINE_LENGTH - 1) more))
                ltac:(rewrite length_drop; unfold MAX_LINE_LENGTH in *; lia)
                _ eq_refl Hlf2 Hnul2) as [Hall [init Hlast]].
    split; [constructor; [unfold MAX_LINE_LENGTH in *; lia | done]|].
    exists init. destruct (loaded_lines _); [done | exact Hlast].
Qed.

(** ** The claims of the specification *)

(** C1. [get_unfinished_tasks] returns, in increasing order, exactly the
    positions of the lines that begin (after leading white space) with
    the five characters "- [ ]", and [get_finished_tasks] those of the
    lines that begin with "- [x]"; both return the empty array when
    [todo_lines] is NULL or no line matches; on the three-line document
    of the specification they return [0; 2] and [1]. *)
Theorem C1_task_indexes (s : state) :
  (StronglySorted lt (get_unfinished_tasks s) ∧
   ∀ i, i ∈ get_unfinished_tasks s ↔
        ∃ lines line, todo_lines s = Some lines ∧ lines !! i = Some line ∧
                      begins_with (lit "- [ ]") line) ∧
  (StronglySorted lt (get_finished_tasks s) ∧
   ∀ i, i ∈ get_finished_tasks s ↔
        ∃ lines line, todo_lines s = Some lines ∧ lines !! i = Some line ∧
                      begins_with (lit "- [x]") line) ∧
  (todo_lines s = None →
   get_unfinished_tasks s = [] ∧ get_finished_tasks s = []) ∧
  (∀ lines, todo_lines s = Some lines →
     (Forall (λ line, ¬ begins_with (lit "- [ ]") line) lines →
      get_unfinished_tasks s = []) ∧
     (Forall (λ line, ¬ begins_with (lit "- [x]") line) lines →
      get_finished_tasks s = [])) ∧
  get_unfinished_tasks (set_todo_lines (Some three_tasks) s) = [0; 2] ∧
  get_finished_tasks (set_todo_lines (Some three_tasks) s) = [1].
Proof.
  assert (Hin : ∀ P marker i,
    (∀ line, P line = true ↔ begins_with marker line) →
    i ∈ positions P 0 (default [] (todo_lines s)) ↔
    ∃ lines line, todo_lines s = Some lines ∧ lines !! i = Some line ∧
                  begins_with marker line).
  { intros P marker i HP. rewrite elem_of_positions, Nat.sub_0_r. split.
    - intros (_ & line & Hline & Hm). destruct (todo_lines s) as [lines|]; [|done].
      exists lines, line. by rewrite <- HP.
    - intros (lines & line & -> & Hline & Hm). split; [lia|].
      exists line. by rewrite HP. }
  assert (Hnone : ∀ P marker lines,
    (∀ line, P line = true ↔ begins_with marker line) →
    Forall (λ line, ¬ begins_with marker line) lines → positions P 0 lines = []).
  { intros P marker lines HP Hall.
    destruct (positions P 0 lines) as [|j tasks] eqn:E; [done|].
    assert (Hj : j ∈ positions P 0 lines) by (rewrite E; left).
    apply elem_of_positions in Hj as (_ & line & Hline & Hm).
    rewrite Forall_forall in Hall.
    destruct (Hall line); [by eapply list_elem_of_lookup_2 | by apply HP]. }
  rewrite get_unfinished_tasks_positions, get_finished_tasks_positions.
  split; [split; [apply positions_sorted | intros i; apply Hin, is_unfinished_spec]|].
  split; [split; [apply positions_sorted | intros i; apply Hin, is_finished_spec]|].
  split; [by intros ->|].
  split; [|done].
  intros lines ->. split; apply Hnone; [apply is_unfinished_spec | apply is_finished_spec].
Qed.

(** C2. A passthrough line is one that begins, after leading white
    space, with neither "- [ ]" nor "- [x]".  [check_todo] and
    [remove_task] (for any task number), [remove_finished_tasks] and
    [add_todo] are defined, and the document they leave is the former
    one, line for line and in the same order, but for task lines:
    [check_todo] leaves it as it was or rewrites one unfinished task
    line, in its place, into a finished one; [remove_task] leaves it
    as it was or takes out one unfinished task line, the lines before
    and behind it staying as they are; [remove_finished_tasks] leaves
    exactly the lines that are not finished tasks, in their order;
    [add_todo] does not touch the document at all and only writes
    behind the bytes the file already holds.  So the passthrough
    lines are afterwards the same, contents and order, and stand
    among the surviving lines as they stood. *)
Theorem C2_passthrough_preserved (s : state) (n : Z) (task : cstring) :
  (∀ line, is_other line = true ↔
           ¬ begins_with (lit "- [ ]") line ∧ ¬ begins_with (lit "- [x]") line) ∧
  (∃ s', check_todo n s = Some s' ∧ passthrough_lines s' = passthrough_lines s ∧
         (todo_lines s' = todo_lines s ∨
          ∃ l1 l2 ws rest,
            Forall (λ c, isspace c = true) ws ∧
            todo_lines s = Some (l1 ++ (ws ++ lit "- [ ]" ++ rest) :: l2) ∧
            todo_lines s' = Some (l1 ++ (ws ++ lit "- [x]" ++ rest) :: l2))) ∧
  (∃ s', remove_task n s = Some s' ∧ passthrough_lines s' = passthrough_lines s ∧
         (todo_lines s' = todo_lines s ∨
          ∃ l1 line l2,
            is_unfinished line = true ∧ is_other line = false ∧
            todo_lines s = Some (l1 ++ line :: l2) ∧
            todo_lines s' = Some (l1 ++ l2))) ∧
  (∃ s', remove_finished_tasks s = Some s' ∧
         passthrough_lines s' = passthrough_lines s ∧
         todo_lines s'
         = List.filter (λ line, negb (is_finished line)) <$> todo_lines s) ∧
  (∃ s' appended,
     add_todo task (load s) = Some s' ∧
     todo_lines s' = todo_lines (load s) ∧
     passthrough_lines s' = passthrough_lines (load s) ∧
     default [] (file_contents s') = default [] (file_contents s) ++ appended) ∧
  (∀ s', add_todo task s = Some s' → todo_lines s' = todo_lines s).
Proof.
  split; [apply is_other_spec|].
  split.
  { destruct (check_todo_passthrough n s) as (s' & Hs' & Hpass).
    exists s'. split; [done|]. split; [done|].
    destruct (decide (1 ≤ n ≤ Z.of_nat (length (get_unfinished_tasks s)))%Z)
      as [Hrange|Hout].
    - right. destruct (resolve_task_number n s Hrange)
        as (l1 & line & l2 & Hs & Hj & Hline & _).
      apply is_unfinished_spec in Hline as (ws & rest & -> & Hws).
      exists l1, l2, ws, rest. split; [done|]. split; [done|].
      rewrite (check_todo_in_range n s l1 l2 ws rest Hrange Hs Hws Hj) in Hs'.
      by injection Hs' as <-.
    - left. destruct (out_of_range_message n s) as [Hm _]; [lia|].
      rewrite Hm in Hs'. by injection Hs' as <-. }
  split.
  { destruct (remove_task_passthrough n s) as (s' & Hs' & Hpass).
    exists s'. split; [done|]. split; [done|].
    destruct (decide (1 ≤ n ≤ Z.of_nat (length (get_unfinished_tasks s)))%Z)
      as [Hrange|Hout].
    - right. destruct (resolve_task_number n s Hrange)
        as (l1 & line & l2 & Hs & Hj & Hline & _).
      exists l1, line, l2. split; [done|].
      split; [apply is_other_task; by left|]. split; [done|].
      rewrite (remove_task_in_range n s l1 l2 line Hrange Hs Hj) in Hs'.
      by injection Hs' as <-.
    - left. destruct (out_of_range_message n s) as [_ Hm]; [lia|].
      rewrite Hm in Hs'. by injection Hs' as <-. }
  split.
  { destruct (remove_finished_tasks_spec s) as (s' & Hs' & Hlines & _).
    exists s'. split; [done|]. split; [|done].
    unfold passthrough_lines. rewrite Hlines.
    destruct (todo_lines s) as [lines|]; [|done]. simpl.
    by rewrite filter_other_not_finished. }
  split.
  { destruct (add_todo_defined task (load s)) as [s' Hs'];
      [apply get_all_lines_not_empty|].
    destruct (add_todo_appends _ _ _ Hs') as (Hlines & appended & Happ).
    exists s', appended. unfold passthrough_lines. by rewrite Hlines. }
  intros s' Hs'. by destruct (add_todo_appends _ _ _ Hs').
Qed.

(** C3. For a task number [n] between 1 and the number of unfinished
    tasks, [check_todo n] resolves [n] through the unfinished index
    computed at the call; the resolved line is white space, the marker
    "- [ ]" and a rest, and the only change to the state is that this
    line now reads the same white space, "- [x]" and the same rest.
    Every other line, the file and the output are as before.
    Afterwards the unfinished index has lost its [n]-th element, and
    the finished index has gained exactly the resolved position. *)
Theorem C3_check_todo_frame (s : state) (n : Z) :
  (1 ≤ n ≤ Z.of_nat (length (get_unfinished_tasks s)))%Z →
  ∃ lines line_index ws rest s',
    todo_lines s = Some lines ∧
    get_unfinished_tasks s !! Z.to_nat (n - 1) = Some line_index ∧
    lines !! line_index = Some (ws ++ lit "- [ ]" ++ rest) ∧
    Forall (λ c, isspace c = true) ws ∧
    check_todo n s = Some s' ∧
    s' = set_todo_lines (Some (<[line_index := ws ++ lit "- [x]" ++ rest]> lines)) s ∧
    (∀ j, j ≠ line_index →
          (<[line_index := ws ++ lit "- [x]" ++ rest]> lines) !! j = lines !! j) ∧
    get_unfinished_tasks s' = delete (Z.to_nat (n - 1)) (get_unfinished_tasks s) ∧
    length (get_unfinished_tasks s') + 1 = length (get_unfinished_tasks s) ∧
    length (get_finished_tasks s') = length (get_finished_tasks s) + 1 ∧
    (∀ i, i ∈ get_finished_tasks s' ↔ i = line_index ∨ i ∈ get_finished_tasks s).
Proof.
  intros Hrange.
  destruct (resolve_task_number n s Hrange) as (l1 & line & l2 & Hs & Hj & Hline & Hk).
  apply is_unfinished_spec in Hline as (ws & rest & -> & Hws).
  destruct (checked_line_markers ws rest Hws) as (Hu & Hf & Hu' & Hf').
  exists (l1 ++ (ws ++ lit "- [ ]" ++ rest) :: l2), (length l1), ws, rest.
  exists (set_todo_lines (Some (l1 ++ (ws ++ lit "- [x]" ++ rest) :: l2)) s).
  split; [done|]. split; [done|].
  split; [by apply list_lookup_middle|]. split; [done|].
  rewrite (insert_app_r_alt l1) by lia. rewrite Nat.sub_diag. cbn [list_insert insert].
  split; [by apply check_todo_in_range|]. split; [done|].
  split.
  { intros j Hne. destruct (decide (j < length l1)).
    - by rewrite !lookup_app_l by lia.
    - rewrite !lookup_app_r by lia.
      destruct (j - length l1) as [|k] eqn:E; [lia | done]. }
  rewrite get_unfinished_tasks_set, get_finished_tasks_set.
  rewrite get_unfinished_tasks_positions, get_finished_tasks_positions, Hs.
  cbn [default from_option id]. rewrite !positions_middle, Hu, Hf, Hu', Hf'. cbn [app].
  assert (Hlen : length (positions is_unfinished 0 l1) = Z.to_nat (n - 1))
    by by rewrite length_positions.
  split; [by rewrite <- Hlen, delete_middle|].
  split; [rewrite !length_app; simpl; lia|].
  split; [rewrite !length_app; simpl; lia|].
  intros i. rewrite !elem_of_app, elem_of_cons. tauto.
Qed.

Lemma C3_check_todo_frame_witness :
  (1 ≤ 2 ≤ Z.of_nat (length (get_unfinished_tasks three_tasks_state)))%Z ∧
  ∃ lines line_index ws rest s',
    todo_lines three_tasks_state = Some lines ∧
    get_unfinished_tasks three_tasks_state
      !! Z.to_nat (2 - 1) = Some line_index ∧
    lines !! line_index = Some (ws ++ lit "- [ ]" ++ rest) ∧
    Forall (λ c, isspace c = true) ws ∧
    check_todo 2 three_tasks_state = Some s' ∧
    s' = set_todo_lines (Some (<[line_index := ws ++ lit "- [x]" ++ rest]> lines))
           three_tasks_state ∧
    (∀ j, j ≠ line_index →
          (<[line_index := ws ++ lit "- [x]" ++ rest]> lines) !! j = lines !! j) ∧
    get_unfinished_tasks s'
    = delete (Z.to_nat (2 - 1))
        (get_unfinished_tasks three_tasks_state) ∧
    length (get_unfinished_tasks s') + 1
    = length (get_unfinished_tasks three_tasks_state) ∧
    length (get_finished_tasks s')
    = length (get_finished_tasks three_tasks_state) + 1 ∧
    (∀ i, i ∈ get_finished_tasks s' ↔
          i = line_index ∨
          i ∈ get_finished_tasks three_tasks_state).
Proof.
  assert (H : (1 ≤ 2 ≤ Z.of_nat (length (get_unfinished_tasks three_tasks_state)))%Z)
    by (vm_compute; split; discriminate).
  split; [exact H | exact (C3_check_todo_frame three_tasks_state 2 H)].
Defined.

(** C4. For a task number [n] between 1 and the number of unfinished
    tasks, [remove_task n] deletes exactly the line [n] resolves to:
    the lines before it stay where they are, every later line moves up
    by one position, and nothing else changes.  The unfinished index
    computed afterwards is one shorter, and the unfinished task lines
    are the former ones, in the same order, without the [n]-th. *)
Theorem C4_remove_task (s : state) (n : Z) :
  (1 ≤ n ≤ Z.of_nat (length (get_unfinished_tasks s)))%Z →
  ∃ lines line_index s',
    todo_lines s = Some lines ∧
    get_unfinished_tasks s !! Z.to_nat (n - 1) = Some line_index ∧
    line_index < length lines ∧
    remove_task n s = Some s' ∧
    s' = set_todo_lines (Some (delete line_index lines)) s ∧
    (∀ j, j < line_index → delete line_index lines !! j = lines !! j) ∧
    (∀ j, line_index ≤ j → delete line_index lines !! j = lines !! S j) ∧
    length (get_unfinished_tasks s') + 1 = length (get_unfinished_tasks s) ∧
    List.filter is_unfinished (delete line_index lines)
    = delete (Z.to_nat (n - 1)) (List.filter is_unfinished lines).
Proof.
  intros Hrange.
  destruct (resolve_task_number n s Hrange) as (l1 & line & l2 & Hs & Hj & Hline & Hk).
  exists (l1 ++ line :: l2), (length l1).
  exists (set_todo_lines (Some (delete (length l1) (l1 ++ line :: l2))) s).
  split; [done|]. split; [done|].
  split; [rewrite length_app; simpl; lia|].
  split; [rewrite delete_middle; by eapply remove_task_in_range|].
  split; [done|].
  split; [intros j Hlt; by apply list_lookup_delete_lt|].
  split; [intros j Hle; by apply list_lookup_delete_ge|].
  rewrite get_unfinished_tasks_set, get_unfinished_tasks_positions, Hs.
  cbn [default from_option id]. rewrite !length_positions, delete_middle, !List.filter_app.
  cbn [List.filter]. rewrite Hline, <- Hk, delete_middle.
  split; [rewrite !length_app; simpl; lia | done].
Qed.

Lemma C4_remove_task_witness :
  (1 ≤ 1 ≤ Z.of_nat (length (get_unfinished_tasks three_tasks_state)))%Z ∧
  ∃ lines line_index s',
    todo_lines three_tasks_state = Some lines ∧
    get_unfinished_tasks three_tasks_state
      !! Z.to_nat (1 - 1) = Some line_index ∧
    line_index < length lines ∧
    remove_task 1 three_tasks_state = Some s' ∧
    s' = set_todo_lines (Some (delete line_index lines))
           three_tasks_state ∧
    (∀ j, j < line_index → delete line_index lines !! j = lines !! j) ∧
    (∀ j, line_index ≤ j → delete line_index lines !! j = lines !! S j) ∧
    length (get_unfinished_tasks s') + 1
    = length (get_unfinished_tasks three_tasks_state) ∧
    List.filter is_unfinished (delete line_index lines)
    = delete (Z.to_nat (1 - 1)) (List.filter is_unfinished lines).
Proof.
  assert (H : (1 ≤ 1 ≤ Z.of_nat (length (get_unfinished_tasks three_tasks_state)))%Z)
    by (vm_compute; split; discriminate).
  split; [exact H | exact (C4_remove_task three_tasks_state 1 H)].
Defined.

(** C5. [call_fn_with_indexes], called as [main] calls it (with
    [index] below [argc]), reads the arguments from [argv[index]] on
    with [atoi]; every argument whose value is not strictly positive
    is skipped with a message of its own, in argument order; the other
    values, sorted in descending order, are handed to the operation
    one after the other, each call working on the state the previous
    one left.  Removing tasks 1 and 3 from the document of the three
    unfinished tasks A, B and C leaves the single line of task B. *)
Theorem C5_call_fn_with_indexes (argv : list cstring) (index : nat)
    (fn : Z → state → option state) (s : state) :
  index < length argv →
  (∃ indexes,
     indexes ≡ₚ List.filter (λ z, 0 <? z)%Z (atoi <$> drop index argv) ∧
     StronglySorted Z.ge indexes ∧
     call_fn_with_indexes argv index fn s
     = foldl (λ st idx, st ≫= fn idx)
         (Some (printf_all
                  (Skipping_invalid_index
                     <$> List.filter (λ arg, atoi arg <=? 0)%Z (drop index argv)) s))
         indexes) ∧
  atoi <$> drop 2 remove_1_3 = [1; 3]%Z ∧
  qsort compare_int_desc [1; 3]%Z = [3; 1]%Z ∧
  call_fn_with_indexes remove_1_3 2 remove_task (set_todo_lines (Some tasks_ABC) s)
  = Some (set_todo_lines (Some [lit "- [ ] B"]) s).
Proof.
  intros Hindex. split; [|by split].
  exists (qsort compare_int_desc
            (List.filter (λ z, 0 <? z)%Z (atoi <$> drop index argv))).
  split; [apply qsort_perm|].
  split; [apply qsort_compare_int_desc, kept_indexes_positive|].
  unfold call_fn_with_indexes. rewrite decide_True by done.
  rewrite parse_indexes_spec. apply call_each_foldl.
Qed.

Lemma C5_call_fn_with_indexes_witness :
  2 < length remove_1_3 ∧
  (∃ indexes,
     indexes ≡ₚ List.filter (λ z, 0 <? z)%Z (atoi <$> drop 2 remove_1_3) ∧
     StronglySorted Z.ge indexes ∧
     call_fn_with_indexes remove_1_3 2 check_todo three_tasks_state
     = foldl (λ st idx, st ≫= check_todo idx)
         (Some (printf_all
                  (Skipping_invalid_index
                     <$> List.filter (λ arg, atoi arg <=? 0)%Z (drop 2 remove_1_3))
                  three_tasks_state))
         indexes) ∧
  atoi <$> drop 2 remove_1_3 = [1; 3]%Z ∧
  qsort compare_int_desc [1; 3]%Z = [3; 1]%Z ∧
  call_fn_with_indexes remove_1_3 2 remove_task
    (set_todo_lines (Some tasks_ABC) three_tasks_state)
  = Some (set_todo_lines (Some [lit "- [ ] B"]) three_tasks_state).
Proof.
  assert (H : 2 < length remove_1_3) by (vm_compute; lia).
  split; [exact H|].
  exact (C5_call_fn_with_indexes remove_1_3 2 check_todo three_tasks_state H).
Defined.

(** C6. [remove_finished_tasks] is idempotent.  It is defined on every
    state; after one call the document holds the lines that are not
    finished tasks and its finished index is empty, so a second call
    only reports that there are no finished tasks and leaves the
    document and the file as the first call left them. *)
Theorem C6_remove_finished_tasks_idempotent (s : state) :
  ∃ s1,
    remove_finished_tasks s = Some s1 ∧
    todo_lines s1 = List.filter (λ line, negb (is_finished line)) <$> todo_lines s ∧
    get_finished_tasks s1 = [] ∧
    remove_finished_tasks s1 = Some (printf No_finished_tasks_found s1) ∧
    todo_lines (printf No_finished_tasks_found s1) = todo_lines s1 ∧
    file_contents (printf No_finished_tasks_found s1) = file_contents s1.
Proof.
  destruct (remove_finished_tasks_spec s) as (s1 & Hs1 & Hlines & _).
  exists s1. split; [done|]. split; [done|].
  assert (Hnone : get_finished_tasks s1 = []).
  { rewrite get_finished_tasks_positions, Hlines.
    apply length_zero_iff_nil. rewrite length_positions.
    destruct (todo_lines s) as [lines|]; [|done]. simpl.
    by rewrite filter_finished_not_finished. }
  split; [done|]. split; [|done].
  unfold remove_finished_tasks. by rewrite Hnone.
Qed.

(** C7, as the code has it.  For a task number [n] that is not
    positive or exceeds the number of unfinished tasks, [check_todo]
    and [remove_task] are defined, print one message and change nothing
    else: the document and the file are as before.  The message is
    "Invalid index" when [n] is not positive, and when there are
    unfinished tasks but fewer than [n]; when there is no unfinished
    task at all (absent or empty document included) and [n] is
    positive, the message is "No unfinished tasks found." instead. *)
Theorem C7_out_of_range (s : state) (n : Z) :
  (n ≤ 0 ∨ Z.of_nat (length (get_unfinished_tasks s)) < n)%Z →
  ∃ m,
    check_todo n s = Some (printf m s) ∧
    remove_task n s = Some (printf m s) ∧
    todo_lines (printf m s) = todo_lines s ∧
    file_contents (printf m s) = file_contents s ∧
    stdout (printf m s) = stdout s ++ [m] ∧
    ((n ≤ 0)%Z → m = Invalid_index n) ∧
    ((0 < n)%Z → get_unfinished_tasks s = [] → m = No_unfinished_tasks_found) ∧
    ((0 < n)%Z → get_unfinished_tasks s ≠ [] →
     m = Invalid_index_only n (Z.of_nat (length (get_unfinished_tasks s)))).
Proof.
  intros Hout. destruct (out_of_range_message n s Hout) as [Hc Hr].
  eexists. split; [exact Hc|]. split; [exact Hr|].
  split; [done|]. split; [done|]. split; [done|].
  split; [|split].
  - intros Hn. by destruct (Z.leb_spec n 0); [|lia].
  - intros Hn Hnil. destruct (Z.leb_spec n 0); [lia|]. by rewrite Hnil.
  - intros Hn Hnil. destruct (Z.leb_spec n 0); [lia|].
    destruct (Z.eqb_spec (Z.of_nat (length (get_unfinished_tasks s))) 0) as [Hz|]; [|done].
    destruct (get_unfinished_tasks s); [done | simpl in Hz; lia].
Qed.

Lemma C7_out_of_range_witness :
  (3 ≤ 0 ∨ Z.of_nat (length (get_unfinished_tasks three_tasks_state)) < 3)%Z ∧
  ∃ m,
    check_todo 3 three_tasks_state = Some (printf m three_tasks_state) ∧
    remove_task 3 three_tasks_state = Some (printf m three_tasks_state) ∧
    todo_lines (printf m three_tasks_state) = todo_lines three_tasks_state ∧
    file_contents (printf m three_tasks_state) = file_contents three_tasks_state ∧
    stdout (printf m three_tasks_state) = stdout three_tasks_state ++ [m] ∧
    ((3 ≤ 0)%Z → m = Invalid_index 3) ∧
    ((0 < 3)%Z → get_unfinished_tasks three_tasks_state = [] →
     m = No_unfinished_tasks_found) ∧
    ((0 < 3)%Z → get_unfinished_tasks three_tasks_state ≠ [] →
     m = Invalid_index_only 3
           (Z.of_nat (length (get_unfinished_tasks three_tasks_state)))).
Proof.
  assert (H : (3 ≤ 0 ∨ Z.of_nat (length (get_unfinished_tasks three_tasks_state)) < 3)%Z)
    by (right; vm_compute; reflexivity).
  split; [exact H | exact (C7_out_of_range three_tasks_state 3 H)].
Defined.

(** C7 as it is worded fails: on the absent document, task number 1 is
    beyond the (zero) unfinished tasks, yet [check_todo] and
    [remove_task] print "No unfinished tasks found.", which is not an
    invalid-index report. *)
Lemma C7_counterexample :
  (Z.of_nat (length (get_unfinished_tasks absent_document)) < 1)%Z ∧
  check_todo 1 absent_document
  = Some (printf No_unfinished_tasks_found absent_document) ∧
  remove_task 1 absent_document
  = Some (printf No_unfinished_tasks_found absent_document) ∧
  stdout (printf No_unfinished_tasks_found absent_document)
  = [No_unfinished_tasks_found] ∧
  reports_invalid_index No_unfinished_tasks_found = false.
Proof. by vm_compute. Qed.

(** C8, as the code has it.  For an existing file that holds no NUL
    byte, loading it and saving the loaded document at once leaves the
    file with the bytes it had: the stored lines are consecutive
    pieces of the file (terminators included), and [save_todos] writes
    them back in order. *)
Theorem C8_load_save_round_trip (s : state) (bytes : list ascii) :
  file_contents s = Some bytes → NUL ∉ bytes →
  file_contents (save_todos (load s)) = Some bytes ∧
  (∀ lines, get_all_lines s = Some lines →
     concat lines = bytes ∧
     (file_writable s = true →
      save_todos (load s) = set_file_contents (write_lines lines []) (load s))).
Proof.
  intros Hfile Hnul.
  assert (Hlines : ∀ lines, get_all_lines s = Some lines → concat lines = bytes).
  { intros lines Hl. apply get_all_lines_loaded in Hl as (bytes' & Hb & _ & -> & _).
    rewrite Hfile in Hb. injection Hb as <-. by apply concat_loaded_lines. }
  split.
  - unfold save_todos, load. simpl.
    destruct (get_all_lines s) as [lines|] eqn:Hl; [|done].
    destruct (file_writable s); [|done]. simpl.
    by rewrite write_lines_concat, (Hlines lines).
  - intros lines Hl. split; [by apply Hlines|].
    intros Hw. unfold save_todos, load. simpl. by rewrite Hl, Hw.
Qed.

Lemma C8_load_save_round_trip_witness :
  file_contents (on_disk file_long_line) = Some file_long_line ∧
  (NUL ∉ file_long_line) ∧
  file_contents (save_todos (load (on_disk file_long_line))) = Some file_long_line ∧
  (∀ lines, get_all_lines (on_disk file_long_line) = Some lines →
     concat lines = file_long_line ∧
     (file_writable (on_disk file_long_line) = true →
      save_todos (load (on_disk file_long_line))
      = set_file_contents (write_lines lines []) (load (on_disk file_long_line)))).
Proof.
  assert (H1 : file_contents (on_disk file_long_line) = Some file_long_line)
    by reflexivity.
  assert (H2 : NUL ∉ file_long_line)
    by (apply not_elem_of_check; vm_compute; reflexivity).
  split; [exact H1|]. split; [exact H2|].
  exact (C8_load_save_round_trip (on_disk file_long_line) file_long_line H1 H2).
Defined.

(** C8 as it is worded fails: a file with a NUL byte is cut at the NUL
    in each piece [fgets] reads, so saving right after loading writes
    fewer bytes than the file had. *)
Lemma C8_counterexample :
  file_contents (on_disk file_with_NUL) = Some ["a"%char; NUL; "b"%char; LF] ∧
  get_all_lines (on_disk file_with_NUL) = Some [["a"%char]] ∧
  file_contents (save_todos (load (on_disk file_with_NUL))) = Some ["a"%char] ∧
  file_contents (save_todos (load (on_disk file_with_NUL)))
  ≠ file_contents (on_disk file_with_NUL).
Proof. by vm_compute. Qed.

(** C9, as the code has it.  When the file can be opened for
    appending, [add_todo], called on a freshly loaded document, writes
    behind the bytes of the file the line "- [ ] <task>" and a
    newline, preceded by one newline exactly when the document has
    lines and its last stored line is not empty and does not end with
    a newline.  Whenever the last stored line is not empty, what is
    then read back from the file is what is read from the bytes before
    the new task, followed by what is read from the new task line on
    its own; and a task without newline or NUL and of fewer than 249
    characters is read back as one line. *)
Theorem C9_add_todo (s : state) (task : cstring) :
  file_writable s = true →
  ∃ sep,
    add_todo task (load s)
    = Some (set_file_contents
              (default [] (file_contents s) ++ sep ++ lit "- [ ] " ++ task ++ [LF])
              (load s)) ∧
    (get_all_lines s = None → sep = []) ∧
    (∀ lines last_line,
       get_all_lines s = Some lines → last lines = Some last_line →
       (last_line ≠ [] ∧ last last_line ≠ Some LF → sep = [LF]) ∧
       (last_line = [] ∨ last last_line = Some LF → sep = []) ∧
       (last_line ≠ [] →
        loaded_lines
          (default [] (file_contents s) ++ sep ++ lit "- [ ] " ++ task ++ [LF])
        = loaded_lines (default [] (file_contents s) ++ sep)
          ++ loaded_lines (lit "- [ ] " ++ task ++ [LF]))) ∧
    (LF ∉ task → NUL ∉ task → length task < 249 →
     loaded_lines (lit "- [ ] " ++ task ++ [LF]) = [lit "- [ ] " ++ task ++ [LF]]).
Proof.
  intros Hw.
  assert (Hshort : LF ∉ task → NUL ∉ task → length task < 249 →
    loaded_lines (lit "- [ ] " ++ task ++ [LF]) = [lit "- [ ] " ++ task ++ [LF]]).
  { intros Hlf Hnul Hlen.
    assert (Hlf' : LF ∉ lit "- [ ] " ++ task).
    { rewrite not_elem_of_app. split; [|done].
      apply not_elem_of_check. by vm_compute. }
    assert (Hnul' : NUL ∉ (lit "- [ ] " ++ task) ++ [LF]).
    { rewrite !not_elem_of_app. split; [split; [|done]|];
        apply not_elem_of_check; by vm_compute. }
    rewrite app_assoc.
    rewrite (loaded_lines_short (lit "- [ ] " ++ task) []); [|..|done].
    - by rewrite strdup_id.
    - rewrite length_app. unfold MAX_LINE_LENGTH. simpl. lia. }
  destruct (get_all_lines s) as [lines|] eqn:Hload.
  - destruct (get_all_lines_loaded _ _ Hload) as (bytes & Hbytes & _ & Hlines & Hne).
    destruct (add_todo_writable task (load s) lines Hw Hload Hne)
      as (last_line & Hlast & Hadd).
    exists (if lacks_newline last_line then [LF] else []).
    split; [done|]. split; [done|]. split; [|done].
    intros ? ? [= <-] Hlast'. rewrite Hlast in Hlast'. injection Hlast' as <-.
    pose proof (lacks_newline_spec last_line) as Hspec.
    split; [|split].
    + intros H. apply Hspec in H. by rewrite H.
    + intros H. destruct (lacks_newline last_line); [|done].
      destruct Hspec as [Hspec _]. destruct Hspec as [H1 H2]; [done|].
      by destruct H.
    + intros Hne'. rewrite app_assoc. apply loaded_lines_app.
      rewrite Hbytes. simpl. destruct (lacks_newline last_line) eqn:E.
      * right. by exists bytes.
      * rewrite app_nil_r. apply (last_loaded_line_newline _ last_line).
        -- by rewrite <- Hlines.
        -- destruct (last last_line) as [c|] eqn:El.
           ++ destruct (Ascii.eqb_spec c LF) as [->|Hc]; [done|].
              assert (lacks_newline last_line = true); [|congruence].
              apply lacks_newline_spec. split; [done | congruence].
           ++ by apply last_None in El.
  - exists []. split; [by apply (add_todo_writable_absent task (load s))|].
    split; [done|].
    split; [done | done].
Qed.

Lemma C9_add_todo_witness :
  file_writable (on_disk file_abc) = true ∧
  ∃ sep,
    add_todo (lit "new") (load (on_disk file_abc))
    = Some (set_file_contents
              (default [] (file_contents (on_disk file_abc))
               ++ sep ++ lit "- [ ] " ++ lit "new" ++ [LF])
              (load (on_disk file_abc))) ∧
    (get_all_lines (on_disk file_abc) = None → sep = []) ∧
    (∀ lines last_line,
       get_all_lines (on_disk file_abc) = Some lines →
       last lines = Some last_line →
       (last_line ≠ [] ∧ last last_line ≠ Some LF → sep = [LF]) ∧
       (last_line = [] ∨ last last_line = Some LF → sep = []) ∧
       (last_line ≠ [] →
        loaded_lines
          (default [] (file_contents (on_disk file_abc))
           ++ sep ++ lit "- [ ] " ++ lit "new" ++ [LF])
        = loaded_lines (default [] (file_contents (on_disk file_abc)) ++ sep)
          ++ loaded_lines (lit "- [ ] " ++ lit "new" ++ [LF]))) ∧
    (LF ∉ lit "new" → NUL ∉ lit "new" → length (lit "new") < 249 →
     loaded_lines (lit "- [ ] " ++ lit "new" ++ [LF])
     = [lit "- [ ] " ++ lit "new" ++ [LF]]).
Proof.
  assert (H : file_writable (on_disk file_abc) = true) by reflexivity.
  split; [exact H | exact (C9_add_todo (on_disk file_abc) (lit "new") H)].
Defined.

(** C9 as it is worded fails in two places.  A file whose last piece
    starts with a NUL byte loads as a document whose last stored line
    is empty: the document has a line, that line does not end with a
    newline, and still [add_todo] writes no newline before the new
    task, which on reload is not a line of its own.  And when the file
    cannot be opened for appending, nothing is appended. *)
Lemma C9_counterexample :
  (get_all_lines (on_disk file_NUL_first) = Some [[]] ∧
   file_contents <$> add_todo (lit "t") (load (on_disk file_NUL_first))
   = Some (Some ([NUL; "a"%char] ++ lit "- [ ] t" ++ [LF])) ∧
   loaded_lines ([NUL; "a"%char] ++ lit "- [ ] t" ++ [LF]) = [[]]) ∧
  (add_todo (lit "t") (load (read_only file_abc))
   = Some (printf Error_opening_for_appending (load (read_only file_abc))) ∧
   file_contents (printf Error_opening_for_appending (load (read_only file_abc)))
   = Some file_abc).
Proof. by vm_compute. Qed.

(** C10, as the code has it.  In a file without NUL, a source line
    with more characters than the 256-byte buffer can take is not cut
    short but split.  When such a line starts a line of the file
    (255 characters without newline, then the characters in excess,
    then the newline), its first 255 characters are stored as one
    line of exactly that length, and loading goes on right behind
    them: the characters in excess are stored as the next line or
    lines, each of at least one and at most 255 characters, the last
    of them ending with the newline, and together they are the excess
    and its newline.  The lines stored before and behind are those of
    the file before and behind the source line, and all stored lines
    put one after the other are the bytes of the file: no character
    is discarded. *)
Theorem C10_long_line_is_split (s : state) (before chunk more after : list ascii) :
  fopen_r s = Some (before ++ (chunk ++ more ++ [LF]) ++ after) →
  ends_line before →
  length chunk = MAX_LINE_LENGTH - 1 → LF ∉ chunk → LF ∉ more →
  NUL ∉ before ++ (chunk ++ more ++ [LF]) ++ after →
  get_all_lines s
  = Some (loaded_lines before
          ++ chunk :: loaded_lines (more ++ [LF]) ++ loaded_lines after) ∧
  concat (loaded_lines (more ++ [LF])) = more ++ [LF] ∧
  Forall (λ piece, 0 < length piece ≤ MAX_LINE_LENGTH - 1)
         (loaded_lines (more ++ [LF])) ∧
  (∃ init, last (loaded_lines (more ++ [LF])) = Some (init ++ [LF])) ∧
  concat (loaded_lines before
          ++ chunk :: loaded_lines (more ++ [LF]) ++ loaded_lines after)
  = before ++ (chunk ++ more ++ [LF]) ++ after.
Proof.
  intros Hopen Hbefore Hlen Hlf Hlf' Hnul.
  assert (Hl : loaded_lines (before ++ (chunk ++ more ++ [LF]) ++ after)
               = loaded_lines before
                 ++ chunk :: loaded_lines (more ++ [LF]) ++ loaded_lines after).
  { rewrite loaded_lines_app by done. f_equal.
    rewrite loaded_lines_app by (right; exists (chunk ++ more); by rewrite <- app_assoc).
    rewrite loaded_lines_long by done.
    rewrite strdup_id; [done|]. rewrite !not_elem_of_app in Hnul. tauto. }
  assert (Hmore : NUL ∉ more) by (rewrite !not_elem_of_app in Hnul; tauto).
  destruct (loaded_line_pieces more Hlf' Hmore) as [Hall Hlast].
  split.
  { unfold get_all_lines. rewrite Hopen.
    fold (loaded_lines (before ++ (chunk ++ more ++ [LF]) ++ after)).
    rewrite Hl. by destruct (loaded_lines before). }
  split.
  { apply concat_loaded_lines. rewrite not_elem_of_app, list_elem_of_singleton.
    by split. }
  split; [done|]. split; [done|].
  rewrite <- Hl. by apply concat_loaded_lines.
Qed.

Lemma C10_long_line_is_split_witness :
  fopen_r (on_disk file_long_line)
  = Some ([] ++ (repeat "a"%char 255 ++ ["a"%char] ++ [LF]) ++ []) ∧
  ends_line [] ∧
  length (repeat "a"%char 255) = MAX_LINE_LENGTH - 1 ∧
  (LF ∉ repeat "a"%char 255) ∧ (LF ∉ ["a"%char]) ∧
  (NUL ∉ [] ++ (repeat "a"%char 255 ++ ["a"%char] ++ [LF]) ++ []) ∧
  get_all_lines (on_disk file_long_line)
  = Some (loaded_lines []
          ++ repeat "a"%char 255 :: loaded_lines (["a"%char] ++ [LF]) ++ loaded_lines []) ∧
  concat (loaded_lines (["a"%char] ++ [LF])) = ["a"%char] ++ [LF] ∧
  Forall (λ piece, 0 < length piece ≤ MAX_LINE_LENGTH - 1)
         (loaded_lines (["a"%char] ++ [LF])) ∧
  (∃ init, last (loaded_lines (["a"%char] ++ [LF])) = Some (init ++ [LF])) ∧
  concat (loaded_lines []
          ++ repeat "a"%char 255 :: loaded_lines (["a"%char] ++ [LF]) ++ loaded_lines [])
  = [] ++ (repeat "a"%char 255 ++ ["a"%char] ++ [LF]) ++ [].
Proof.
  assert (H1 : fopen_r (on_disk file_long_line)
               = Some ([] ++ (repeat "a"%char 255 ++ ["a"%char] ++ [LF]) ++ []))
    by (vm_compute; reflexivity).
  assert (H2 : ends_line []) by (left; reflexivity).
  assert (H3 : length (repeat "a"%char 255) = MAX_LINE_LENGTH - 1)
    by (vm_compute; reflexivity).
  assert (H4 : LF ∉ repeat "a"%char 255)
    by (apply not_elem_of_check; vm_compute; reflexivity).
  assert (H5 : LF ∉ ["a"%char])
    by (apply not_elem_of_check; vm_compute; reflexivity).
  assert (H6 : NUL ∉ [] ++ (repeat "a"%char 255 ++ ["a"%char] ++ [LF]) ++ [])
    by (apply not_elem_of_check; vm_compute; reflexivity).
  split; [exact H1|]. split; [exact H2|]. split; [exact H3|].
  split; [exact H4|]. split; [exact H5|]. split; [exact H6|].
  exact (C10_long_line_is_split (on_disk file_long_line) [] (repeat "a"%char 255)
           ["a"%char] [] H1 H2 H3 H4 H5 H6).
Defined.

(** C10 as it is worded fails: of a source line of 256 characters and
    a newline, the first 255 characters are stored as one line, and
    the character in excess is stored, with the newline, as a second
    line; nothing is discarded. *)
Lemma C10_counterexample :
  get_all_lines (on_disk file_long_line)
  = Some [repeat "a"%char 255; ["a"%char; LF]] ∧
  length (default [] (get_all_lines (on_disk file_long_line))) = 2 ∧
  concat (default [] (get_all_lines (on_disk file_long_line))) = file_long_line.
Proof. by vm_compute. Qed.

(** * Further properties of the code *)

(** ** White space *)

(** X1. [skip_leading_whitespace] splits a string into white space
    and a rest that does not start with white space; it returns that
    rest, and applying it again changes nothing. *)
Theorem X1_skip_leading_whitespace (str : cstring) :
  (∃ ws, str = ws ++ skip_leading_whitespace str ∧
         Forall (λ c, isspace c = true) ws) ∧
  (∀ c, head (skip_leading_whitespace str) = Some c → isspace c = false) ∧
  skip_leading_whitespace (skip_leading_whitespace str) = skip_leading_whitespace str.
Proof.
  unfold skip_leading_whitespace.
  assert (Hhead : ∀ c, head (drop (whitespace_offset str) str) = Some c →
                       isspace c = false).
  { induction str as [|x str IH]; simpl; [done|].
    destruct (isspace x) eqn:Hx; simpl; [done|]. by intros c [= <-]. }
  split; [|split; [done|]].
  - exists (take (whitespace_offset str) str).
    split; [by rewrite take_drop | apply whitespace_offset_take].
  - destruct (drop (whitespace_offset str) str) as [|c rest] eqn:E; [done|].
    simpl. by rewrite (Hhead c).
Qed.

(** ** Loading: edge cases and the shape of stored lines *)

Lemma loaded_lines_not_nil (stream : list ascii) :
  stream ≠ [] → loaded_lines stream ≠ [].
Proof.
  intros Hne. destruct (fgets_chars (MAX_LINE_LENGTH - 1) stream) as [buf rest] eqn:E.
  by rewrite (loaded_lines_step _ _ _ Hne E).
Qed.

Lemma get_all_lines_null (s : state) :
  get_all_lines s = None ↔ fopen_r s = None ∨ fopen_r s = Some [].
Proof.
  unfold get_all_lines. destruct (fopen_r s) as [stream|]; [|by split; [left|]].
  fold (loaded_lines stream). split.
  - destruct stream as [|c stream]; [by right|].
    pose proof (loaded_lines_not_nil (c :: stream) ltac:(done)) as Hne.
    by destruct (loaded_lines (c :: stream)).
  - by intros [|[= ->]].
Qed.

(** X2. [get_all_lines] returns NULL exactly when the file cannot be
    opened for reading (missing or unreadable) or is empty; it never
    returns an array without lines. *)
Theorem X2_get_all_lines_null (s : state) :
  (get_all_lines s = None ↔ fopen_r s = None ∨ fopen_r s = Some []) ∧
  get_all_lines s ≠ Some [] ∧
  (fopen_r s = None ↔ file_contents s = None ∨ file_readable s = false).
Proof.
  split; [apply get_all_lines_null|]. split; [apply get_all_lines_not_empty|].
  unfold fopen_r. destruct (file_readable s), (file_contents s);
    (split; [try done; auto | intros [|]; done]).
Qed.

Lemma newline_only_last (init pre post : list ascii) :
  LF ∉ init → pre ++ LF :: post = init ++ [LF] → post = [].
Proof.
  revert pre. induction init as [|c init IH]; intros pre Hno Heq; simpl in *.
  - destruct pre as [|? [|??]]; by simplify_eq/=.
  - apply not_elem_of_cons in Hno as [Hc Hno].
    destruct pre as [|p pre]; simplify_eq/=. by eapply IH.
Qed.

(** X3. Every line [get_all_lines] stores has at most 255 characters
    (the buffer of [MAX_LINE_LENGTH] bytes less the terminator), holds
    no NUL, and holds a newline at most as its last character. *)
Theorem X3_stored_line_shape (s : state) (lines : list cstring) :
  get_all_lines s = Some lines →
  Forall (λ line,
            length line ≤ MAX_LINE_LENGTH - 1 ∧ (NUL ∉ line) ∧
            ∀ pre post, line = pre ++ LF :: post → post = []) lines.
Proof.
  intros Hload. apply get_all_lines_loaded in Hload as (bytes & _ & _ & -> & _).
  remember (length bytes) as n eqn:Hn. revert bytes Hn.
  induction n as [n IH] using lt_wf_ind. intros stream ->.
  destruct (decide (stream = [])) as [->|Hne]; [constructor|].
  destruct (fgets_chars (MAX_LINE_LENGTH - 1) stream) as [buf rest] eqn:E.
  rewrite (loaded_lines_step _ _ _ Hne E).
  pose proof (fgets_chars_progress _ _ _ Hne E) as Hlt.
  constructor; [|by apply (IH (length rest))].
  destruct (fgets_chars_spec _ _ _ _ E) as (_ & Hlen & _ & Hshape).
  destruct (strdup_prefix buf) as [tail Hbuf].
  split; [|split; [apply strdup_no_NUL|]].
  - apply (f_equal length) in Hbuf. rewrite length_app in Hbuf. lia.
  - intros pre post Hline. rewrite Hline, <- app_assoc in Hbuf. simpl in Hbuf.
    destruct Hshape as [[_ Hno]|(init & -> & Hno)].
    + exfalso. apply Hno. rewrite Hbuf, elem_of_app, elem_of_cons. auto.
    + symmetry in Hbuf. apply newline_only_last in Hbuf; [|done]. by destruct post.
Qed.

Lemma X3_stored_line_shape_witness :
  get_all_lines (on_disk file_long_line)
  = Some [repeat "a"%char 255; ["a"%char; LF]] ∧
  Forall (λ line,
            length line ≤ MAX_LINE_LENGTH - 1 ∧ (NUL ∉ line) ∧
            ∀ pre post, line = pre ++ LF :: post → post = [])
         [repeat "a"%char 255; ["a"%char; LF]].
Proof.
  assert (H : get_all_lines (on_disk file_long_line)
              = Some [repeat "a"%char 255; ["a"%char; LF]])
    by (vm_compute; reflexivity).
  split; [exact H | exact (X3_stored_line_shape _ _ H)].
Defined.

(** ** What the operations in memory leave alone *)

Lemma same_file_refl (s : state) : same_file s s.
Proof. done. Qed.

Lemma same_file_trans (s1 s2 s3 : state) :
  same_file s1 s2 → same_file s2 s3 → same_file s1 s3.
Proof. unfold same_file. intros (-> & -> & ->) (-> & -> & ->). done. Qed.

Lemma delete_line_same_file (line_index : nat) (s s' : state) :
  delete_line line_index s = Some s' → same_file s s'.
Proof.
  unfold delete_line. destruct (todo_lines s) as [lines|]; [|done]. simpl.
  destruct (decide (line_index ≤ length lines)); [|done]. by intros [= <-].
Qed.

Lemma delete_lines_downto_same_file (k : nat) (tasks : list nat) (s s' : state) :
  delete_lines_downto k tasks s = Some s' → same_file s s'.
Proof.
  revert s. induction k as [|k IH]; intros s; simpl; [by intros [= <-]|].
  destruct (tasks !! k) as [line_index|]; [|done]. simpl.
  destruct (delete_line line_index s) as [s1|] eqn:E; [|done]. simpl.
  intros H. eapply same_file_trans; [by eapply delete_line_same_file | by apply IH].
Qed.

Lemma remove_finished_tasks_same_file (s s' : state) :
  remove_finished_tasks s = Some s' → same_file s s'.
Proof.
  unfold remove_finished_tasks. destruct (_ =? _); [by intros [= <-]|].
  apply delete_lines_downto_same_file.
Qed.

Lemma remove_task_same_file (index : Z) (s s' : state) :
  remove_task index s = Some s' → same_file s s'.
Proof.
  unfold remove_task.
  destruct (_ <=? _)%Z; [by intros [= <-]|].
  destruct (_ =? _)%Z; [by intros [= <-]|].
  destruct (_ >? _)%Z; [by intros [= <-]|].
  destruct (_ !! _) as [line_index|]; [|done]. apply delete_line_same_file.
Qed.

Lemma check_todo_same_file (index : Z) (s s' : state) :
  check_todo index s = Some s' → same_file s s'.
Proof.
  unfold check_todo.
  destruct (_ <=? _)%Z; [by intros [= <-]|].
  destruct (_ =? _)%Z; [by intros [= <-]|].
  destruct (_ >? _)%Z; [by intros [= <-]|].
  destruct (_ !! _) as [line_index|]; [|done]. simpl.
  destruct (todo_lines s) as [lines|]; [|done]. simpl.
  destruct (lines !! line_index) as [line|]; [|done]. simpl.
  destruct (_ =? _)%Z; by intros [= <-].
Qed.

Lemma call_each_same_file (fn : Z → state → option state) (indexes : list Z)
    (s s' : state) :
  (∀ idx s1 s2, fn idx s1 = Some s2 → same_file s1 s2) →
  call_each fn indexes s = Some s' → same_file s s'.
Proof.
  intros Hfn. revert s. induction indexes as [|idx rest IH]; intros s; simpl.
  - by intros [= <-].
  - destruct (fn idx s) as [s1|] eqn:E; [|done]. simpl. intros H.
    eapply same_file_trans; [by eapply Hfn | by apply IH].
Qed.

Lemma call_fn_with_indexes_same_file (argv : list cstring) (index : nat)
    (fn : Z → state → option state) (s s' : state) :
  (∀ idx s1 s2, fn idx s1 = Some s2 → same_file s1 s2) →
  call_fn_with_indexes argv index fn s = Some s' → same_file s s'.
Proof.
  intros Hfn. unfold call_fn_with_indexes.
  destruct (decide (index < length argv)); [|done].
  rewrite parse_indexes_spec. intros H.
  by apply (call_each_same_file _ _ _ _ Hfn) in H.
Qed.

(** X4. [check_todo], [remove_task], [remove_finished_tasks] and the
    batch forms of the first two work on [todo_lines] only: whatever
    their arguments, the bytes of the file and the way it can be
    opened are afterwards what they were.  Nothing reaches the file
    before [save_todos]. *)
Theorem X4_memory_operations_keep_file (s s' : state) (n : Z)
    (argv : list cstring) (index : nat) :
  (check_todo n s = Some s' → same_file s s') ∧
  (remove_task n s = Some s' → same_file s s') ∧
  (remove_finished_tasks s = Some s' → same_file s s') ∧
  (call_fn_with_indexes argv index check_todo s = Some s' → same_file s s') ∧
  (call_fn_with_indexes argv index remove_task s = Some s' → same_file s s').
Proof.
  split; [apply check_todo_same_file|].
  split; [apply remove_task_same_file|].
  split; [apply remove_finished_tasks_same_file|].
  split; apply call_fn_with_indexes_same_file;
    [apply check_todo_same_file | apply remove_task_same_file].
Qed.

(** ** Saving, then loading *)

Lemma loaded_lines_text (lines : list cstring) :
  Forall text_line lines → loaded_lines (concat lines) = lines.
Proof.
  induction 1 as [|line lines (init & -> & Hlen & Hlf & Hnul) _ IH]; [done|].
  simpl. rewrite <- app_assoc. simpl.
  rewrite loaded_lines_short, IH by done.
  rewrite strdup_id; [done|].
  rewrite not_elem_of_app, not_elem_of_cons. split; [done|]. split; [done|].
  apply not_elem_of_nil.
Qed.

Lemma save_todos_text (s : state) (lines : list cstring) :
  todo_lines s = Some lines → Forall text_line lines →
  file_readable s = true → file_writable s = true →
  file_contents (save_todos s) = Some (concat lines) ∧
  get_all_lines (save_todos s) = (if decide (lines = []) then None else Some lines).
Proof.
  intros Hs Htext Hr Hw. unfold save_todos. rewrite Hs, Hw.
  rewrite write_lines_concat. simpl. split; [done|].
  unfold get_all_lines, fopen_r. simpl. rewrite Hr.
  fold (loaded_lines (concat lines)). rewrite loaded_lines_text by done.
  by destruct lines.
Qed.

(** X5. A document made of text lines (each fewer than 255 characters
    without newline or NUL, then a newline) survives [save_todos]
    followed by [get_all_lines]: when the file can be written and
    read, the file then holds the lines one after the other and
    loading returns the same lines.  The one exception is the array
    without lines, which is saved as an empty file and loads as
    NULL. *)
Theorem X5_save_then_load (s : state) (lines : list cstring) :
  todo_lines s = Some lines → Forall text_line lines →
  file_readable s = true → file_writable s = true →
  file_contents (save_todos s) = Some (concat lines) ∧
  (lines ≠ [] → get_all_lines (save_todos s) = Some lines) ∧
  (lines = [] → get_all_lines (save_todos s) = None).
Proof.
  intros Hs Htext Hr Hw.
  destruct (save_todos_text s lines Hs Htext Hr Hw) as [Hfile Hload].
  split; [done|]. rewrite Hload. split; intros H; by destruct (decide (lines = [])).
Qed.

Lemma two_text_lines_text : Forall text_line two_text_lines.
Proof.
  repeat constructor.
  - exists (lit "  - [ ] first"). split; [done|]. split; [by vm_compute; lia|].
    split; apply not_elem_of_check; by vm_compute.
  - exists (lit "notes"). split; [done|]. split; [by vm_compute; lia|].
    split; apply not_elem_of_check; by vm_compute.
Defined.

Lemma X5_save_then_load_witness :
  todo_lines (State None true true (Some two_text_lines) []) = Some two_text_lines ∧
  Forall text_line two_text_lines ∧
  file_readable (State None true true (Some two_text_lines) []) = true ∧
  file_writable (State None true true (Some two_text_lines) []) = true ∧
  file_contents (save_todos (State None true true (Some two_text_lines) []))
  = Some (concat two_text_lines) ∧
  (two_text_lines ≠ [] →
   get_all_lines (save_todos (State None true true (Some two_text_lines) []))
   = Some two_text_lines) ∧
  (two_text_lines = [] →
   get_all_lines (save_todos (State None true true (Some two_text_lines) [])) = None).
Proof.
  split; [reflexivity|]. split; [exact two_text_lines_text|].
  split; [reflexivity|]. split; [reflexivity|].
  exact (X5_save_then_load (State None true true (Some two_text_lines) [])
           two_text_lines eq_refl two_text_lines_text eq_refl eq_refl).
Defined.

(** ** The document stays a text document *)

Lemma text_line_mark_done (ws rest : cstring) :
  text_line (ws ++ lit "- [ ]" ++ rest) → text_line (ws ++ lit "- [x]" ++ rest).
Proof.
  intros (init & Heq & Hlen & Hlf & Hnul).
  destruct rest as [|c rest _] using rev_ind.
  { exfalso. rewrite app_nil_r in Heq.
    change (lit "- [ ]") with (lit "- [ " ++ ["]"%char]) in Heq.
    rewrite app_assoc in Heq. by apply app_inj_tail in Heq as [_ ?]. }
  rewrite !app_assoc in Heq. apply app_inj_tail in Heq as [<- ->].
  exists (ws ++ lit "- [x]" ++ rest). rewrite <- !app_assoc. split; [done|].
  rewrite !length_app in *. split; [simpl in *; lia|].
  rewrite !not_elem_of_app in *.
  destruct Hlf as [[? _] ?], Hnul as [[? _] ?].
  repeat split; try done; apply not_elem_of_check; by vm_compute.
Qed.

Lemma mark_done_marker (ws rest : cstring) :
  Forall (λ c, isspace c = true) ws →
  mark_done (ws ++ lit "- [ ]" ++ rest) = ws ++ lit "- [x]" ++ rest.
Proof.
  intros Hws. unfold mark_done.
  by destruct (strncpy_at_marker ws rest Hws) as [-> ->].
Qed.

(** The state [check_todo] leaves, for any task number. *)
Lemma check_todo_state (index : Z) (s : state) :
  (∃ m, check_todo index s = Some (printf m s)) ∨
  (∃ l1 line l2,
     todo_lines s = Some (l1 ++ line :: l2) ∧ is_unfinished line = true ∧
     length (List.filter is_unfinished l1) = Z.to_nat (index - 1) ∧
     (1 ≤ index)%Z ∧
     check_todo index s = Some (set_todo_lines (Some (l1 ++ mark_done line :: l2)) s)).
Proof.
  destruct (decide (1 ≤ index ≤ Z.of_nat (length (get_unfinished_tasks s)))%Z)
    as [Hrange|Hout].
  - right. destruct (resolve_task_number index s Hrange)
      as (l1 & line & l2 & Hs & Hj & Hline & Hk).
    exists l1, line, l2. repeat split; [done..|lia|].
    apply is_unfinished_spec in Hline as (ws & rest & -> & Hws).
    rewrite mark_done_marker by done. by apply check_todo_in_range.
  - left. destruct (out_of_range_message index s) as [-> _]; [lia|]. by eexists.
Qed.

(** The state [remove_task] leaves, for any task number. *)
Lemma remove_task_state (index : Z) (s : state) :
  (∃ m, remove_task index s = Some (printf m s)) ∨
  (∃ l1 line l2,
     todo_lines s = Some (l1 ++ line :: l2) ∧ is_unfinished line = true ∧
     length (List.filter is_unfinished l1) = Z.to_nat (index - 1) ∧
     (1 ≤ index)%Z ∧
     remove_task index s = Some (set_todo_lines (Some (l1 ++ l2)) s)).
Proof.
  destruct (decide (1 ≤ index ≤ Z.of_nat (length (get_unfinished_tasks s)))%Z)
    as [Hrange|Hout].
  - right. destruct (resolve_task_number index s Hrange)
      as (l1 & line & l2 & Hs & Hj & Hline & Hk).
    exists l1, line, l2. repeat split; [done..|lia|].
    by eapply remove_task_in_range.
  - left. destruct (out_of_range_message index s) as [_ ->]; [lia|]. by eexists.
Qed.

(** The state [remove_finished_tasks] leaves. *)
Lemma remove_finished_tasks_state (s : state) :
  (get_finished_tasks s = [] ∧
   remove_finished_tasks s = Some (printf No_finished_tasks_found s)) ∨
  (∃ lines,
     todo_lines s = Some lines ∧ get_finished_tasks s ≠ [] ∧
     remove_finished_tasks s
     = Some (set_todo_lines
               (Some (List.filter (λ line, negb (is_finished line)) lines)) s)).
Proof.
  unfold remove_finished_tasks.
  destruct (get_finished_tasks s) as [|p ps] eqn:E; [by left|]. right.
  rewrite get_finished_tasks_positions in E.
  destruct (todo_lines s) as [lines|] eqn:Hs; [|done]. simpl in E.
  exists lines. split; [done|]. split; [done|]. rewrite <- E.
  pose proof (delete_lines_downto_positions is_finished lines [] [] s) as H.
  rewrite !app_nil_r in H. rewrite <- Hs, set_todo_lines_same in H at 1.
  rewrite H. destruct (Nat.eqb_spec (length (positions is_finished 0 lines)) 0) as [Hz|];
    [|done].
  by rewrite E in Hz.
Qed.

Lemma text_line_filter (P : cstring → bool) (lines : list cstring) :
  Forall text_line lines → Forall text_line (List.filter P lines).
Proof.
  induction 1 as [|line lines Hline _ IH]; simpl; [constructor|].
  destruct (P line); [by constructor | done].
Qed.

(** X6. On a document made of text lines, with a file that can be
    read and written, [check_todo] and [remove_task] (for any task
    number) and [remove_finished_tasks] are defined and leave a
    document made of text lines again; [save_todos] then writes it so
    that the next [get_all_lines] returns exactly that document (NULL
    when no line is left). *)
Theorem X6_changes_persist (s : state) (lines : list cstring) (n : Z) :
  todo_lines s = Some lines → Forall text_line lines →
  file_readable s = true → file_writable s = true →
  (∃ s' lines',
     check_todo n s = Some s' ∧ todo_lines s' = Some lines' ∧
     Forall text_line lines' ∧ length lines' = length lines ∧
     get_all_lines (save_todos s') = (if decide (lines' = []) then None else Some lines')) ∧
  (∃ s' lines',
     remove_task n s = Some s' ∧ todo_lines s' = Some lines' ∧
     Forall text_line lines' ∧
     get_all_lines (save_todos s') = (if decide (lines' = []) then None else Some lines')) ∧
  (∃ s' lines',
     remove_finished_tasks s = Some s' ∧ todo_lines s' = Some lines' ∧
     Forall text_line lines' ∧
     get_all_lines (save_todos s') = (if decide (lines' = []) then None else Some lines')).
Proof.
  intros Hs Htext Hr Hw.
  assert (Hsave : ∀ s' lines', same_file s s' → todo_lines s' = Some lines' →
    Forall text_line lines' →
    get_all_lines (save_todos s') = (if decide (lines' = []) then None else Some lines')).
  { intros s' lines' (_ & Hr' & Hw') Hs' Htext'.
    apply save_todos_text; [done | done | congruence | congruence]. }
  split; [|split].
  - destruct (check_todo_state n s) as [[m Hc]|(l1 & line & l2 & Hs' & Hline & _ & _ & Hc)].
    + exists (printf m s), lines. split; [done|]. split; [done|]. split; [done|].
      split; [done|]. by apply Hsave.
    + rewrite Hs in Hs'. injection Hs' as ->.
      apply is_unfinished_spec in Hline as (ws & rest & -> & Hws).
      rewrite mark_done_marker in Hc by done.
      apply Forall_app in Htext as [H1 H2]. apply Forall_cons in H2 as [Hline H2].
      assert (Htext' : Forall text_line (l1 ++ (ws ++ lit "- [x]" ++ rest) :: l2)).
      { apply Forall_app. split; [done|]. constructor; [|done].
        by apply text_line_mark_done. }
      eexists _, _. split; [exact Hc|]. split; [done|]. split; [done|].
      split; [by rewrite !length_app|]. by apply Hsave.
  - destruct (remove_task_state n s) as [[m Hc]|(l1 & line & l2 & Hs' & _ & _ & _ & Hc)].
    + exists (printf m s), lines. split; [done|]. split; [done|]. split; [done|].
      by apply Hsave.
    + rewrite Hs in Hs'. injection Hs' as ->.
      apply Forall_app in Htext as [H1 H2]. apply Forall_cons in H2 as [_ H2].
      assert (Htext' : Forall text_line (l1 ++ l2)) by (apply Forall_app; done).
      eexists _, _. split; [exact Hc|]. split; [done|]. split; [done|].
      by apply Hsave.
  - destruct (remove_finished_tasks_state s) as [[_ Hc]|(lines' & Hs' & _ & Hc)].
    + exists (printf No_finished_tasks_found s), lines.
      split; [done|]. split; [done|]. split; [done|]. by apply Hsave.
    + rewrite Hs in Hs'. injection Hs' as <-.
      eexists _, _. split; [exact Hc|]. split; [done|].
      split; [by apply text_line_filter|].
      apply Hsave; [done | done | by apply text_line_filter].
Qed.

Lemma X6_changes_persist_witness :
  todo_lines (State None true true (Some two_text_lines) []) = Some two_text_lines ∧
  Forall text_line two_text_lines ∧
  file_readable (State None true true (Some two_text_lines) []) = true ∧
  file_writable (State None true true (Some two_text_lines) []) = true ∧
  (∃ s' lines',
     check_todo 1 (State None true true (Some two_text_lines) []) = Some s' ∧
     todo_lines s' = Some lines' ∧
     Forall text_line lines' ∧ length lines' = length two_text_lines ∧
     get_all_lines (save_todos s') = (if decide (lines' = []) then None else Some lines')) ∧
  (∃ s' lines',
     remove_task 1 (State None true true (Some two_text_lines) []) = Some s' ∧
     todo_lines s' = Some lines' ∧
     Forall text_line lines' ∧
     get_all_lines (save_todos s') = (if decide (lines' = []) then None else Some lines')) ∧
  (∃ s' lines',
     remove_finished_tasks (State None true true (Some two_text_lines) []) = Some s' ∧
     todo_lines s' = Some lines' ∧
     Forall text_line lines' ∧
     get_all_lines (save_todos s') = (if decide (lines' = []) then None else Some lines')).
Proof.
  split; [reflexivity|]. split; [exact two_text_lines_text|].
  split; [reflexivity|]. split; [reflexivity|].
  exact (X6_changes_persist (State None true true (Some two_text_lines) [])
           two_text_lines 1 eq_refl two_text_lines_text eq_refl eq_refl).
Defined.

(** ** Listing *)

Lemma list_entries_positions (P : cstring → bool) (n : nat) (pre suf : list cstring) :
  list_entries n (positions P (length pre) suf) (pre ++ suf)
  = entries_of n (List.filter P suf).
Proof.
  revert n pre. induction suf as [|line rest IH]; intros n pre; [done|].
  cbn [positions List.filter]. destruct (P line); cbn [list_entries entries_of].
  - rewrite list_lookup_middle by done. cbn [mbind option_bind].
    destruct (decide (6 ≤ length (skip_leading_whitespace line))); [|done].
    replace (pre ++ line :: rest) with ((pre ++ [line]) ++ rest)
      by by rewrite <- app_assoc.
    replace (S (length pre)) with (length (pre ++ [line]))
      by (rewrite length_app; simpl; lia).
    by rewrite IH.
  - replace (pre ++ line :: rest) with ((pre ++ [line]) ++ rest)
      by by rewrite <- app_assoc.
    replace (S (length pre)) with (length (pre ++ [line]))
      by (rewrite length_app; simpl; lia).
    apply IH.
Qed.

(** [list_todos] is a function of the unfinished task lines alone. *)
Lemma list_todos_listing (s : state) : list_todos s = listing (unfinished_lines s).
Proof.
  unfold list_todos, unfinished_lines. rewrite get_unfinished_tasks_positions.
  rewrite length_positions.
  destruct (todo_lines s) as [lines|]; [|done]. cbn [default from_option id].
  destruct (List.filter is_unfinished lines) as [|t tasks] eqn:E; [done|].
  cbn [length Nat.eqb mbind option_bind listing]. rewrite <- E.
  apply (list_entries_positions is_unfinished 0 []).
Qed.

Lemma entries_of_is_Some (n : nat) (tasks : list cstring) :
  is_Some (entries_of n tasks) ↔
  Forall (λ line, 6 ≤ length (skip_leading_whitespace line)) tasks.
Proof.
  revert n. induction tasks as [|line rest IH]; intros n; simpl.
  - split; [constructor | by eexists].
  - rewrite Forall_cons. destruct (decide (6 ≤ length (skip_leading_whitespace line))).
    + rewrite <- (IH (S n)). destruct (entries_of (S n) rest); simpl.
      * split; [by split; [|eexists] | by eexists].
      * split; [by intros [??] | by intros [_ [??]]].
    + split; [by intros [??] | by intros [??]].
Qed.

Lemma entries_of_numbered (n : nat) (tasks : list cstring) :
  Forall (λ line, 6 ≤ length (skip_leading_whitespace line)) tasks →
  entries_of n tasks = Some (numbered_entries n tasks).
Proof.
  intros H. revert n. induction H as [|line rest Hline _ IH]; intros n; simpl; [done|].
  destruct (decide (6 ≤ length (skip_leading_whitespace line))); [|done].
  by rewrite IH.
Qed.

Lemma unfinished_lines_elem (s : state) (line : cstring) :
  line ∈ unfinished_lines s ↔
  ∃ lines, todo_lines s = Some lines ∧ line ∈ lines ∧ is_unfinished line = true.
Proof.
  unfold unfinished_lines. rewrite list_elem_of_In, filter_In, <- list_elem_of_In.
  destruct (todo_lines s) as [lines|]; simpl.
  - split; [intros [??]; by exists lines | by intros (? & [= <-] & ? & ?)].
  - rewrite elem_of_nil. split; [by intros [??] | by intros (? & ? & _)].
Qed.

(** X7. [list_todos] stays within its strings exactly when every
    unfinished task line has a character behind the marker "- [ ]";
    if one such line stops right after the marker (a last line of the
    file without newline), [printf] is handed a pointer behind the end
    of that string. *)
Theorem X7_list_todos_defined (s : state) :
  is_Some (list_todos s) ↔
  ∀ lines line,
    todo_lines s = Some lines → line ∈ lines → is_unfinished line = true →
    6 ≤ length (skip_leading_whitespace line).
Proof.
  rewrite list_todos_listing. unfold listing.
  assert (H : is_Some (entries_of 0 (unfinished_lines s)) ↔
    ∀ lines line, todo_lines s = Some lines → line ∈ lines →
                  is_unfinished line = true →
                  6 ≤ length (skip_leading_whitespace line)).
  { rewrite entries_of_is_Some, Forall_forall. split.
    - intros H lines line Hs Hin Hu. apply H, unfinished_lines_elem. by exists lines.
    - intros H line Hin. apply unfinished_lines_elem in Hin as (lines & Hs & Hin & Hu).
      by apply (H lines). }
  destruct (unfinished_lines s) as [|t tasks] eqn:E; [|done].
  rewrite <- H. simpl. split; by eexists.
Qed.

(** X8. When every unfinished task line has a character behind the
    marker, [list_todos] prints, for a document without unfinished
    task, the one message "No unfinished tasks found.", and otherwise
    one entry for each unfinished task line, in the order of the
    document, numbered 1, 2, ...; the text of an entry is the line
    without its leading white space, the marker and the character
    that follows the marker. *)
Theorem X8_list_todos_entries (s : state) :
  (∀ lines line,
     todo_lines s = Some lines → line ∈ lines → is_unfinished line = true →
     6 ≤ length (skip_leading_whitespace line)) →
  (unfinished_lines s = [] →
   list_todos s = Some [Message No_unfinished_tasks_found]) ∧
  (unfinished_lines s ≠ [] →
   list_todos s = Some (numbered_entries 0 (unfinished_lines s))) ∧
  (∀ out, list_todos s = Some out →
          length out = Nat.max 1 (length (get_unfinished_tasks s))).
Proof.
  intros Hok. rewrite list_todos_listing.
  assert (Hall : Forall (λ line, 6 ≤ length (skip_leading_whitespace line))
                        (unfinished_lines s)).
  { apply Forall_forall. intros line Hin.
    apply unfinished_lines_elem in Hin as (lines & Hs & Hin & Hu). by apply (Hok lines). }
  assert (Hlen : ∀ n tasks, length (numbered_entries n tasks) = length tasks).
  { intros n tasks. revert n. induction tasks as [|t tasks IH]; intros n; simpl;
      [done | by rewrite IH]. }
  rewrite get_unfinished_tasks_positions, length_positions.
  fold (unfinished_lines s).
  destruct (unfinished_lines s) as [|t tasks] eqn:E.
  - split; [done|]. split; [done|]. by intros out [= <-].
  - split; [done|]. unfold listing. rewrite entries_of_numbered by done.
    split; [done|]. intros out [= <-]. simpl. rewrite Hlen. lia.
Qed.

Lemma X8_list_todos_entries_witness :
  (∀ lines line,
     todo_lines three_tasks_state = Some lines → line ∈ lines →
     is_unfinished line = true →
     6 ≤ length (skip_leading_whitespace line)) ∧
  (unfinished_lines three_tasks_state = [] →
   list_todos three_tasks_state = Some [Message No_unfinished_tasks_found]) ∧
  (unfinished_lines three_tasks_state ≠ [] →
   list_todos three_tasks_state
   = Some (numbered_entries 0 (unfinished_lines three_tasks_state))) ∧
  (∀ out, list_todos three_tasks_state = Some out →
          length out = Nat.max 1 (length (get_unfinished_tasks three_tasks_state))).
Proof.
  assert (H : ∀ lines line,
     todo_lines three_tasks_state = Some lines → line ∈ lines →
     is_unfinished line = true →
     6 ≤ length (skip_leading_whitespace line)).
  { intros lines line [= <-] Hin _. unfold three_tasks in Hin.
    rewrite !elem_of_cons, elem_of_nil in Hin.
    destruct Hin as [->|[->|[->|[]]]]; vm_compute; lia. }
  split; [exact H | exact (X8_list_todos_entries three_tasks_state H)].
Defined.

(** ** How the operations change the listing *)

Lemma filter_unfinished_not_finished (lines : list cstring) :
  List.filter is_unfinished (List.filter (λ line, negb (is_finished line)) lines)
  = List.filter is_unfinished lines.
Proof.
  induction lines as [|x lines IH]; simpl; [done|].
  destruct (is_finished x) eqn:Hf; simpl.
  - destruct (is_unfinished x) eqn:Hu; [|done].
    apply is_unfinished_spec in Hu as (ws & rest & -> & Hws).
    destruct (checked_line_markers ws rest Hws) as (_ & Hf' & _). congruence.
  - by rewrite IH.
Qed.

Lemma is_unfinished_mark_done (line : cstring) :
  is_unfinished line = true →
  is_unfinished (mark_done line) = false ∧ is_finished (mark_done line) = true.
Proof.
  intros Hu. apply is_unfinished_spec in Hu as (ws & rest & -> & Hws).
  rewrite mark_done_marker by done.
  by destruct (checked_line_markers ws rest Hws) as (_ & _ & ? & ?).
Qed.

(** X9. For a task number [n] between 1 and the number of unfinished
    tasks, [check_todo n] and [remove_task n] have the same effect on
    what [list_todos] shows: the unfinished task lines are the former
    ones without the [n]-th, so entry [n] is gone and every later
    entry moves up by one number. *)
Theorem X9_listing_after_check_or_remove (s : state) (n : Z) :
  (1 ≤ n ≤ Z.of_nat (length (get_unfinished_tasks s)))%Z →
  ∃ s1 s2,
    check_todo n s = Some s1 ∧ remove_task n s = Some s2 ∧
    unfinished_lines s1 = delete (Z.to_nat (n - 1)) (unfinished_lines s) ∧
    unfinished_lines s2 = delete (Z.to_nat (n - 1)) (unfinished_lines s) ∧
    list_todos s = listing (unfinished_lines s) ∧
    list_todos s1 = listing (delete (Z.to_nat (n - 1)) (unfinished_lines s)) ∧
    list_todos s2 = list_todos s1.
Proof.
  intros Hrange.
  destruct (resolve_task_number n s Hrange) as (l1 & line & l2 & Hs & Hj & Hline & Hk).
  apply is_unfinished_spec in Hline as Hline'. destruct Hline' as (ws & rest & -> & Hws).
  destruct (checked_line_markers ws rest Hws) as (_ & _ & Hu' & _).
  exists (set_todo_lines (Some (l1 ++ (ws ++ lit "- [x]" ++ rest) :: l2)) s),
         (set_todo_lines (Some (l1 ++ l2)) s).
  split; [by apply check_todo_in_range|]. split; [by eapply remove_task_in_range|].
  assert (H1 : unfinished_lines
                 (set_todo_lines (Some (l1 ++ (ws ++ lit "- [x]" ++ rest) :: l2)) s)
               = delete (Z.to_nat (n - 1)) (unfinished_lines s)).
  { unfold unfinished_lines. rewrite Hs.
    cbn [set_todo_lines todo_lines default from_option id].
    rewrite !List.filter_app. cbn [List.filter]. rewrite Hu', Hline, <- Hk.
    by rewrite delete_middle. }
  assert (H2 : unfinished_lines (set_todo_lines (Some (l1 ++ l2)) s)
               = delete (Z.to_nat (n - 1)) (unfinished_lines s)).
  { unfold unfinished_lines. rewrite Hs.
    cbn [set_todo_lines todo_lines default from_option id].
    rewrite !List.filter_app. cbn [List.filter]. rewrite Hline, <- Hk.
    by rewrite delete_middle. }
  split; [done|]. split; [done|].
  rewrite !list_todos_listing, H1, H2. done.
Qed.

Lemma X9_listing_after_check_or_remove_witness :
  (1 ≤ 1 ≤ Z.of_nat (length (get_unfinished_tasks three_tasks_state)))%Z ∧
  ∃ s1 s2,
    check_todo 1 three_tasks_state = Some s1 ∧
    remove_task 1 three_tasks_state = Some s2 ∧
    unfinished_lines s1
    = delete (Z.to_nat (1 - 1)) (unfinished_lines three_tasks_state) ∧
    unfinished_lines s2
    = delete (Z.to_nat (1 - 1)) (unfinished_lines three_tasks_state) ∧
    list_todos three_tasks_state = listing (unfinished_lines three_tasks_state) ∧
    list_todos s1
    = listing (delete (Z.to_nat (1 - 1)) (unfinished_lines three_tasks_state)) ∧
    list_todos s2 = list_todos s1.
Proof.
  assert (H : (1 ≤ 1 ≤ Z.of_nat (length (get_unfinished_tasks three_tasks_state)))%Z)
    by (vm_compute; split; discriminate).
  split; [exact H | exact (X9_listing_after_check_or_remove three_tasks_state 1 H)].
Defined.

(** X10. [remove_finished_tasks] does not renumber anything: it is
    always defined, the unfinished task lines are afterwards the same
    lines in the same order, the unfinished index has the same length,
    and [list_todos] prints what it printed before. *)
Theorem X10_clean_keeps_listing (s : state) :
  ∃ s',
    remove_finished_tasks s = Some s' ∧
    unfinished_lines s' = unfinished_lines s ∧
    length (get_unfinished_tasks s') = length (get_unfinished_tasks s) ∧
    list_todos s' = list_todos s.
Proof.
  assert (Hcount : ∀ s, length (get_unfinished_tasks s) = length (unfinished_lines s)).
  { intros s0. by rewrite get_unfinished_tasks_positions, length_positions. }
  destruct (remove_finished_tasks_state s) as [[_ Hc]|(lines & Hs & _ & Hc)].
  - exists (printf No_finished_tasks_found s). split; [done|].
    by rewrite !list_todos_listing, !Hcount.
  - eexists. split; [exact Hc|].
    assert (H : unfinished_lines
                  (set_todo_lines
                     (Some (List.filter (λ line, negb (is_finished line)) lines)) s)
                = unfinished_lines s).
    { unfold unfinished_lines. rewrite Hs. simpl.
      apply filter_unfinished_not_finished. }
    split; [done|]. by rewrite !list_todos_listing, !Hcount, H.
Qed.

Lemma filter_not_finished_middle (l1 l2 : list cstring) (line : cstring) :
  is_finished line = true →
  List.filter (λ line, negb (is_finished line)) (l1 ++ line :: l2)
  = List.filter (λ line, negb (is_finished line)) (l1 ++ l2).
Proof. intros H. rewrite !List.filter_app. simpl. by rewrite H. Qed.

(** X11. Marking a task as done and then removing the finished tasks
    leaves the same document as removing that task and then removing
    the finished tasks (for a task number that names an unfinished
    task). *)
Theorem X11_check_then_clean (s : state) (n : Z) :
  (1 ≤ n ≤ Z.of_nat (length (get_unfinished_tasks s)))%Z →
  ∃ s1 s1' s2 s2',
    check_todo n s = Some s1 ∧ remove_finished_tasks s1 = Some s1' ∧
    remove_task n s = Some s2 ∧ remove_finished_tasks s2 = Some s2' ∧
    todo_lines s1' = todo_lines s2' ∧
    same_file s s1' ∧ same_file s s2'.
Proof.
  intros Hrange.
  destruct (resolve_task_number n s Hrange) as (l1 & line & l2 & Hs & Hj & Hline & Hk).
  apply is_unfinished_spec in Hline as (ws & rest & -> & Hws).
  destruct (checked_line_markers ws rest Hws) as (_ & _ & _ & Hf).
  pose proof (check_todo_in_range n s l1 l2 ws rest Hrange Hs Hws Hj) as Hc.
  pose proof (remove_task_in_range n s l1 l2 _ Hrange Hs Hj) as Hr.
  destruct (remove_finished_tasks_spec
              (set_todo_lines (Some (l1 ++ (ws ++ lit "- [x]" ++ rest) :: l2)) s))
    as (s1' & Hc1 & Hl1 & _).
  destruct (remove_finished_tasks_spec (set_todo_lines (Some (l1 ++ l2)) s))
    as (s2' & Hc2 & Hl2 & _).
  eexists _, s1', _, s2'.
  split; [exact Hc|]. split; [exact Hc1|]. split; [exact Hr|]. split; [exact Hc2|].
  split.
  - rewrite Hl1, Hl2. simpl. f_equal. by apply filter_not_finished_middle.
  - split.
    + apply remove_finished_tasks_same_file in Hc1. by destruct Hc1 as (? & ? & ?).
    + apply remove_finished_tasks_same_file in Hc2. by destruct Hc2 as (? & ? & ?).
Qed.

Lemma X11_check_then_clean_witness :
  (1 ≤ 2 ≤ Z.of_nat (length (get_unfinished_tasks three_tasks_state)))%Z ∧
  ∃ s1 s1' s2 s2',
    check_todo 2 three_tasks_state = Some s1 ∧ remove_finished_tasks s1 = Some s1' ∧
    remove_task 2 three_tasks_state = Some s2 ∧ remove_finished_tasks s2 = Some s2' ∧
    todo_lines s1' = todo_lines s2' ∧
    same_file three_tasks_state s1' ∧ same_file three_tasks_state s2'.
Proof.
  assert (H : (1 ≤ 2 ≤ Z.of_nat (length (get_unfinished_tasks three_tasks_state)))%Z)
    by (vm_compute; split; discriminate).
  split; [exact H | exact (X11_check_then_clean three_tasks_state 2 H)].
Defined.

(** ** Tasks addressed by their numbers *)

Section act_numbered.
Context (act : cstring → list cstring).
Context (act_done : ∀ line, is_unfinished line = true →
                            List.filter is_unfinished (act line) = []).

Lemma act_numbered_ext (ks ks' : list Z) (n : nat) (lines : list cstring) :
  (∀ k, (Z.of_nat n < k ≤ Z.of_nat (n + length (List.filter is_unfinished lines)))%Z →
        k ∈ ks ↔ k ∈ ks') →
  act_numbered act ks n lines = act_numbered act ks' n lines.
Proof.
  revert n. induction lines as [|line rest IH]; intros n Hks; simpl; [done|].
  simpl in Hks. destruct (is_unfinished line); simpl in Hks.
  - rewrite (IH (S n)) by (intros k Hk; apply Hks; lia).
    rewrite (bool_decide_ext _ (Z.of_nat (S n) ∈ ks')); [done|].
    apply Hks. lia.
  - by rewrite (IH n).
Qed.

Lemma act_numbered_nil (n : nat) (lines : list cstring) :
  act_numbered act [] n lines = lines.
Proof.
  revert n. induction lines as [|line rest IH]; intros n; simpl; [done|].
  destruct (is_unfinished line); simpl; by rewrite IH.
Qed.

(** Numbers outside the numbers of the tasks at hand do nothing. *)
Lemma act_numbered_id (ks : list Z) (n : nat) (lines : list cstring) :
  (∀ k, k ∈ ks →
        ¬ (Z.of_nat n < k ≤ Z.of_nat (n + length (List.filter is_unfinished lines)))%Z) →
  act_numbered act ks n lines = lines.
Proof.
  intros Hks. rewrite (act_numbered_ext ks []); [apply act_numbered_nil|].
  intros k Hk. rewrite elem_of_nil. split; [|done]. intros Hin. by apply (Hks k).
Qed.

Lemma act_numbered_single (n : nat) (l1 l2 : list cstring) (line : cstring) :
  is_unfinished line = true →
  act_numbered act [Z.of_nat (S (n + length (List.filter is_unfinished l1)))] n
    (l1 ++ line :: l2)
  = l1 ++ act line ++ l2.
Proof.
  intros Hline. revert n. induction l1 as [|x l1 IH]; intros n; simpl.
  - rewrite Hline, Nat.add_0_r. rewrite bool_decide_true by (by left).
    f_equal. apply act_numbered_id. intros k Hk.
    apply list_elem_of_singleton in Hk. lia.
  - destruct (is_unfinished x) eqn:Hx; simpl.
    + rewrite bool_decide_false by (rewrite list_elem_of_singleton; lia).
      simpl. f_equal. rewrite <- (IH (S n)). do 3 f_equal. lia.
    + f_equal. apply IH.
Qed.

(** Acting on the task with the largest number first leaves the
    smaller numbers in place. *)
Lemma act_numbered_cons_max (k1 : Z) (ks' : list Z) (n : nat)
    (lines : list cstring) :
  (∀ k, k ∈ ks' → (k < k1)%Z) →
  act_numbered act ks' n (act_numbered act [k1] n lines)
  = act_numbered act (k1 :: ks') n lines.
Proof.
  intros Hlt. revert n. induction lines as [|line rest IH]; intros n; simpl; [done|].
  destruct (is_unfinished line) eqn:Hline; simpl.
  - destruct (decide (Z.of_nat (S n) = k1)) as [Hk|Hk].
    + rewrite bool_decide_true by (rewrite list_elem_of_singleton; done).
      rewrite (bool_decide_true (_ ∈ k1 :: ks')) by (rewrite Hk; left).
      rewrite (act_numbered_id [k1] (S n))
        by (intros k Hin; apply list_elem_of_singleton in Hin; lia).
      rewrite (act_numbered_id (k1 :: ks') (S n)).
      2:{ intros k Hin. apply elem_of_cons in Hin as [->|Hin]; [lia|].
          apply Hlt in Hin. lia. }
      assert (Hskip : ∀ ls m, List.filter is_unfinished ls = [] →
        act_numbered act ks' m (ls ++ rest) = ls ++ act_numbered act ks' m rest).
      { clear -act. induction ls as [|x ls IHls]; intros m Hls; simpl in *; [done|].
        destruct (is_unfinished x); [done|]. by rewrite IHls. }
      rewrite Hskip by by apply act_done. f_equal.
      apply act_numbered_id. intros k Hin. apply Hlt in Hin. lia.
    + rewrite bool_decide_false by (rewrite list_elem_of_singleton; done).
      simpl. rewrite Hline.
      rewrite (bool_decide_ext (_ ∈ k1 :: ks') (Z.of_nat (S n) ∈ ks'))
        by (rewrite elem_of_cons; split; [by intros [?|?] | by right]).
      by rewrite IH.
  - rewrite Hline. by rewrite IH.
Qed.
End act_numbered.

Lemma remove_numbered_act (ks : list Z) (n : nat) (lines : list cstring) :
  remove_numbered ks n lines = act_numbered (λ _, []) ks n lines.
Proof.
  revert n. induction lines as [|line rest IH]; intros n; simpl; [done|].
  destruct (is_unfinished line); [|by rewrite IH].
  destruct (bool_decide _); simpl; by rewrite IH.
Qed.

Lemma check_numbered_act (ks : list Z) (n : nat) (lines : list cstring) :
  check_numbered ks n lines = act_numbered (λ line, [mark_done line]) ks n lines.
Proof.
  revert n. induction lines as [|line rest IH]; intros n; simpl; [done|].
  destruct (is_unfinished line); [|by rewrite IH].
  destruct (bool_decide _); simpl; by rewrite IH.
Qed.

Lemma act_done_remove (line : cstring) :
  is_unfinished line = true →
  List.filter is_unfinished ((λ _ : cstring, @nil cstring) line) = [].
Proof. done. Qed.

Lemma act_done_check (line : cstring) :
  is_unfinished line = true →
  List.filter is_unfinished ((λ line, [mark_done line]) line) = [].
Proof.
  intros Hline. simpl. by destruct (is_unfinished_mark_done line Hline) as [-> _].
Qed.

(** [remove_task] and [check_todo] act on the task their argument
    numbers, whatever the argument. *)
Lemma remove_task_numbered (k : Z) (s : state) :
  ∃ s', remove_task k s = Some s' ∧ same_file s s' ∧
        todo_lines s' = act_numbered (λ _, []) [k] 0 <$> todo_lines s.
Proof.
  destruct (decide (1 ≤ k ≤ Z.of_nat (length (get_unfinished_tasks s)))%Z)
    as [Hrange|Hout].
  - destruct (resolve_task_number k s Hrange) as (l1 & line & l2 & Hs & Hj & Hline & Hk).
    eexists. split; [by eapply remove_task_in_range|]. split; [done|].
    rewrite Hs. simpl. f_equal.
    replace k with (Z.of_nat (S (0 + length (List.filter is_unfinished l1)))) by lia.
    by rewrite act_numbered_single.
  - destruct (out_of_range_message k s) as [_ ->]; [lia|].
    eexists. split; [done|]. split; [done|]. simpl.
    destruct (todo_lines s) as [lines|] eqn:Hs; [|done]. simpl. f_equal.
    symmetry. apply act_numbered_id. intros k' Hk'%list_elem_of_singleton. subst k'.
    rewrite get_unfinished_tasks_positions, length_positions, Hs in Hout.
    simpl in Hout. lia.
Qed.

Lemma check_todo_numbered (k : Z) (s : state) :
  ∃ s', check_todo k s = Some s' ∧ same_file s s' ∧
        todo_lines s' = act_numbered (λ line, [mark_done line]) [k] 0 <$> todo_lines s.
Proof.
  destruct (decide (1 ≤ k ≤ Z.of_nat (length (get_unfinished_tasks s)))%Z)
    as [Hrange|Hout].
  - destruct (resolve_task_number k s Hrange) as (l1 & line & l2 & Hs & Hj & Hline & Hk).
    apply is_unfinished_spec in Hline as Hline'.
    destruct Hline' as (ws & rest & -> & Hws).
    eexists. split; [by eapply check_todo_in_range|]. split; [done|].
    rewrite Hs. cbn [fmap option_fmap option_map set_todo_lines todo_lines]. f_equal.
    replace k with (Z.of_nat (S (0 + length (List.filter is_unfinished l1)))) by lia.
    rewrite act_numbered_single by done. cbv beta. by rewrite mark_done_marker.
  - destruct (out_of_range_message k s) as [-> _]; [lia|].
    eexists. split; [done|]. split; [done|]. simpl.
    destruct (todo_lines s) as [lines|] eqn:Hs; [|done]. simpl. f_equal.
    symmetry. apply act_numbered_id. intros k' Hk'%list_elem_of_singleton. subst k'.
    rewrite get_unfinished_tasks_positions, length_positions, Hs in Hout.
    simpl in Hout. lia.
Qed.

(** Calls in strictly descending order of the task numbers act on the
    tasks that had these numbers at the start. *)
Lemma call_each_numbered (fn : Z → state → option state)
    (act : cstring → list cstring) (ks : list Z) :
  (∀ line, is_unfinished line = true → List.filter is_unfinished (act line) = []) →
  (∀ k s, ∃ s', fn k s = Some s' ∧ same_file s s' ∧
                todo_lines s' = act_numbered act [k] 0 <$> todo_lines s) →
  StronglySorted Z.gt ks →
  ∀ s, ∃ s', call_each fn ks s = Some s' ∧ same_file s s' ∧
             todo_lines s' = act_numbered act ks 0 <$> todo_lines s.
Proof.
  intros Hact Hfn Hsorted. induction Hsorted as [|k1 ks' _ IH Hk1]; intros s; simpl.
  - exists s. split; [done|]. split; [done|].
    destruct (todo_lines s); [|done]. simpl. by rewrite act_numbered_nil.
  - destruct (Hfn k1 s) as (s1 & -> & Hfile1 & Hlines1). simpl.
    destruct (IH s1) as (s' & -> & Hfile' & Hlines').
    exists s'. split; [done|]. split; [by eapply same_file_trans|].
    rewrite Hlines', Hlines1. destruct (todo_lines s) as [lines|]; [|done]. simpl.
    f_equal. apply act_numbered_cons_max; [done|].
    intros k Hk. rewrite Forall_forall in Hk1. apply Hk1 in Hk. lia.
Qed.

Lemma sorted_nodup_strict (l : list Z) :
  StronglySorted Z.ge l → NoDup l → StronglySorted Z.gt l.
Proof.
  induction 1 as [|x l _ IH Hx]; intros Hnd; [constructor|].
  apply NoDup_cons in Hnd as [Hnotin Hnd]. constructor; [by apply IH|].
  rewrite Forall_forall in *. intros y Hy. specialize (Hx y Hy).
  assert (x ≠ y) by (intros ->; done). lia.
Qed.

Lemma batch_numbered (fn : Z → state → option state) (act : cstring → list cstring)
    (argv : list cstring) (index : nat) (s : state) :
  (∀ line, is_unfinished line = true → List.filter is_unfinished (act line) = []) →
  (∀ k s, ∃ s', fn k s = Some s' ∧ same_file s s' ∧
                todo_lines s' = act_numbered act [k] 0 <$> todo_lines s) →
  index < length argv →
  NoDup (List.filter (λ z, 0 <? z)%Z (atoi <$> drop index argv)) →
  ∃ s', call_fn_with_indexes argv index fn s = Some s' ∧ same_file s s' ∧
        todo_lines s'
        = act_numbered act (List.filter (λ z, 0 <? z)%Z (atoi <$> drop index argv)) 0
            <$> todo_lines s.
Proof.
  intros Hact Hfn Hindex Hnd. unfold call_fn_with_indexes.
  rewrite decide_True by done. rewrite parse_indexes_spec.
  set (kept := List.filter (λ z, 0 <? z)%Z (atoi <$> drop index argv)) in *.
  pose proof (qsort_perm compare_int_desc kept) as Hperm.
  assert (Hsorted : StronglySorted Z.gt (qsort compare_int_desc kept)).
  { apply sorted_nodup_strict; [apply qsort_compare_int_desc, kept_indexes_positive|].
    by rewrite Hperm. }
  destruct (call_each_numbered fn act _ Hact Hfn Hsorted
              (printf_all (Skipping_invalid_index
                 <$> List.filter (λ arg, atoi arg <=? 0)%Z (drop index argv)) s))
    as (s' & Hcall & Hfile & Hlines).
  exists s'. split; [done|]. split; [done|]. rewrite Hlines. simpl.
  destruct (todo_lines s) as [lines|]; [|done]. simpl. f_equal.
  apply act_numbered_ext. intros k _. by rewrite Hperm.
Qed.

(** X12. Batch removal removes the tasks that were asked for: when
    the positive numbers among the arguments are all different,
    [call_fn_with_indexes] with [remove_task] is defined and leaves
    the document without exactly those unfinished tasks whose number,
    counted in the document as it was at the start, is among the
    arguments; every other line stays, in order, and the file is not
    touched.  (Numbers beyond the number of unfinished tasks name no
    task and only produce a message.) *)
Theorem X12_batch_remove (argv : list cstring) (index : nat) (s : state) :
  index < length argv →
  NoDup (List.filter (λ z, 0 <? z)%Z (atoi <$> drop index argv)) →
  ∃ s',
    call_fn_with_indexes argv index remove_task s = Some s' ∧
    same_file s s' ∧
    todo_lines s'
    = remove_numbered (List.filter (λ z, 0 <? z)%Z (atoi <$> drop index argv)) 0
        <$> todo_lines s.
Proof.
  intros Hindex Hnd.
  destruct (batch_numbered remove_task (λ _, []) argv index s
              act_done_remove remove_task_numbered Hindex Hnd)
    as (s' & Hcall & Hfile & Hlines).
  exists s'. split; [done|]. split; [done|]. rewrite Hlines.
  destruct (todo_lines s); [|done]. simpl. by rewrite remove_numbered_act.
Qed.

(** X13. Batch checking marks the tasks that were asked for: when the
    positive numbers among the arguments are all different,
    [call_fn_with_indexes] with [check_todo] is defined and leaves the
    document with exactly those unfinished tasks marked as done whose
    number, counted in the document as it was at the start, is among
    the arguments; every other line is unchanged and the file is not
    touched. *)
Theorem X13_batch_check (argv : list cstring) (index : nat) (s : state) :
  index < length argv →
  NoDup (List.filter (λ z, 0 <? z)%Z (atoi <$> drop index argv)) →
  ∃ s',
    call_fn_with_indexes argv index check_todo s = Some s' ∧
    same_file s s' ∧
    todo_lines s'
    = check_numbered (List.filter (λ z, 0 <? z)%Z (atoi <$> drop index argv)) 0
        <$> todo_lines s.
Proof.
  intros Hindex Hnd.
  destruct (batch_numbered check_todo (λ line, [mark_done line]) argv index s
              act_done_check check_todo_numbered Hindex Hnd)
    as (s' & Hcall & Hfile & Hlines).
  exists s'. split; [done|]. split; [done|]. rewrite Hlines.
  destruct (todo_lines s); [|done]. simpl. by rewrite check_numbered_act.
Qed.

Lemma remove_1_3_nodup :
  NoDup (List.filter (λ z, 0 <? z)%Z (atoi <$> drop 2 remove_1_3)).
Proof.
  vm_compute. apply NoDup_cons. split; [|apply NoDup_singleton].
  rewrite list_elem_of_singleton. discriminate.
Defined.

Lemma X12_batch_remove_witness :
  2 < length remove_1_3 ∧
  NoDup (List.filter (λ z, 0 <? z)%Z (atoi <$> drop 2 remove_1_3)) ∧
  ∃ s',
    call_fn_with_indexes remove_1_3 2 remove_task tasks_ABC_state = Some s' ∧
    same_file tasks_ABC_state s' ∧
    todo_lines s'
    = remove_numbered (List.filter (λ z, 0 <? z)%Z (atoi <$> drop 2 remove_1_3)) 0
        <$> todo_lines tasks_ABC_state.
Proof.
  assert (H : 2 < length remove_1_3) by (vm_compute; lia).
  split; [exact H|]. split; [exact remove_1_3_nodup|].
  exact (X12_batch_remove remove_1_3 2 tasks_ABC_state H remove_1_3_nodup).
Defined.

Lemma X13_batch_check_witness :
  2 < length remove_1_3 ∧
  NoDup (List.filter (λ z, 0 <? z)%Z (atoi <$> drop 2 remove_1_3)) ∧
  ∃ s',
    call_fn_with_indexes remove_1_3 2 check_todo tasks_ABC_state = Some s' ∧
    same_file tasks_ABC_state s' ∧
    todo_lines s'
    = check_numbered (List.filter (λ z, 0 <? z)%Z (atoi <$> drop 2 remove_1_3)) 0
        <$> todo_lines tasks_ABC_state.
Proof.
  assert (H : 2 < length remove_1_3) by (vm_compute; lia).
  split; [exact H|]. split; [exact remove_1_3_nodup|].
  exact (X13_batch_check remove_1_3 2 tasks_ABC_state H remove_1_3_nodup).
Defined.

(** ** Numbers shift between calls *)

Section renumbering.
Context (act : cstring → list cstring).
Context (act_done : ∀ line, is_unfinished line = true →
                            List.filter is_unfinished (act line) = []).

Lemma act_numbered_shift (ks : list Z) (n : nat) (lines : list cstring) :
  act_numbered act ks n lines = act_numbered act (Z.succ <$> ks) (S n) lines.
Proof.
  revert n. induction lines as [|line rest IH]; intros n; simpl; [done|].
  destruct (is_unfinished line); [|by rewrite IH].
  rewrite (IH (S n)). f_equal.
  rewrite (bool_decide_ext _ (Z.of_nat (S (S n)) ∈ Z.succ <$> ks)); [done|].
  rewrite list_elem_of_fmap. split.
  - intros H. exists (Z.of_nat (S n)). split; [lia | done].
  - intros (k & Hk & Hin). by replace (Z.of_nat (S n)) with k by lia.
Qed.

Lemma act_numbered_skip (ks : list Z) (n : nat) (ls rest : list cstring) :
  List.filter is_unfinished ls = [] →
  act_numbered act ks n (ls ++ rest) = ls ++ act_numbered act ks n rest.
Proof.
  induction ls as [|x ls IH]; simpl; [done|].
  destruct (is_unfinished x); [done|]. intros H. by rewrite IH.
Qed.

(** After acting on task [k], the task that was number [m + 1] has
    number [m], for every [m] from [k] on. *)
Lemma act_numbered_then_later (k m : Z) (n : nat) (lines : list cstring) :
  (Z.of_nat n < k)%Z → (k ≤ m)%Z →
  act_numbered act [m] n (act_numbered act [k] n lines)
  = act_numbered act [k; (m + 1)%Z] n lines.
Proof.
  intros Hk Hm. revert n Hk.
  induction lines as [|line rest IH]; intros n Hk; simpl; [done|].
  destruct (is_unfinished line) eqn:Hline; simpl.
  - destruct (decide (Z.of_nat (S n) = k)) as [Heq|Hne].
    + rewrite bool_decide_true by (rewrite list_elem_of_singleton; done).
      rewrite (bool_decide_true (_ ∈ [k; _])) by (rewrite Heq; left).
      rewrite (act_numbered_id act [k] (S n))
        by (intros k' Hin; apply list_elem_of_singleton in Hin; lia).
      rewrite act_numbered_skip by by apply act_done. f_equal.
      rewrite act_numbered_shift. apply act_numbered_ext.
      intros k' Hk'. simpl. rewrite !elem_of_cons, elem_of_nil.
      split; [intros [->|[]]; right; left; lia | intros [->|[->|[]]]; [lia | left; lia]].
    + rewrite bool_decide_false by (rewrite list_elem_of_singleton; done).
      rewrite (bool_decide_false (_ ∈ [k; _]))
        by (rewrite !elem_of_cons, elem_of_nil; lia).
      simpl. rewrite Hline.
      rewrite bool_decide_false by (rewrite list_elem_of_singleton; lia).
      simpl. f_equal. apply IH. lia.
  - rewrite Hline. f_equal. by apply IH.
Qed.
End renumbering.

(** X14. Task numbers are resolved anew at every call.  After
    [check_todo n] (or [remove_task n]) with a positive [n], a second
    call with a number [m] not below [n] acts on the task that had
    number [m + 1] in the original document: the same number given
    twice reaches two different tasks. *)
Theorem X14_numbers_shift (s : state) (n m : Z) :
  (1 ≤ n ≤ m)%Z →
  (∃ s1 s2,
     check_todo n s = Some s1 ∧ check_todo m s1 = Some s2 ∧
     todo_lines s2 = check_numbered [n; (m + 1)%Z] 0 <$> todo_lines s) ∧
  (∃ s1 s2,
     remove_task n s = Some s1 ∧ remove_task m s1 = Some s2 ∧
     todo_lines s2 = remove_numbered [n; (m + 1)%Z] 0 <$> todo_lines s).
Proof.
  intros [Hn Hm]. split.
  - destruct (check_todo_numbered n s) as (s1 & H1 & _ & Hl1).
    destruct (check_todo_numbered m s1) as (s2 & H2 & _ & Hl2).
    exists s1, s2. split; [done|]. split; [done|].
    rewrite Hl2, Hl1. destruct (todo_lines s) as [lines|]; [|done]. simpl. f_equal.
    rewrite check_numbered_act.
    apply act_numbered_then_later; [apply act_done_check | lia | done].
  - destruct (remove_task_numbered n s) as (s1 & H1 & _ & Hl1).
    destruct (remove_task_numbered m s1) as (s2 & H2 & _ & Hl2).
    exists s1, s2. split; [done|]. split; [done|].
    rewrite Hl2, Hl1. destruct (todo_lines s) as [lines|]; [|done]. simpl. f_equal.
    rewrite remove_numbered_act.
    apply act_numbered_then_later; [apply act_done_remove | lia | done].
Qed.

Lemma X14_numbers_shift_witness :
  (1 ≤ 1 ≤ 1)%Z ∧
  (∃ s1 s2,
     check_todo 1 tasks_ABC_state = Some s1 ∧ check_todo 1 s1 = Some s2 ∧
     todo_lines s2 = check_numbered [1; 1 + 1]%Z 0 <$> todo_lines tasks_ABC_state) ∧
  (∃ s1 s2,
     remove_task 1 tasks_ABC_state = Some s1 ∧ remove_task 1 s1 = Some s2 ∧
     todo_lines s2 = remove_numbered [1; 1 + 1]%Z 0 <$> todo_lines tasks_ABC_state).
Proof.
  assert (H : (1 ≤ 1 ≤ 1)%Z) by lia.
  split; [exact H | exact (X14_numbers_shift tasks_ABC_state 1 1 H)].
Defined.

(** ** Adding a task, then loading again *)

Lemma begins_with_snoc_newline (marker line : cstring) :
  marker ≠ [] → LF ∉ marker →
  begins_with marker (line ++ [LF]) ↔ begins_with marker line.
Proof.
  intros Hne Hlf. split.
  - intros (ws & rest & Heq & Hws).
    destruct rest as [|c rest _] using rev_ind.
    + exfalso. rewrite app_nil_r in Heq.
      destruct marker as [|c marker _] using rev_ind; [done|].
      rewrite app_assoc in Heq. apply app_inj_tail in Heq as [_ <-].
      apply Hlf. rewrite elem_of_app, list_elem_of_singleton. auto.
    + rewrite !app_assoc in Heq. apply app_inj_tail in Heq as [-> _].
      exists ws, rest. by rewrite <- app_assoc.
  - intros (ws & rest & -> & Hws). exists ws, (rest ++ [LF]).
    by rewrite <- !app_assoc.
Qed.

Lemma is_unfinished_snoc_newline (line : cstring) :
  is_unfinished (line ++ [LF]) = is_unfinished line.
Proof.
  apply eq_true_iff_eq. rewrite !is_unfinished_spec.
  apply begins_with_snoc_newline; [done | apply not_elem_of_check; by vm_compute].
Qed.

(** [fgets] that stopped before the end of the stream reads the same
    whatever is put behind the stream. *)
Lemma fgets_chars_app_rest (n : nat) (a b buf rest : list ascii) :
  fgets_chars n a = (buf, rest) → rest ≠ [] →
  fgets_chars n (a ++ b) = (buf, rest ++ b).
Proof.
  intros E Hrest. destruct (fgets_chars_spec _ _ _ _ E) as (-> & Hlen & _ & Hshape).
  rewrite <- app_assoc.
  destruct Hshape as [[[Hfull|?] Hno]|(init & -> & Hno)]; [|done|].
  - rewrite <- Hfull. by apply fgets_chars_full.
  - rewrite <- app_assoc. simpl. apply fgets_chars_newline; [done|].
    rewrite length_app in Hlen. simpl in Hlen. lia.
Qed.

(** What a newline put behind a stream without NUL that does not end
    with one does to the stored lines: the last line gets it, or, when
    the last line fills the buffer, it becomes a line of its own. *)
Lemma loaded_lines_snoc_newline (stream : list ascii) :
  NUL ∉ stream → stream ≠ [] → last stream ≠ Some LF →
  ∃ init last_line,
    loaded_lines stream = init ++ [last_line] ∧
    last_line ≠ [] ∧ last last_line ≠ Some LF ∧
    (loaded_lines (stream ++ [LF]) = init ++ [last_line ++ [LF]] ∨
     loaded_lines (stream ++ [LF]) = init ++ [last_line; [LF]]).
Proof.
  remember (length stream) as n eqn:Hn. revert stream Hn.
  induction n as [n IH] using lt_wf_ind. intros stream -> Hnul Hne Hlast.
  destruct (fgets_chars (MAX_LINE_LENGTH - 1) stream) as [buf rest] eqn:E.
  rewrite (loaded_lines_step _ _ _ Hne E).
  pose proof (fgets_chars_progress _ _ _ Hne E) as Hlt.
  destruct (fgets_chars_spec _ _ _ _ E) as (Hs & Hlen & Hbuf & Hshape).
  assert (Hbufne : buf ≠ []) by (apply Hbuf; [done | unfold MAX_LINE_LENGTH; lia]).
  rewrite Hs in Hnul. apply not_elem_of_app in Hnul as [Hnb Hnr].
  rewrite strdup_id by done.
  destruct (decide (rest = [])) as [->|Hrest].
  - rewrite app_nil_r in Hs. subst stream. exists [], buf.
    assert (Hno : LF ∉ buf).
    { destruct Hshape as [[_ ?]|(init & -> & _)]; [done|].
      by rewrite last_snoc in Hlast. }
    split; [done|]. split; [done|]. split; [done|].
    destruct (decide (length buf < MAX_LINE_LENGTH - 1)) as [Hshort|Hfull].
    + left. rewrite (loaded_lines_short buf []) by done.
      rewrite strdup_id; [done|].
      rewrite not_elem_of_app, list_elem_of_singleton. by split.
    + right. rewrite (loaded_lines_long buf [LF]) by (done || lia).
      by rewrite strdup_id by done.
  - assert (Hlast' : last rest ≠ Some LF).
    { rewrite Hs, last_app in Hlast. by destruct (last rest). }
    destruct (IH (length rest) Hlt rest eq_refl Hnr Hrest Hlast')
      as (init & last_line & Hl & Hne' & Hll & Hshapes).
    exists (buf :: init), last_line. rewrite Hl. split; [done|].
    split; [done|]. split; [done|].
    assert (Hne2 : stream ++ [LF] ≠ []) by (by destruct stream).
    pose proof (fgets_chars_app_rest _ _ [LF] _ _ E Hrest) as E'.
    rewrite (loaded_lines_step _ _ _ Hne2 E'), strdup_id by done.
    destruct Hshapes as [->| ->]; [by left | by right].
Qed.

(** With a stream that ends with a newline, so does the last stored
    line, unless it is empty. *)
Lemma last_loaded_line_terminated (stream : list ascii) (line : cstring) :
  NUL ∉ stream → last stream = Some LF →
  last (loaded_lines stream) = Some line → lacks_newline line = false.
Proof.
  intros Hnul Hlast Hline.
  destruct (decide (stream = [])) as [->|Hne]; [done|].
  destruct (last_loaded_line stream Hne) as (before & chunk & -> & Hl & _).
  rewrite Hl in Hline. injection Hline as <-.
  apply not_elem_of_app in Hnul as [_ Hnc]. rewrite strdup_id by done.
  destruct chunk as [|c chunk _] using rev_ind; [done|].
  rewrite app_assoc, last_snoc in Hlast. injection Hlast as ->.
  apply not_true_is_false. intros H%lacks_newline_spec.
  destruct H as [_ H]. by rewrite last_snoc in H.
Qed.

Lemma new_task_line (task : cstring) :
  LF ∉ task → NUL ∉ task → length task < 249 →
  loaded_lines (lit "- [ ] " ++ task ++ [LF]) = [lit "- [ ] " ++ task ++ [LF]] ∧
  is_unfinished (lit "- [ ] " ++ task ++ [LF]) = true.
Proof.
  intros Hlf Hnul Hlen. split.
  - rewrite app_assoc.
    rewrite (loaded_lines_short (lit "- [ ] " ++ task) []).
    + rewrite strdup_id; [done|]. rewrite !not_elem_of_app.
      split; [split; [|done]|]; apply not_elem_of_check; by vm_compute.
    + rewrite length_app. unfold MAX_LINE_LENGTH. simpl. lia.
    + rewrite not_elem_of_app. split; [|done]. apply not_elem_of_check. by vm_compute.
  - apply is_unfinished_spec. exists [], (" "%char :: task ++ [LF]). by split.
Qed.

Lemma loaded_document (s : state) :
  file_readable s = true →
  default [] (get_all_lines s) = loaded_lines (default [] (file_contents s)).
Proof.
  intros Hr. unfold get_all_lines, fopen_r. rewrite Hr.
  destruct (file_contents s) as [bytes|]; [|done]. simpl.
  fold (loaded_lines bytes). by destruct (loaded_lines bytes).
Qed.

Lemma unfinished_lines_load (s : state) :
  file_readable s = true →
  unfinished_lines (load s)
  = List.filter is_unfinished (loaded_lines (default [] (file_contents s))).
Proof. intros Hr. unfold unfinished_lines. simpl. by rewrite loaded_document. Qed.

Lemma Forall2_same_or_newline (lines : list cstring) :
  Forall2 (λ line line', line' = line ∨ line' = line ++ [LF]) lines lines.
Proof. induction lines; constructor; auto. Qed.

(** X15. Adding a task and loading the file again.  For a file
    without NUL byte that can be read and written (or no file yet),
    and a task text without newline of fewer than 249 characters,
    [add_todo] on the loaded document is defined, and the document
    loaded afterwards has the unfinished tasks it had, in the same
    order and under the same numbers (the last one possibly with the
    newline it lacked), followed by one new unfinished task, the line
    "- [ ] <task>" with its newline. *)
Theorem X15_add_then_reload (s : state) (task : cstring) :
  file_readable s = true → file_writable s = true →
  NUL ∉ default [] (file_contents s) →
  LF ∉ task → NUL ∉ task → length task < 249 →
  ∃ s' old',
    add_todo task (load s) = Some s' ∧
    unfinished_lines (load s') = old' ++ [lit "- [ ] " ++ task ++ [LF]] ∧
    Forall2 (λ line line', line' = line ∨ line' = line ++ [LF])
            (unfinished_lines (load s)) old' ∧
    length (get_unfinished_tasks (load s'))
    = S (length (get_unfinished_tasks (load s))).
Proof.
  Local Opaque lit.
  intros Hr Hw Hnul Hlf Hnult Hlen.
  destruct (new_task_line task Hlf Hnult Hlen) as [Hnew Hunf].
  set (new_line := lit "- [ ] " ++ task ++ [LF]) in *.
  assert (Hcount : ∀ s0, length (get_unfinished_tasks s0) = length (unfinished_lines s0)).
  { intros s0. by rewrite get_unfinished_tasks_positions, length_positions. }
  assert (Hgoal : ∀ s' old',
    add_todo task (load s) = Some s' →
    unfinished_lines (load s') = old' ++ [new_line] →
    Forall2 (λ line line', line' = line ∨ line' = line ++ [LF])
            (unfinished_lines (load s)) old' →
    ∃ s' old',
      add_todo task (load s) = Some s' ∧
      unfinished_lines (load s') = old' ++ [new_line] ∧
      Forall2 (λ line line', line' = line ∨ line' = line ++ [LF])
              (unfinished_lines (load s)) old' ∧
      length (get_unfinished_tasks (load s'))
      = S (length (get_unfinished_tasks (load s)))).
  { intros s' old' H1 H2 H3. exists s', old'. split; [done|]. split; [done|].
    split; [done|]. rewrite !Hcount, H2, length_app. simpl.
    apply Forall2_length in H3. lia. }
  rewrite (unfinished_lines_load s Hr) in Hgoal |- *.
  assert (Hreload : ∀ file',
    unfinished_lines (load (set_file_contents file' (load s)))
    = List.filter is_unfinished (loaded_lines file')).
  { intros file'. by rewrite unfinished_lines_load. }
  destruct (decide (default [] (file_contents s) = [])) as [Hempty|Hne].
  - assert (Hload : get_all_lines s = None).
    { apply get_all_lines_null. unfold fopen_r. rewrite Hr.
      destruct (file_contents s) as [bytes|]; [right; simpl in Hempty; by subst | by left]. }
    eapply (Hgoal _ []).
    + by apply (add_todo_writable_absent task (load s)).
    + simpl. rewrite Hempty. simpl. rewrite Hreload.
      fold new_line. rewrite Hnew. simpl. by rewrite Hunf.
    + rewrite Hempty. constructor.
  - destruct (file_contents s) as [bytes|] eqn:Hfile; [|done]. simpl in Hne, Hnul.
    assert (Hload : get_all_lines s = Some (loaded_lines bytes)).
    { unfold get_all_lines, fopen_r. rewrite Hr, Hfile. fold (loaded_lines bytes).
      pose proof (loaded_lines_not_nil bytes Hne). by destruct (loaded_lines bytes). }
    destruct (add_todo_writable task (load s) (loaded_lines bytes) Hw Hload
                (loaded_lines_not_nil bytes Hne))
      as (last_line & Hlast & Hadd).
    simpl in Hadd. rewrite Hfile in Hadd. simpl in Hadd. fold new_line in Hadd.
    assert (Hcase : last bytes = Some LF ∨ last bytes ≠ Some LF).
    { destruct (last bytes) as [c|]; [|by right].
      destruct (Ascii.eqb_spec c LF) as [->|]; [by left | right; congruence]. }
    destruct Hcase as [Hterm|Hunterm].
    + rewrite (last_loaded_line_terminated bytes last_line Hnul Hterm Hlast) in Hadd.
      eapply (Hgoal _ (List.filter is_unfinished (loaded_lines bytes))).
      * exact Hadd.
      * rewrite Hreload. simpl. rewrite loaded_lines_app.
        -- fold new_line. rewrite Hnew, List.filter_app. simpl. by rewrite Hunf.
        -- right. apply last_Some in Hterm as [init ->]. by exists init.
      * simpl. apply Forall2_same_or_newline.
    + destruct (loaded_lines_snoc_newline bytes Hnul Hne Hunterm)
        as (init & ll & Hl & Hllne & Hll & Hshapes).
      rewrite Hl, last_snoc in Hlast. injection Hlast as <-.
      assert (Hlacks : lacks_newline ll = true) by by apply lacks_newline_spec.
      rewrite Hlacks in Hadd.
      assert (Hloaded : loaded_lines (bytes ++ [LF] ++ new_line)
                        = loaded_lines (bytes ++ [LF]) ++ [new_line]).
      { rewrite app_assoc, loaded_lines_app; [by rewrite Hnew|].
        right. by exists bytes. }
      destruct Hshapes as [Hshape|Hshape].
      * eapply (Hgoal _ (List.filter is_unfinished init
                         ++ List.filter is_unfinished [ll ++ [LF]])).
        -- exact Hadd.
        -- rewrite Hreload, Hloaded, Hshape, !List.filter_app. simpl.
           by rewrite Hunf, <- app_assoc.
        -- simpl. rewrite Hl, List.filter_app.
           apply Forall2_app; [apply Forall2_same_or_newline|]. simpl.
           rewrite is_unfinished_snoc_newline.
           destruct (is_unfinished ll); constructor; [by right | constructor].
      * eapply (Hgoal _ (List.filter is_unfinished init
                         ++ List.filter is_unfinished [ll])).
        -- exact Hadd.
        -- rewrite Hreload, Hloaded, Hshape, !List.filter_app. simpl.
           rewrite Hunf. replace (is_unfinished [LF]) with false by by vm_compute.
           done.
        -- simpl. rewrite Hl, List.filter_app. apply Forall2_same_or_newline.
  Local Transparent lit.
Qed.

Lemma X15_add_then_reload_witness :
  file_readable (on_disk file_abc) = true ∧
  file_writable (on_disk file_abc) = true ∧
  (NUL ∉ default [] (file_contents (on_disk file_abc))) ∧
  (LF ∉ lit "new") ∧ (NUL ∉ lit "new") ∧ length (lit "new") < 249 ∧
  ∃ s' old',
    add_todo (lit "new") (load (on_disk file_abc)) = Some s' ∧
    unfinished_lines (load s') = old' ++ [lit "- [ ] " ++ lit "new" ++ [LF]] ∧
    Forall2 (λ line line', line' = line ∨ line' = line ++ [LF])
            (unfinished_lines (load (on_disk file_abc))) old' ∧
    length (get_unfinished_tasks (load s'))
    = S (length (get_unfinished_tasks (load (on_disk file_abc)))).
Proof.
  assert (H1 : file_readable (on_disk file_abc) = true) by reflexivity.
  assert (H2 : file_writable (on_disk file_abc) = true) by reflexivity.
  assert (H3 : NUL ∉ default [] (file_contents (on_disk file_abc)))
    by (apply not_elem_of_check; vm_compute; reflexivity).
  assert (H4 : LF ∉ lit "new") by (apply not_elem_of_check; vm_compute; reflexivity).
  assert (H5 : NUL ∉ lit "new") by (apply not_elem_of_check; vm_compute; reflexivity).
  assert (H6 : length (lit "new") < 249) by (vm_compute; lia).
  split; [exact H1|]. split; [exact H2|]. split; [exact H3|].
  split; [exact H4|]. split; [exact H5|]. split; [exact H6|].
  exact (X15_add_then_reload (on_disk file_abc) (lit "new") H1 H2 H3 H4 H5 H6).
Defined.

(** ** The command line *)

Lemma strcmp_eq (s1 s2 : cstring) :
  NUL ∉ s1 → NUL ∉ s2 → strcmp s1 s2 = 0%Z ↔ s1 = s2.
Proof.
  revert s2. induction s1 as [|c1 s1 IH]; intros [|c2 s2] H1 H2; simpl.
  - done.
  - apply not_elem_of_cons in H2 as [H2 _]. split; [|done].
    intros Hz. exfalso. apply H2. symmetry. apply code_NUL. lia.
  - apply not_elem_of_cons in H1 as [H1 _]. split; [|done].
    intros Hz. exfalso. apply H1. symmetry. by apply code_NUL.
  - apply not_elem_of_cons in H1 as [? H1]. apply not_elem_of_cons in H2 as [? H2].
    destruct (Ascii.eqb_spec c1 c2) as [->|Hne].
    + rewrite IH by done. split; congruence.
    + split; [|congruence]. intros Hz. exfalso. apply Hne, code_inj. lia.
Qed.

Lemma strcmp_word (arg word : cstring) :
  NUL ∉ arg → forallb (λ x, negb (Ascii.eqb x NUL)) word = true →
  (strcmp arg word =? 0)%Z = true ↔ arg = word.
Proof.
  intros Harg Hword. rewrite Z.eqb_eq. apply strcmp_eq; [done|].
  by apply not_elem_of_check.
Qed.

(** [select_file] takes [argv[1]] for the file exactly when it is a
    name of more than three characters ending with ".md". *)
Lemma select_file_spec (arg1 : cstring) :
  NUL ∉ arg1 →
  (md_name arg1 → select_file arg1 = (arg1, 2)) ∧
  (¬ md_name arg1 → select_file arg1 = (lit "todo.md", 1)).
Proof.
  intros Hnul. unfold select_file.
  assert (Hnul' : NUL ∉ drop (length arg1 - 3) arg1).
  { intros H. apply Hnul. rewrite <- (take_drop (length arg1 - 3) arg1).
    apply elem_of_app. by right. }
  destruct (Nat.ltb_spec 3 (length arg1)) as [Hlen|Hlen]; cbn [andb].
  - destruct (Z.eqb_spec (strcmp (drop (length arg1 - 3) arg1) (lit ".md")) 0)
      as [Heq|Hne].
    + split; [done|]. intros Hno. exfalso. apply Hno.
      apply strcmp_eq in Heq; [|done | apply not_elem_of_check; by vm_compute].
      exists (take (length arg1 - 3) arg1). split.
      * intros H. apply (f_equal length) in H. rewrite length_take in H. simpl in H. lia.
      * by rewrite <- Heq, take_drop.
    + split; [|done]. intros (stem & Hstem & ->). exfalso. apply Hne.
      apply strcmp_eq; [done | apply not_elem_of_check; by vm_compute|].
      rewrite length_app. replace (length stem + length (lit ".md") - 3) with (length stem)
        by (simpl; lia).
      by rewrite drop_app_length.
  - split; [|done]. intros (stem & Hstem & ->). exfalso.
    rewrite length_app in Hlen. simpl in Hlen. destruct stem; [done | simpl in Hlen; lia].
Qed.

Lemma main_command (prog_name arg1 : cstring) (rest : list cstring)
    (disk : cstring → file) (name command : cstring) (argIndex : nat) :
  select_file arg1 = (name, argIndex) →
  (prog_name :: arg1 :: rest) !! argIndex = Some command →
  main (prog_name :: arg1 :: rest) disk
  = let argv := prog_name :: arg1 :: rest in
    let s := load (start (disk name)) in
    if (strcmp command (lit "list") =? 0)%Z || (strcmp command (lit "l") =? 0)%Z
    then out ← list_todos s; Some (Run 0 out (Some (name, s)))
    else if (strcmp command (lit "check") =? 0)%Z || (strcmp command (lit "c") =? 0)%Z
    then
      if decide (argIndex + 1 < length argv) then
        s' ← call_fn_with_indexes argv (argIndex + 1) check_todo s;
        Some (Run 0 (Message <$> stdout (save_todos s')) (Some (name, save_todos s')))
      else Some (Run 1 [Usage_check prog_name] (Some (name, s)))
    else if (strcmp command (lit "remove") =? 0)%Z || (strcmp command (lit "r") =? 0)%Z
    then
      if decide (argIndex + 1 < length argv) then
        s' ← call_fn_with_indexes argv (argIndex + 1) remove_task s;
        Some (Run 0 (Message <$> stdout (save_todos s')) (Some (name, save_todos s')))
      else Some (Run 1 [Usage_remove prog_name] (Some (name, s)))
    else if (strcmp command (lit "clean") =? 0)%Z
    then
      s' ← remove_finished_tasks s;
      Some (Run 0 (Message <$> stdout (save_todos s')) (Some (name, save_todos s')))
    else
      s' ← add_todo command s;
      Some (Run 0 (Message <$> stdout s') (Some (name, s'))).
Proof. intros Hsel Hcmd. unfold main. by rewrite Hsel, Hcmd. Qed.

(** X16. A run of [main] returns 0 or 1.  When it returns 1 it has
    printed one usage text and nothing else, and has changed nothing:
    if it got as far as loading the file, the file and [todo_lines]
    are as [get_all_lines] left them at the start. *)
Theorem X16_usage_errors (argv : list cstring) (disk : cstring → file) (r : run) :
  main argv disk = Some r →
  (exit_status r = 0%Z ∨ exit_status r = 1%Z) ∧
  (exit_status r = 1%Z →
   (∃ prog_name,
      argv !! 0 = Some prog_name ∧
      (printed r = [Usage prog_name] ∨ printed r = [Usage_check prog_name] ∨
       printed r = [Usage_remove prog_name])) ∧
   ∀ name s', used r = Some (name, s') → s' = load (start (disk name))).
Proof.
  destruct argv as [|prog_name [|arg1 rest]]; [done | |].
  { intros [= <-]. split; [by right|]. intros _. split; [|done].
    exists prog_name. split; [done | by left]. }
  destruct (select_file arg1) as [name argIndex] eqn:Hsel.
  destruct ((prog_name :: arg1 :: rest) !! argIndex) as [command|] eqn:Hcmd.
  2:{ unfold main. rewrite Hsel, Hcmd. intros [= <-]. split; [by right|].
      intros _. split; [|done]. exists prog_name. split; [done | by left]. }
  rewrite (main_command _ _ _ _ _ _ _ Hsel Hcmd). cbv zeta.
  assert (Hok : ∀ out s',
    (exit_status (Run 0 out (Some (name, s'))) = 0%Z ∨
     exit_status (Run 0 out (Some (name, s'))) = 1%Z) ∧
    (exit_status (Run 0 out (Some (name, s'))) = 1%Z →
     (∃ p, (prog_name :: arg1 :: rest) !! 0 = Some p ∧
        (printed (Run 0 out (Some (name, s'))) = [Usage p] ∨
         printed (Run 0 out (Some (name, s'))) = [Usage_check p] ∨
         printed (Run 0 out (Some (name, s'))) = [Usage_remove p])) ∧
     ∀ name0 s'0, used (Run 0 out (Some (name, s'))) = Some (name0, s'0) →
                  s'0 = load (start (disk name0)))).
  { intros out s'. split; [by left | done]. }
  destruct (_ || _).
  { destruct (list_todos _); [|done]. intros [= <-]. apply Hok. }
  destruct (_ || _).
  { destruct (decide _).
    - destruct (call_fn_with_indexes _ _ _ _); [|done]. intros [= <-]. apply Hok.
    - intros [= <-]. split; [by right|]. intros _. split.
      + exists prog_name. split; [done|]. right. by left.
      + by intros ? ? [= <- <-]. }
  destruct (_ || _).
  { destruct (decide _).
    - destruct (call_fn_with_indexes _ _ _ _); [|done]. intros [= <-]. apply Hok.
    - intros [= <-]. split; [by right|]. intros _. split.
      + exists prog_name. split; [done|]. right. by right.
      + by intros ? ? [= <- <-]. }
  destruct (_ =? _)%Z.
  { destruct (remove_finished_tasks _); [|done]. intros [= <-]. apply Hok. }
  destruct (add_todo _ _); [|done]. intros [= <-]. apply Hok.
Qed.

Lemma X16_usage_errors_witness :
  main [lit "todo"; lit "check"] (disk_with three_tasks)
  = Some (Run 1 [Usage_check (lit "todo")]
            (Some (lit "todo.md", load (start (disk_with three_tasks (lit "todo.md")))))) ∧
  (exit_status (Run 1 [Usage_check (lit "todo")]
                  (Some (lit "todo.md", load (start (disk_with three_tasks (lit "todo.md"))))))
   = 0%Z ∨
   exit_status (Run 1 [Usage_check (lit "todo")]
                  (Some (lit "todo.md", load (start (disk_with three_tasks (lit "todo.md"))))))
   = 1%Z) ∧
  (exit_status (Run 1 [Usage_check (lit "todo")]
                  (Some (lit "todo.md", load (start (disk_with three_tasks (lit "todo.md"))))))
   = 1%Z →
   (∃ prog_name,
      [lit "todo"; lit "check"] !! 0 = Some prog_name ∧
      (printed (Run 1 [Usage_check (lit "todo")]
                  (Some (lit "todo.md", load (start (disk_with three_tasks (lit "todo.md"))))))
       = [Usage prog_name] ∨
       printed (Run 1 [Usage_check (lit "todo")]
                  (Some (lit "todo.md", load (start (disk_with three_tasks (lit "todo.md"))))))
       = [Usage_check prog_name] ∨
       printed (Run 1 [Usage_check (lit "todo")]
                  (Some (lit "todo.md", load (start (disk_with three_tasks (lit "todo.md"))))))
       = [Usage_remove prog_name])) ∧
   ∀ name s',
     used (Run 1 [Usage_check (lit "todo")]
             (Some (lit "todo.md", load (start (disk_with three_tasks (lit "todo.md"))))))
     = Some (name, s') →
     s' = load (start (disk_with three_tasks name))).
Proof.
  assert (H : main [lit "todo"; lit "check"] (disk_with three_tasks)
    = Some (Run 1 [Usage_check (lit "todo")]
              (Some (lit "todo.md", load (start (disk_with three_tasks (lit "todo.md")))))))
    by reflexivity.
  split; [exact H|].
  exact (X16_usage_errors _ _ _ H).
Defined.

Lemma not_command_word (task word : cstring) :
  NUL ∉ task → task ∉ command_words → word ∈ command_words →
  (strcmp task word =? 0)%Z = false.
Proof.
  intros Hnul Hnot Hword. apply not_true_is_false. intros H.
  apply strcmp_word in H; [by subst | done |].
  unfold command_words in Hword. rewrite !elem_of_cons, elem_of_nil in Hword.
  destruct Hword as [->|[->|[->|[->|[->|[->|[->|[]]]]]]]]; by vm_compute.
Qed.

(** X17. What [main] does with a single argument that is a C string.
    An argument of more than three characters that ends with ".md" is
    taken for the file name: no command is left, the usage text is
    printed and 1 returned; such a text cannot be added as a task.
    Any other argument that is not one of the command words is the
    text of a task that [add_todo] appends to "todo.md". *)
Theorem X17_single_argument (prog_name task : cstring) (disk : cstring → file) :
  NUL ∉ task →
  (md_name task →
   main [prog_name; task] disk = Some (Run 1 [Usage prog_name] None)) ∧
  (¬ md_name task → task ∉ command_words →
   main [prog_name; task] disk
   = s' ← add_todo task (load (start (disk (lit "todo.md"))));
     Some (Run 0 (Message <$> stdout s') (Some (lit "todo.md", s')))).
Proof.
  intros Hnul. destruct (select_file_spec task Hnul) as [Hmd Hno]. split.
  - intros H. unfold main. by rewrite (Hmd H).
  - intros H Hword.
    rewrite (main_command prog_name task [] disk (lit "todo.md") task 1 (Hno H) eq_refl).
    cbv zeta.
    rewrite !(not_command_word task) by
      (done || (unfold command_words; rewrite !elem_of_cons; auto 10)).
    done.
Qed.

Lemma X17_single_argument_witness :
  (NUL ∉ lit "buy milk") ∧
  (md_name (lit "buy milk") →
   main [lit "todo"; lit "buy milk"] (disk_with three_tasks)
   = Some (Run 1 [Usage (lit "todo")] None)) ∧
  (¬ md_name (lit "buy milk") → lit "buy milk" ∉ command_words →
   main [lit "todo"; lit "buy milk"] (disk_with three_tasks)
   = s' ← add_todo (lit "buy milk")
              (load (start (disk_with three_tasks (lit "todo.md"))));
     Some (Run 0 (Message <$> stdout s') (Some (lit "todo.md", s')))).
Proof.
  assert (H : NUL ∉ lit "buy milk")
    by (apply not_elem_of_check; vm_compute; reflexivity).
  split; [exact H|].
  exact (X17_single_argument (lit "todo") (lit "buy milk") (disk_with three_tasks) H).
Defined.

(** ** Commands on a text file *)

Lemma load_text_file (disk : cstring → file) (name : cstring) (lines : list cstring) :
  disk name = File (Some (concat lines)) true true →
  Forall text_line lines → lines ≠ [] →
  get_all_lines (start (disk name)) = Some lines ∧
  file_writable (load (start (disk name))) = true.
Proof.
  intros Hdisk Htext Hne. rewrite Hdisk. split; [|done].
  unfold get_all_lines, fopen_r. simpl. fold (loaded_lines (concat lines)).
  rewrite loaded_lines_text by done. by destruct lines.
Qed.

Lemma save_todos_writable (s : state) (lines : list cstring) :
  todo_lines s = Some lines → file_writable s = true →
  file_contents (save_todos s) = Some (concat lines) ∧
  stdout (save_todos s) = stdout s.
Proof.
  intros Hs Hw. unfold save_todos. rewrite Hs, Hw. simpl.
  by rewrite write_lines_concat.
Qed.

Lemma filter_not_finished_id (lines : list cstring) :
  List.filter is_finished lines = [] →
  List.filter (λ line, negb (is_finished line)) lines = lines.
Proof.
  induction lines as [|x lines IH]; simpl; [done|].
  destruct (is_finished x); simpl; [done|]. intros H. by rewrite IH.
Qed.

(** X18. The command [clean] on a text file (every line fewer than
    255 characters without newline or NUL, then a newline) that can be
    read and written: [main] returns 0, and the file then holds the
    lines that are not finished tasks, byte for byte and in order.
    When there was no finished task it prints "No finished tasks
    found." and the file keeps its bytes. *)
Theorem X18_clean_file (prog_name arg1 : cstring) (rest : list cstring)
    (disk : cstring → file) (name : cstring) (argIndex : nat) (lines : list cstring) :
  select_file arg1 = (name, argIndex) →
  (prog_name :: arg1 :: rest) !! argIndex = Some (lit "clean") →
  disk name = File (Some (concat lines)) true true →
  Forall text_line lines → lines ≠ [] →
  ∃ s',
    main (prog_name :: arg1 :: rest) disk
    = Some (Run 0 (Message <$> stdout s') (Some (name, s'))) ∧
    file_contents s'
    = Some (concat (List.filter (λ line, negb (is_finished line)) lines)) ∧
    (List.filter is_finished lines = [] →
     stdout s' = [No_finished_tasks_found] ∧ file_contents s' = Some (concat lines)) ∧
    (List.filter is_finished lines ≠ [] → stdout s' = []).
Proof.
  intros Hsel Hcmd Hdisk Htext Hne.
  destruct (load_text_file disk name lines Hdisk Htext Hne) as [Hload Hw].
  rewrite (main_command _ _ _ _ _ _ _ Hsel Hcmd). cbv zeta. decide_command.
  assert (Hfin : get_finished_tasks (load (start (disk name))) = [] ↔
                 List.filter is_finished lines = []).
  { rewrite get_finished_tasks_positions. simpl. rewrite Hload. simpl.
    rewrite <- !length_zero_iff_nil. by rewrite length_positions. }
  destruct (remove_finished_tasks_state (load (start (disk name))))
    as [[Hnone ->]|(lines' & Hs' & Hsome & ->)]; cbn [mbind option_bind].
  - apply Hfin in Hnone as Hnone'.
    destruct (save_todos_writable (printf No_finished_tasks_found (load (start (disk name))))
                lines Hload Hw) as [Hfile Hout].
    eexists. split; [done|]. rewrite Hfile, Hout.
    rewrite filter_not_finished_id by done. split; [done|]. split; [done|].
    by intros H.
  - simpl in Hs'. rewrite Hload in Hs'. injection Hs' as <-.
    destruct (save_todos_writable
                (set_todo_lines
                   (Some (List.filter (λ line, negb (is_finished line)) lines))
                   (load (start (disk name)))) _ eq_refl Hw) as [Hfile Hout].
    eexists. split; [done|]. rewrite Hfile, Hout. split; [done|].
    split; [|done]. intros H. by apply Hfin in H.
Qed.

Lemma three_tasks_text : Forall text_line three_tasks.
Proof.
  repeat constructor.
  - exists (lit "- [ ] Task 1"). split; [done|]. split; [by vm_compute; lia|].
    split; apply not_elem_of_check; by vm_compute.
  - exists (lit "- [x] Task 2"). split; [done|]. split; [by vm_compute; lia|].
    split; apply not_elem_of_check; by vm_compute.
  - exists (lit "- [ ] Task 3"). split; [done|]. split; [by vm_compute; lia|].
    split; apply not_elem_of_check; by vm_compute.
Defined.

Lemma three_tasks_not_nil : three_tasks ≠ [].
Proof. discriminate. Defined.

Lemma X18_clean_file_witness :
  select_file (lit "clean") = (lit "todo.md", 1) ∧
  [lit "todo"; lit "clean"] !! 1 = Some (lit "clean") ∧
  disk_with three_tasks (lit "todo.md") = File (Some (concat three_tasks)) true true ∧
  Forall text_line three_tasks ∧ three_tasks ≠ [] ∧
  ∃ s',
    main [lit "todo"; lit "clean"] (disk_with three_tasks)
    = Some (Run 0 (Message <$> stdout s') (Some (lit "todo.md", s'))) ∧
    file_contents s'
    = Some (concat (List.filter (λ line, negb (is_finished line)) three_tasks)) ∧
    (List.filter is_finished three_tasks = [] →
     stdout s' = [No_finished_tasks_found] ∧
     file_contents s' = Some (concat three_tasks)) ∧
    (List.filter is_finished three_tasks ≠ [] → stdout s' = []).
Proof.
  split; [reflexivity|]. split; [reflexivity|]. split; [reflexivity|].
  split; [exact three_tasks_text|]. split; [exact three_tasks_not_nil|].
  exact (X18_clean_file (lit "todo") (lit "clean") [] (disk_with three_tasks)
           (lit "todo.md") 1 three_tasks eq_refl eq_refl eq_refl
           three_tasks_text three_tasks_not_nil).
Defined.

(** X19. The commands [remove] and [check] on a text file that can be
    read and written, with at least one number, the positive numbers
    being all different: [main] returns 0 and the file then holds the
    former lines, byte for byte and in order, without the unfinished
    tasks whose numbers were given (for [remove], [r]), or with
    exactly these tasks marked as done (for [check], [c]). *)
Theorem X19_batch_file (prog_name arg1 : cstring) (rest : list cstring)
    (disk : cstring → file) (name command : cstring) (argIndex : nat)
    (lines : list cstring) :
  select_file arg1 = (name, argIndex) →
  (prog_name :: arg1 :: rest) !! argIndex = Some command →
  argIndex + 1 < length (prog_name :: arg1 :: rest) →
  NoDup (List.filter (λ z, 0 <? z)%Z
           (atoi <$> drop (argIndex + 1) (prog_name :: arg1 :: rest))) →
  disk name = File (Some (concat lines)) true true →
  Forall text_line lines → lines ≠ [] →
  (command = lit "remove" ∨ command = lit "r" →
   ∃ s',
     main (prog_name :: arg1 :: rest) disk
     = Some (Run 0 (Message <$> stdout s') (Some (name, s'))) ∧
     file_contents s'
     = Some (concat (remove_numbered
                       (List.filter (λ z, 0 <? z)%Z
                          (atoi <$> drop (argIndex + 1) (prog_name :: arg1 :: rest)))
                       0 lines))) ∧
  (command = lit "check" ∨ command = lit "c" →
   ∃ s',
     main (prog_name :: arg1 :: rest) disk
     = Some (Run 0 (Message <$> stdout s') (Some (name, s'))) ∧
     file_contents s'
     = Some (concat (check_numbered
                       (List.filter (λ z, 0 <? z)%Z
                          (atoi <$> drop (argIndex + 1) (prog_name :: arg1 :: rest)))
                       0 lines))).
Proof.
  intros Hsel Hcmd Hindex Hnd Hdisk Htext Hne.
  destruct (load_text_file disk name lines Hdisk Htext Hne) as [Hload Hw].
  rewrite (main_command _ _ _ _ _ _ _ Hsel Hcmd). cbv zeta.
  rewrite (decide_True (P := argIndex + 1 < _)) by done.
  split.
  - destruct (batch_numbered remove_task (λ _, []) _ _ (load (start (disk name)))
                act_done_remove remove_task_numbered Hindex Hnd)
      as (s' & Hcall & (_ & _ & Hw') & Hlines).
    cbn [load set_todo_lines todo_lines] in Hlines. rewrite Hload in Hlines.
    cbn [fmap option_fmap option_map] in Hlines.
    rewrite <- remove_numbered_act in Hlines. rewrite Hw in Hw'.
    destruct (save_todos_writable s' _ Hlines Hw') as [Hfile _].
    intros [-> | ->]; decide_command; rewrite Hcall; cbn [mbind option_bind];
      rewrite decide_True by exact Hindex; exists (save_todos s'); by split.
  - destruct (batch_numbered check_todo (λ line, [mark_done line]) _ _
                (load (start (disk name))) act_done_check check_todo_numbered Hindex Hnd)
      as (s' & Hcall & (_ & _ & Hw') & Hlines).
    cbn [load set_todo_lines todo_lines] in Hlines. rewrite Hload in Hlines.
    cbn [fmap option_fmap option_map] in Hlines.
    rewrite <- check_numbered_act in Hlines. rewrite Hw in Hw'.
    destruct (save_todos_writable s' _ Hlines Hw') as [Hfile _].
    intros [-> | ->]; decide_command; rewrite Hcall; cbn [mbind option_bind];
      exists (save_todos s'); by split.
Qed.

Lemma X19_batch_file_witness :
  select_file (lit "remove") = (lit "todo.md", 1) ∧
  remove_1_3 !! 1 = Some (lit "remove") ∧
  1 + 1 < length remove_1_3 ∧
  NoDup (List.filter (λ z, 0 <? z)%Z (atoi <$> drop (1 + 1) remove_1_3)) ∧
  disk_with three_tasks (lit "todo.md") = File (Some (concat three_tasks)) true true ∧
  Forall text_line three_tasks ∧ three_tasks ≠ [] ∧
  (lit "remove" = lit "remove" ∨ lit "remove" = lit "r" →
   ∃ s',
     main remove_1_3 (disk_with three_tasks)
     = Some (Run 0 (Message <$> stdout s') (Some (lit "todo.md", s'))) ∧
     file_contents s'
     = Some (concat (remove_numbered
                       (List.filter (λ z, 0 <? z)%Z (atoi <$> drop (1 + 1) remove_1_3))
                       0 three_tasks))).
Proof.
  assert (H : 1 + 1 < length remove_1_3) by (vm_compute; lia).
  split; [reflexivity|]. split; [reflexivity|]. split; [exact H|].
  split; [exact remove_1_3_nodup|]. split; [reflexivity|].
  split; [exact three_tasks_text|]. split; [exact three_tasks_not_nil|].
  exact (proj1 (X19_batch_file (lit "todo") (lit "remove") [lit "1"; lit "3"]
                  (disk_with three_tasks) (lit "todo.md") (lit "remove") 1
                  three_tasks eq_refl eq_refl H remove_1_3_nodup eq_refl
                  three_tasks_text three_tasks_not_nil)).
Defined.

(** ** Runs without a document *)

Lemma call_each_no_task (fn : Z → state → option state) (ks : list Z) (s : state) :
  (∀ k s, (0 < k)%Z → get_unfinished_tasks s = [] →
          fn k s = Some (printf No_unfinished_tasks_found s)) →
  Forall (λ k, 0 < k)%Z ks → get_unfinished_tasks s = [] →
  call_each fn ks s
  = Some (printf_all (replicate (length ks) No_unfinished_tasks_found) s).
Proof.
  intros Hfn Hks. revert s. induction Hks as [|k ks Hk Hks IH]; intros s Hs; simpl.
  - unfold printf_all. rewrite app_nil_r. by destruct s.
  - rewrite Hfn by done. simpl. rewrite IH by done.
    unfold printf_all, printf. simpl. by rewrite <- app_assoc.
Qed.

Lemma check_todo_no_task (k : Z) (s : state) :
  (0 < k)%Z → get_unfinished_tasks s = [] →
  check_todo k s = Some (printf No_unfinished_tasks_found s).
Proof.
  intros Hk Hs. unfold check_todo. rewrite Hs.
  by destruct (Z.leb_spec k 0); [lia|].
Qed.

Lemma remove_task_no_task (k : Z) (s : state) :
  (0 < k)%Z → get_unfinished_tasks s = [] →
  remove_task k s = Some (printf No_unfinished_tasks_found s).
Proof.
  intros Hk Hs. unfold remove_task. rewrite Hs.
  by destruct (Z.leb_spec k 0); [lia|].
Qed.

Lemma batch_no_task (fn : Z → state → option state) (argv : list cstring)
    (index : nat) (s : state) :
  (∀ k s, (0 < k)%Z → get_unfinished_tasks s = [] →
          fn k s = Some (printf No_unfinished_tasks_found s)) →
  index < length argv → get_unfinished_tasks s = [] →
  call_fn_with_indexes argv index fn s
  = Some (printf_all (no_task_messages (drop index argv)) s).
Proof.
  intros Hfn Hindex Hs. unfold call_fn_with_indexes.
  rewrite decide_True by done. rewrite parse_indexes_spec. cbn [app].
  set (kept := List.filter (λ z, 0 <? z)%Z (atoi <$> drop index argv)).
  rewrite (call_each_no_task fn); [| done | | done].
  - rewrite (qsort_perm compare_int_desc kept : qsort _ _ ≡ₚ _).
    unfold no_task_messages, printf_all. simpl. by rewrite app_assoc.
  - rewrite (qsort_perm compare_int_desc kept : qsort _ _ ≡ₚ _).
    apply Forall_forall. intros k Hk. unfold kept in Hk.
    apply list_elem_of_In, filter_In in Hk as [_ Hk]. by apply Z.ltb_lt.
Qed.

(** X20. Without a document nothing is written.  When the file is
    missing, cannot be read or is empty ([get_all_lines] returns
    NULL), the commands [list], [check], [remove] and [clean] return 0
    and leave the file as it was, so none of them creates it, and
    [todo_lines] stays NULL.  [list] prints "No unfinished tasks
    found.", [clean] prints "No finished tasks found.", and [check]
    and [remove] print one "Skipping invalid index" for each argument
    that is no positive number and then one "No unfinished tasks
    found." for each of the others. *)
Theorem X20_no_document (prog_name arg1 : cstring) (rest : list cstring)
    (disk : cstring → file) (name command : cstring) (argIndex : nat) :
  select_file arg1 = (name, argIndex) →
  (prog_name :: arg1 :: rest) !! argIndex = Some command →
  get_all_lines (start (disk name)) = None →
  ∀ messages,
    (command = lit "list" ∨ command = lit "l") ∧
      messages = [No_unfinished_tasks_found] ∨
    command = lit "clean" ∧ messages = [No_finished_tasks_found] ∨
    (command = lit "check" ∨ command = lit "c" ∨
     command = lit "remove" ∨ command = lit "r") ∧
      argIndex + 1 < length (prog_name :: arg1 :: rest) ∧
      messages = no_task_messages (drop (argIndex + 1) (prog_name :: arg1 :: rest)) →
    ∃ s',
      main (prog_name :: arg1 :: rest) disk
      = Some (Run 0 (Message <$> messages) (Some (name, s'))) ∧
      file_contents s' = contents (disk name) ∧ todo_lines s' = None.
Proof.
  intros Hsel Hcmd Hload messages Hcase.
  rewrite (main_command _ _ _ _ _ _ _ Hsel Hcmd). cbv zeta.
  assert (Hs : todo_lines (load (start (disk name))) = None) by done.
  assert (Hu : get_unfinished_tasks (load (start (disk name))) = []).
  { unfold get_unfinished_tasks. by rewrite Hs. }
  destruct Hcase as [[Hc ->] | [[-> ->] | (Hc & Hindex & ->)]].
  - exists (load (start (disk name))). split; [|done].
    unfold list_todos. rewrite Hu. by destruct Hc as [-> | ->].
  - decide_command. unfold remove_finished_tasks, get_finished_tasks.
    rewrite Hs. cbn [length Nat.eqb mbind option_bind].
    exists (printf No_finished_tasks_found (load (start (disk name)))).
    unfold save_todos. cbn [printf todo_lines]. by rewrite Hs.
  - exists (printf_all (no_task_messages (drop (argIndex + 1) (prog_name :: arg1 :: rest)))
              (load (start (disk name)))).
    split; [|done].
    assert (Hsave : ∀ ms, save_todos (printf_all ms (load (start (disk name))))
                          = printf_all ms (load (start (disk name)))).
    { intros ms. unfold save_todos. cbn [printf_all todo_lines]. by rewrite Hs. }
    destruct Hc as [-> | [-> | [-> | ->]]]; decide_command;
      rewrite decide_True by exact Hindex;
      rewrite ?(batch_no_task check_todo _ _ _ check_todo_no_task Hindex Hu),
              ?(batch_no_task remove_task _ _ _ remove_task_no_task Hindex Hu);
      cbn [mbind option_bind]; by rewrite Hsave.
Qed.

Lemma X20_no_document_witness :
  select_file (lit "remove") = (lit "todo.md", 1) ∧
  remove_1_3 !! 1 = Some (lit "remove") ∧
  get_all_lines (start (no_disk (lit "todo.md"))) = None ∧
  ∃ s',
    main remove_1_3 no_disk
    = Some (Run 0 (Message <$> no_task_messages (drop (1 + 1) remove_1_3))
              (Some (lit "todo.md", s'))) ∧
    file_contents s' = contents (no_disk (lit "todo.md")) ∧ todo_lines s' = None.
Proof.
  split; [reflexivity|]. split; [reflexivity|]. split; [reflexivity|].
  apply (X20_no_document (lit "todo") (lit "remove") [lit "1"; lit "3"] no_disk
           (lit "todo.md") (lit "remove") 1 eq_refl eq_refl eq_refl).
  right. right. split; [by right; right; left|].
  split; [vm_compute; lia | reflexivity].
Defined.
